(** * SingularityViewer: per-service curl queues and the texture fetch worker

    A shallow embedding of
    - [AIPerService] (aiperservice.cpp): the canonical service name of a URL,
      the per-capability-type request queues, [cancel] and [add_queued_to];
    - [PerHostRequestQueue] (aicurlperhost.cpp): the older per-host queue;
    - [LLTextureFetchWorker], [SGHostBlackList] and [LLTextureFetch]
      (lltexturefetch.cpp): the host blacklist, the packet assembler, the
      [doWork] state machine and [getRequestFinished].

    Integers of the source are [Z]; a C++ pointer that may be NULL is an
    [option]; a [std::deque] or [std::vector] is a [list], indexed with
    stdpp's lookup and insert. *)

From Stdlib Require Import ZArith Lia Ascii String.
From stdpp Require Import base option list gmap strings pretty.

Local Open Scope Z_scope.

(** ** Characters of a [std::string] *)

Module Chars.

Definition NUL : ascii := Ascii.zero.

(** [url.data()[i]]: the buffer of a [std::string] is followed by a
    terminating zero, which is what [p[1]] reads at the last character. *)
Definition char_at (s : list ascii) (i : nat) : ascii := default NUL (s !! i).

Definition code (c : ascii) : Z := Z.of_N (N_of_ascii c).

(** [LLStringOps::isDigit]: the C [isdigit] of the character. *)
Definition isDigit (c : ascii) : bool := (code "0" <=? code c) && (code c <=? code "9").

(** [if (c >= 'A' && c <= 'Z') c += ('a' - 'A');] followed by the conversion
    of the [int] back to a [char] done by [servicename += c]. *)
Definition lowercase (c : ascii) : ascii :=
  if (code "A" <=? code c) && (code c <=? code "Z")
  then ascii_of_N (Z.to_N (code c + (code "a" - code "A")))
  else c.

Definition is_char (c d : ascii) : bool := bool_decide (c = d).

End Chars.

(** ** The [std::deque] of queued requests *)

Module Deque.
Section Deque.
Context {A : Type} `{EqDecision A}.

(** [std::find(begin, end, x)] as an offset from [begin]; the length of the
    deque stands for [end]. *)
Fixpoint find_index (q : list A) (x : A) : nat :=
  match q with
  | [] => O
  | y :: q' => if decide (y = x) then O else S (find_index q' x)
  end.

(** [prev->swap( *cur)] on two positions of the deque. *)
Definition swap_at (q : list A) (prev cur : nat) : list A :=
  match q !! prev, q !! cur with
  | Some a, Some b => <[cur := a]> (<[prev := b]> q)
  | _, _ => q
  end.

(** [while (++cur != end) { prev->swap( *cur); prev = cur; }]; [cur] only
    moves towards [end], so the length of the deque is enough fuel. *)
Fixpoint swap_to_back (fuel : nat) (q : list A) (prev cur : nat) : list A :=
  match fuel with
  | O => q
  | S fuel' =>
      let cur' := S cur in
      if bool_decide (cur' = length q) then q
      else swap_to_back fuel' (swap_at q prev cur') cur' cur'
  end.

(** [pop_back()] *)
Definition pop_back (q : list A) : list A := take (length q - 1)%nat q.

(** The part of [cancel] that works on the deque: [None] is "Not found". *)
Definition cancel_deque (q : list A) (x : A) : option (list A) :=
  let cur := find_index q x in
  if bool_decide (cur = length q) then None
  else Some (pop_back (swap_to_back (length q) q cur cur)).

End Deque.
End Deque.

(** ** aiperservice.cpp *)

Module AIPerService.
Import Chars Deque.

(** *** [extract_canonical_servicename] *)

(** The local variables of the scanning loop.  Pointers into the URL are
    offsets from [url.data()]. *)
Record scan := Scan {
  p : nat;
  sheme_colon : option nat;
  sheme_slash : option nat;
  first_ampersand : option nat;
  port_colon : option nat;
  servicename : list ascii;
  hostname : nat
}.

Definition scan_init : scan :=
  {| p := 0; sheme_colon := None; sheme_slash := None; first_ampersand := None;
     port_colon := None; servicename := []; hostname := 0 |}.

Definition is_null (q : option nat) : bool := bool_decide (q = None).

(** The scan [s] with [p] at offset [q] and [name] accumulated. *)
Definition scan_at (s : scan) (q : nat) (name : list ascii) : scan :=
  {| p := q; sheme_colon := sheme_colon s; sheme_slash := sheme_slash s;
     first_ampersand := first_ampersand s; port_colon := port_colon s;
     servicename := name; hostname := hostname s |}.

(** The three-way branch on the character at [p]; [None] is the [break]. *)
Definition scan_char (url : list ascii) (s : scan) : option scan :=
  let c := char_at url (p s) in
  if is_char c ":" then
    if is_null (port_colon s) && isDigit (char_at url (S (p s))) then
      Some {| p := p s; sheme_colon := sheme_colon s; sheme_slash := sheme_slash s;
              first_ampersand := first_ampersand s; port_colon := Some (p s);
              servicename := servicename s; hostname := hostname s |}
    else if is_null (sheme_colon s) && is_null (sheme_slash s)
            && is_null (first_ampersand s) && is_null (port_colon s) then
      Some {| p := p s; sheme_colon := Some (p s); sheme_slash := sheme_slash s;
              first_ampersand := first_ampersand s; port_colon := port_colon s;
              servicename := servicename s; hostname := hostname s |}
    else Some s
  else if is_char c "/" then
    if is_null (sheme_slash s)
       && bool_decide (sheme_colon s ≠ None ∧ sheme_colon s = Some (Nat.pred (p s)) ∧ (0 < p s)%nat)
       && is_null (first_ampersand s)
       && is_char (char_at url (S (p s))) "/" then
      Some {| p := S (p s); sheme_colon := sheme_colon s; sheme_slash := Some (p s);
              first_ampersand := first_ampersand s; port_colon := port_colon s;
              servicename := []; hostname := S (S (p s)) |}
    else None
  else if is_char c "@" then
    if is_null (first_ampersand s) then
      Some {| p := p s; sheme_colon := sheme_colon s; sheme_slash := sheme_slash s;
              first_ampersand := Some (p s); port_colon := port_colon s;
              servicename := []; hostname := S (p s) |}
    else Some s
  else Some s.

(** The tail of the loop body: append the lowercased character when it lies
    in the host part, then [++p].  [c] is the character read at the top of
    the iteration. *)
Definition scan_append (c : ascii) (s : scan) : scan :=
  {| p := S (p s); sheme_colon := sheme_colon s; sheme_slash := sheme_slash s;
     first_ampersand := first_ampersand s; port_colon := port_colon s;
     servicename := if bool_decide (hostname s ≤ p s)%nat
                    then servicename s ++ [lowercase c] else servicename s;
     hostname := hostname s |}.

(** [while (p < end) { ... }]; every iteration advances [p], so the length
    of the URL is enough fuel. *)
Fixpoint scan_loop (fuel : nat) (url : list ascii) (s : scan) : scan :=
  match fuel with
  | O => s
  | S fuel' =>
      if bool_decide (p s < length url)%nat then
        match scan_char url s with
        | None => s
        | Some s' => scan_loop fuel' url (scan_append (char_at url (p s)) s')
        end
      else s
  end.

(** [servicename.substr(0, n)] with [n] a [size_t]: a negative difference
    wraps to a huge count, and [substr] then returns the whole string. *)
Definition substr0 (s : list ascii) (n : Z) : list ascii :=
  if n <? 0 then s else take (Z.to_nat n) s.

Definition strip_port80 (url : list ascii) (s : scan) : list ascii :=
  if bool_decide (port_colon s = Some (p s - 3)%nat ∧ (3 ≤ p s)%nat)
     && is_char (char_at url (p s - 1)) "0"
     && is_char (char_at url (p s - 2)) "8"
  then substr0 (servicename s) (Z.of_nat (p s) - Z.of_nat (hostname s) - 3)
  else servicename s.

Definition extract_canonical_servicename_chars (url : list ascii) : list ascii :=
  strip_port80 url (scan_loop (length url) url scan_init).

Definition extract_canonical_servicename (url : string) : string :=
  string_of_list_ascii (extract_canonical_servicename_chars (list_ascii_of_string url)).


(** A character that none of the three branches of the loop looks at. *)
Definition plain (c : ascii) : Prop := c ≠ ":"%char ∧ c ≠ "/"%char ∧ c ≠ "@"%char.

(** The characters of a userinfo that the scan steps over: no slash, no
    at-sign, and no colon that is followed by a digit (such a colon would be
    taken for the one in front of the port). *)
Definition userinfo_chars (seg : list ascii) : Prop :=
  Forall (λ c, c ≠ "/"%char ∧ c ≠ "@"%char) seg
  ∧ ∀ i, seg !! i = Some ":"%char → isDigit (char_at seg (S i)) = false.

(** The URL scheme://[userinfo@]host:port[path] as characters. *)
Definition url_of_parts (scheme : list ascii) (userinfo : option (list ascii))
    (host port path : list ascii) : list ascii :=
  scheme ++ ":"%char :: "/"%char :: "/"%char ::
    from_option (λ u, u ++ ["@"%char]) [] userinfo ++ host ++ ":"%char :: port ++ path.

(** *** The request queues *)

(** Modelled from the spec: [number_of_capability_types] is declared in
    aicurlperservice.h, which is not part of the sources at hand; the
    specification fixes four capability classes, two approved followed by two
    unapproved. *)
Definition number_of_capability_types : Z := 4.

(** The bits of [CapabilityType::mFlags]; their values are declared in the
    same missing header and are kept abstract. *)
Class CapabilityFlags := {
  ctf_empty : Z;
  ctf_full : Z;
  ctf_starvation : Z
}.

(** [curlthread::MultiHandle::add_easy_request(request, from_queue)]: the
    transport either takes the request ([true]) or throttles it ([false]). *)
Class MultiHandle (M Request : Type) :=
  add_easy_request : M → Request → bool → bool * M.

(** [AIPerService::TotalQueued], the process-wide cell [sTotalQueued]. *)
Record TotalQueued := {
  count : Z;
  empty : bool;
  full : bool;
  starvation : bool
}.

(** What is shared between the services: the counter cell and the multi
    handle. *)
Record Shared (M : Type) := {
  sTotalQueued : TotalQueued;
  multi_handle : M
}.
Arguments sTotalQueued {M} _.
Arguments multi_handle {M} _.

(** How the loop over [order] is left. *)
Inductive loop_exit := Return | FellOut.

Section Queues.
Context {Request : Type} `{EqDecision Request}.
Context `{CapabilityFlags}.

Record CapabilityType := {
  mQueuedRequests : list Request;
  mApprovedRequests : Z;
  mQueuedCommands : Z;
  mAdded : Z;
  mFlags : Z;
  mDownloading : Z;
  mMaxPipelinedRequests : Z
}.

Definition set_mQueuedRequests (q : list Request) (ct : CapabilityType) : CapabilityType :=
  {| mQueuedRequests := q; mApprovedRequests := mApprovedRequests ct;
     mQueuedCommands := mQueuedCommands ct; mAdded := mAdded ct; mFlags := mFlags ct;
     mDownloading := mDownloading ct; mMaxPipelinedRequests := mMaxPipelinedRequests ct |}.

(** [ct.mFlags |= flag] *)
Definition or_mFlags (flag : Z) (ct : CapabilityType) : CapabilityType :=
  {| mQueuedRequests := mQueuedRequests ct; mApprovedRequests := mApprovedRequests ct;
     mQueuedCommands := mQueuedCommands ct; mAdded := mAdded ct;
     mFlags := Z.lor (mFlags ct) flag;
     mDownloading := mDownloading ct; mMaxPipelinedRequests := mMaxPipelinedRequests ct |}.

(** [CapabilityType::CapabilityType()] *)
Definition CapabilityType_new (CurlConcurrentConnectionsPerService : Z) : CapabilityType :=
  {| mQueuedRequests := []; mApprovedRequests := 0; mQueuedCommands := 0; mAdded := 0;
     mFlags := 0; mDownloading := 0;
     mMaxPipelinedRequests := CurlConcurrentConnectionsPerService |}.

Record PerService := {
  mCapabilityType : list CapabilityType;
  mConcurrectConnections : Z;
  mTotalAdded : Z;
  mApprovedFirst : Z;
  mUnapprovedFirst : Z
}.

(** [AIPerService::AIPerService()] *)
Definition PerService_new (CurlConcurrentConnectionsPerService : Z) : PerService :=
  {| mCapabilityType :=
       replicate (Z.to_nat number_of_capability_types)
                 (CapabilityType_new CurlConcurrentConnectionsPerService);
     mConcurrectConnections := CurlConcurrentConnectionsPerService;
     mTotalAdded := 0; mApprovedFirst := 0; mUnapprovedFirst := 0 |}.

(** [mCapabilityType[i]] *)
Definition capability (svc : PerService) (i : Z) : CapabilityType :=
  default (CapabilityType_new 0) (mCapabilityType svc !! Z.to_nat i).

Definition set_capability (i : Z) (ct : CapabilityType) (svc : PerService) : PerService :=
  {| mCapabilityType := <[Z.to_nat i := ct]> (mCapabilityType svc);
     mConcurrectConnections := mConcurrectConnections svc;
     mTotalAdded := mTotalAdded svc; mApprovedFirst := mApprovedFirst svc;
     mUnapprovedFirst := mUnapprovedFirst svc |}.

Definition set_cursors (approved unapproved : Z) (svc : PerService) : PerService :=
  {| mCapabilityType := mCapabilityType svc;
     mConcurrectConnections := mConcurrectConnections svc;
     mTotalAdded := mTotalAdded svc; mApprovedFirst := approved;
     mUnapprovedFirst := unapproved |}.

(** [bool AIPerService::throttled() const] *)
Definition throttled (svc : PerService) : bool :=
  mConcurrectConnections svc <=? mTotalAdded svc.

(** [void AIPerService::queue(easy_request, capability_type)] *)
Definition queue (r : Request) (capability_type : Z) (svc : PerService) (tq : TotalQueued)
  : PerService * TotalQueued :=
  let ct := capability svc capability_type in
  (set_capability capability_type (set_mQueuedRequests (mQueuedRequests ct ++ [r]) ct) svc,
   {| count := count tq + 1; empty := empty tq; full := full tq;
      starvation := starvation tq |}).

(** [bool AIPerService::cancel(easy_request, capability_type)] *)
Definition cancel (r : Request) (capability_type : Z) (svc : PerService) (tq : TotalQueued)
  : bool * PerService * TotalQueued :=
  let ct := capability svc capability_type in
  match cancel_deque (mQueuedRequests ct) r with
  | None => (false, svc, tq)
  | Some q' =>
      (true, set_capability capability_type (set_mQueuedRequests q' ct) svc,
       {| count := count tq - 1; empty := empty tq; full := full tq;
          starvation := starvation tq |})
  end.

(** *** [add_queued_to] *)

(** The first two entries of [order]: the approved types, the larger queue
    first, [mApprovedFirst] first (and flipped) when the sizes are equal. *)
Definition approved_order (svc : PerService) : list Z * Z :=
  let s0 := length (mQueuedRequests (capability svc 0)) in
  let s1 := length (mQueuedRequests (capability svc 1)) in
  if bool_decide (s0 = s1) then
    let first := mApprovedFirst svc in
    let flipped := 1 - mApprovedFirst svc in
    ([first; flipped], flipped)
  else if bool_decide (s1 < s0)%nat then ([0; 1], mApprovedFirst svc)
  else ([1; 0], mApprovedFirst svc).

(** [for (int i = 2; i < number_of_capability_types;
          ++i, n = (n + 1) % (number_of_capability_types - 2)) order[i] = 2 + n;] *)
Fixpoint unapproved_order (iterations : nat) (n : Z) : list Z :=
  match iterations with
  | O => []
  | S k => (2 + n) :: unapproved_order k (Z.rem (n + 1) (number_of_capability_types - 2))
  end.

Definition build_order (svc : PerService) : list Z * PerService :=
  let '(approved, approved_first) := approved_order svc in
  let unapproved :=
    unapproved_order (Z.to_nat (number_of_capability_types - 2)) (mUnapprovedFirst svc) in
  (approved ++ unapproved,
   set_cursors approved_first
     (Z.rem (mUnapprovedFirst svc + 1) (number_of_capability_types - 2)) svc).

Section Dispatch.
Context {M : Type} `{MultiHandle M Request}.

(** [for (int i = 0; i < number_of_capability_types; ++i) { ... }] over the
    entries [order[i..]]. *)
Fixpoint walk_order (order : list Z) (i : Z) (svc : PerService) (sh : Shared M)
  : loop_exit * PerService * Shared M :=
  match order with
  | [] => (FellOut, svc, sh)
  | o :: order' =>
      let ct := capability svc o in
      match mQueuedRequests ct with
      | front :: rest =>
          let '(added, multi') := add_easy_request (multi_handle sh) front true in
          if negb added then
            (FellOut, svc, {| sTotalQueued := sTotalQueued sh; multi_handle := multi' |})
          else
            let ct' := set_mQueuedRequests rest ct in
            let ct'' := match rest with
                        | [] => or_mFlags ctf_empty ct'
                        | _ :: _ => or_mFlags ctf_full ct'
                        end in
            let tq := sTotalQueued sh in
            let tq' :=
              if count tq - 1 =? 0
              then {| count := count tq - 1; empty := true; full := full tq;
                      starvation := starvation tq |}
              else {| count := count tq - 1; empty := empty tq; full := true;
                      starvation := starvation tq |} in
            (Return, set_capability o ct'' svc,
             {| sTotalQueued := tq'; multi_handle := multi' |})
      | [] =>
          let svc' := set_capability o (or_mFlags ctf_starvation ct) svc in
          if (i =? number_of_capability_types - 1) && (count (sTotalQueued sh) =? 0) then
            let tq := sTotalQueued sh in
            (Return, svc',
             {| sTotalQueued := {| count := count tq; empty := empty tq; full := full tq;
                                   starvation := true |};
                multi_handle := multi_handle sh |})
          else walk_order order' (i + 1) svc' sh
      end
  end.

(** The body of [add_queued_to] up to [if (recursive) return;]: what a
    call with [recursive = true] does. *)
Definition add_queued_to_this (svc : PerService) (sh : Shared M)
  : loop_exit * PerService * Shared M :=
  let '(order, svc') := build_order svc in
  walk_order order 0 svc' sh.

(** [sInstanceMap] in iteration order (a [std::map] keyed by service name),
    with the shared cell and the multi handle. *)
Record Registry := {
  sInstanceMap : list (string * PerService);
  shared : Shared M
}.

(** [for (service = begin; service != end; ++service)
      { if (&*per_service_w == this) continue;
        per_service_w->add_queued_to(multi_handle, true); }]
    over the entries from position [pos] on. *)
Fixpoint try_other_services (this : nat) (pos : nat) (services : list (string * PerService))
    (sh : Shared M) : list (string * PerService) * Shared M :=
  match services with
  | [] => ([], sh)
  | (name, svc) :: services' =>
      if bool_decide (pos = this) then
        let '(rest, sh') := try_other_services this (S pos) services' sh in
        ((name, svc) :: rest, sh')
      else
        let '(_, svc', sh1) := add_queued_to_this svc sh in
        let '(rest, sh2) := try_other_services this (S pos) services' sh1 in
        ((name, svc') :: rest, sh2)
  end.

(** [void AIPerService::add_queued_to(multi_handle, recursive)], called on
    the service at position [this] of the instance map. *)
Definition add_queued_to (this : nat) (recursive : bool) (reg : Registry) : Registry :=
  match sInstanceMap reg !! this with
  | None => reg
  | Some (name, svc) =>
      let '(how, svc', sh) := add_queued_to_this svc (shared reg) in
      let services := <[this := (name, svc')]> (sInstanceMap reg) in
      match how with
      | Return => {| sInstanceMap := services; shared := sh |}
      | FellOut =>
          if recursive then {| sInstanceMap := services; shared := sh |}
          else
            let '(services', sh') := try_other_services this 0 services sh in
            {| sInstanceMap := services'; shared := sh' |}
      end
  end.

(** The requests [requests] handed to the multi handle one after the other,
    each from a queue. *)
Definition hand_over (multi : M) (requests : list Request) : M :=
  foldl (λ handle request, (add_easy_request handle request true).2) multi requests.

(** [n] successive calls of [add_queued_to] on the service at [this]. *)
Definition add_queued_to_times (n : nat) (this : nat) (reg : Registry) : Registry :=
  Nat.iter n (add_queued_to this false) reg.

(** The queues of the service at position [this], one per capability type,
    and its approved cursor. *)
Definition queues_at (this : nat) (reg : Registry) : list (list Request) :=
  match sInstanceMap reg !! this with
  | Some (_, svc) => mQueuedRequests <$> mCapabilityType svc
  | None => []
  end.

Definition approved_first_at (this : nat) (reg : Registry) : option Z :=
  (λ entry : string * PerService, mApprovedFirst entry.2) <$> sInstanceMap reg !! this.

End Dispatch.
End Queues.

End AIPerService.

(** ** aicurlperhost.cpp *)

Module PerHostRequestQueue.
Import Deque.

Section PerHost.
Context {Request : Type} `{EqDecision Request}.

Record PerHost := {
  mQueuedRequests : list Request;
  mAdded : Z
}.

(** [bool PerHostRequestQueue::throttled() const] *)
Definition throttled (curl_concurrent_connections_per_host : Z) (h : PerHost) : bool :=
  mAdded h =? curl_concurrent_connections_per_host.

(** [void PerHostRequestQueue::added_to_multi_handle()] *)
Definition added_to_multi_handle (h : PerHost) : PerHost :=
  {| mQueuedRequests := mQueuedRequests h; mAdded := mAdded h + 1 |}.

(** [void PerHostRequestQueue::removed_from_multi_handle()] *)
Definition removed_from_multi_handle (h : PerHost) : PerHost :=
  {| mQueuedRequests := mQueuedRequests h; mAdded := mAdded h - 1 |}.

(** [void PerHostRequestQueue::queue(easy_request)] *)
Definition queue (r : Request) (h : PerHost) : PerHost :=
  {| mQueuedRequests := mQueuedRequests h ++ [r]; mAdded := mAdded h |}.

(** [bool PerHostRequestQueue::cancel(easy_request)] *)
Definition cancel (r : Request) (h : PerHost) : bool * PerHost :=
  match cancel_deque (mQueuedRequests h) r with
  | None => (false, h)
  | Some q' => (true, {| mQueuedRequests := q'; mAdded := mAdded h |})
  end.

(** [void PerHostRequestQueue::add_queued_to(multi_handle)]; this older
    [add_easy_request] takes the request unconditionally, which the list of
    requests handed to the multi handle records. *)
Definition add_queued_to (multi_handle : list Request) (h : PerHost) : list Request * PerHost :=
  match mQueuedRequests h with
  | front :: rest =>
      (multi_handle ++ [front], {| mQueuedRequests := rest; mAdded := mAdded h |})
  | [] => (multi_handle, h)
  end.

End PerHost.
End PerHostRequestQueue.


(** ** lltexturefetch.cpp *)

Module TextureFetch.

(** Modelled from the spec: the HTTP status codes are named in
    llhttpstatuscodes.h, which is not part of the sources at hand; the
    specification gives 200..<300 as success, 206 as partial content, 404
    as not found and 503 as service unavailable. *)
Definition HTTP_OK : Z := 200.
Definition HTTP_PARTIAL_CONTENT : Z := 206.
Definition HTTP_MULTIPLE_CHOICES : Z := 300.
Definition HTTP_NOT_FOUND : Z := 404.
Definition HTTP_SERVICE_UNAVAILABLE : Z := 503.

(** Constants that lltexturefetch.cpp takes from headers outside the
    sources at hand; their values are kept abstract. *)
Class Constants := {
  TEXTURE_CACHE_ENTRY_SIZE : Z;
  FIRST_PACKET_SIZE : Z;
  MAX_IMG_PACKET_SIZE : Z;
  PRIORITY_HIGH : Z;
  PRIORITY_NORMAL : Z;
  PRIORITY_LOW : Z;
  PRIORITY_LOWBITS : Z;
  PRIORITY_HIGHBITS : Z;
  WCF_DELETE_REQUESTED : Z;
  nullHandle : Z;
  IMG_CODEC_J2C : Z
}.

(** The [F32] computations of the file.  Floating point is not modelled:
    each operation the source performs on an [F32] is a member of this
    interface. *)
Class FloatOps (F32 : Type) := {
  (** [a > b] *)
  f32_gtb : F32 → F32 → bool;
  (** [mImagePriority < F_ALMOST_ZERO] *)
  almost_zero : F32 → bool;
  (** [fabs(priority - mImagePriority) > (mImagePriority * .05f)], the new
      priority first *)
  priority_moved : F32 → F32 → bool;
  (** [(U32)(mImagePriority * PRIORITY_SCALE)] *)
  scaled_priority : F32 → Z;
  (** [LLTimer::getTotalTime() + timeout*1000] stored in a [U64], the time
      first *)
  time_plus : Z → F32 → Z;
  (** the literal [60.0] *)
  f32_sixty : F32
}.

(** The part of [LLWorkerClass] (llworkerthread.h, outside the sources at
    hand) that the worker and the fetcher call. *)
Class LLWorkerClass (B : Type) := {
  haveWork : B → bool;
  addWork : Z → Z → B → B;
  setPriority : Z → B → B;
  getPriority : B → Z;
  getFlags : Z → B → bool;
  wasAborted : B → bool;
  (** [checkWork()] tells whether the queued request is complete and, if
      so, retires it. *)
  checkWork : B → bool * B
}.

(** *** [SGHostBlackList] *)

Module SGHostBlackList.

Definition MAX_ERRORCOUNT : Z := 20.

Record BlackListEntry := {
  host : string;
  timeUntil : Z;
  reason : Z;
  errorCount : Z
}.

Definition blacklist_t := list BlackListEntry.

(** [is_obsolete]; [now] is [LLTimer::getTotalTime()]. *)
Definition is_obsolete (now : Z) (entry : BlackListEntry) : bool :=
  timeUntil entry <? now.

(** [std::remove_if(first, last, pred)] on the vector itself: the elements
    that are kept are assigned, in order, to the front positions; nothing is
    erased, so the length is unchanged and the positions behind the kept
    elements still hold what they held before (copy assignment). *)
Definition std_remove_if {A} (pred : A → bool) (v : list A) : list A :=
  let kept := List.filter (λ x, negb (pred x)) v in
  kept ++ drop (length kept) v.

(** [cleanup()] calls [std::remove_if] and drops the iterator it returns. *)
Definition cleanup (now : Z) (blacklist : blacklist_t) : blacklist_t :=
  std_remove_if (is_obsolete now) blacklist.

(** [i->host.find(host) == 0]: [host] occurs at the start of [i->host]. *)
Definition host_matches (h : string) (entry : BlackListEntry) : bool :=
  String.prefix h (host entry).

Fixpoint find_from (h : string) (entries : blacklist_t) (pos : nat) : option nat :=
  match entries with
  | [] => None
  | entry :: entries' =>
      if host_matches h entry then Some pos else find_from h entries' (S pos)
  end.

(** [find(host)]: the position of the first match ([None] is [end()]),
    with the vector as [cleanup] left it. *)
Definition find (now : Z) (h : string) (blacklist : blacklist_t) : option nat * blacklist_t :=
  let blacklist' := cleanup now blacklist in
  (find_from h blacklist' 0, blacklist').

(** [isBlacklisted(url)] *)
Definition isBlacklisted (now : Z) (url : string) (blacklist : blacklist_t)
  : bool * blacklist_t :=
  let '(found, blacklist') := find now url blacklist in
  let r := match found with
           | Some i => match blacklist' !! i with
                       | Some entry => MAX_ERRORCOUNT <? errorCount entry
                       | None => false
                       end
           | None => false
           end in
  (r, blacklist').

(** [url.rfind("/")]: the position of the last slash, [None] for [npos]. *)
Fixpoint rfind_slash (s : string) (pos : nat) : option nat :=
  match s with
  | EmptyString => None
  | String c s' =>
      match rfind_slash s' (S pos) with
      | Some i => Some i
      | None => if Chars.is_char c "/" then Some pos else None
      end
  end.

(** [url.substr(0, url.rfind("/"))]; with [npos] the whole string. *)
Definition host_of_url (url : string) : string :=
  match rfind_slash url 0 with
  | Some i => String.substring 0 i url
  | None => url
  end.

Section Add.
Context {F32 : Type} `{FloatOps F32}.

(** [add(url, timeout, reason)] *)
Definition add (now : Z) (url : string) (timeout : F32) (why : Z) (blacklist : blacklist_t)
  : blacklist_t :=
  let h := host_of_url url in
  if bool_decide (h = EmptyString) then blacklist
  else
    let '(found, blacklist') := find now h blacklist in
    match found with
    | Some i =>
        match blacklist' !! i with
        | Some old =>
            <[i := {| host := h; timeUntil := time_plus now timeout; reason := why;
                      errorCount := errorCount old + 1 |}]> blacklist'
        | None => blacklist'
        end
    | None =>
        blacklist' ++ [{| host := h; timeUntil := time_plus now timeout; reason := why;
                          errorCount := 0 |}]
    end.

End Add.
End SGHostBlackList.

(** *** The worker *)

Inductive e_state :=
| INVALID | INIT | LOAD_FROM_TEXTURE_CACHE | CACHE_POST | LOAD_FROM_NETWORK
| LOAD_FROM_SIMULATOR | SEND_HTTP_REQ | WAIT_HTTP_REQ | DECODE_IMAGE
| DECODE_IMAGE_UPDATE | WRITE_TO_CACHE | WAIT_ON_WRITE | DONE.

#[global] Instance e_state_eq_dec : EqDecision e_state.
Proof. solve_decision. Defined.

(** The value of the enumerator, for the comparisons [mState < DECODE_IMAGE],
    [mState > CACHE_POST] and the like. *)
Definition state_value (s : e_state) : Z :=
  match s with
  | INVALID => 0 | INIT => 1 | LOAD_FROM_TEXTURE_CACHE => 2 | CACHE_POST => 3
  | LOAD_FROM_NETWORK => 4 | LOAD_FROM_SIMULATOR => 5 | SEND_HTTP_REQ => 6
  | WAIT_HTTP_REQ => 7 | DECODE_IMAGE => 8 | DECODE_IMAGE_UPDATE => 9
  | WRITE_TO_CACHE => 10 | WAIT_ON_WRITE => 11 | DONE => 12
  end.

Inductive e_request_state := UNSENT | QUEUED | SENT_SIM.

#[global] Instance e_request_state_eq_dec : EqDecision e_request_state.
Proof. solve_decision. Defined.

Inductive e_write_to_cache_state := NOT_WRITE | CAN_WRITE | SHOULD_WRITE.

#[global] Instance e_write_to_cache_state_eq_dec : EqDecision e_write_to_cache_state.
Proof. solve_decision. Defined.

Definition LLUUID := Z.

(** [LLHost]: address and port; [LLHost::invalid] has both zero. *)
Definition LLHost := (Z * Z)%type.
Definition LLHost_invalid : LLHost := (0, 0).

(** [LLImageRaw]: the decoded pixels. *)
Definition LLImageRaw := list Byte.byte.

(** What the worker uses of [LLImageFormatted]: the compressed bytes, the
    discard level and the codec. *)
Record LLImageFormatted := {
  image_data : list Byte.byte;
  mDiscardLevel : Z;
  mCodec : Z
}.

Definition getDataSize (image : LLImageFormatted) : Z := Z.of_nat (length (image_data image)).
Definition getDiscardLevel (image : LLImageFormatted) : Z := mDiscardLevel image.

Definition deleteData (image : LLImageFormatted) : LLImageFormatted :=
  {| image_data := []; mDiscardLevel := mDiscardLevel image; mCodec := mCodec image |}.

(** [setData(buffer, size)]: the image owns the first [size] bytes of
    [buffer]. *)
Definition setData (buffer : list Byte.byte) (size : Z) (image : LLImageFormatted)
  : LLImageFormatted :=
  {| image_data := take (Z.to_nat size) buffer; mDiscardLevel := mDiscardLevel image;
     mCodec := mCodec image |}.

(** [mFormattedImage.notNull() ? mFormattedImage->getDataSize() : 0] *)
Definition data_size_of (image : option LLImageFormatted) : Z :=
  match image with
  | Some im => getDataSize im
  | None => 0
  end.

(** [ALLOCATE_MEM(pool, size)]: fresh memory; the source does not
    initialise it, the model fills it with zero bytes. *)
Definition ALLOCATE_MEM (size : Z) : list Byte.byte := replicate (Z.to_nat size) Byte.x00.

(** [memcpy(buffer + offset, src, n)] *)
Definition memcpy (buffer : list Byte.byte) (offset : Z) (src : list Byte.byte) (n : Z)
  : list Byte.byte :=
  take (Z.to_nat offset) buffer ++ take (Z.to_nat n) src
    ++ drop (Z.to_nat offset + Z.to_nat n) buffer.

Record PacketData := {
  mData : list Byte.byte;
  mSize : Z
}.

Section Worker.
Context {F32 B : Type} `{FloatOps F32} `{LLWorkerClass B} `{Constants}.

(** The members of [LLTextureFetchWorker] that the modelled functions read
    or write.  The three timers hold the time of their last [reset()];
    [mWork] is the [LLWorkerClass] base object. *)
Record Worker := Build_Worker {
  mState : e_state;
  mWriteToCacheState : e_write_to_cache_state;
  mFormattedImage : option LLImageFormatted;
  mRawImage : option LLImageRaw;
  mAuxImage : option LLImageRaw;
  mID : LLUUID;
  mHost : LLHost;
  mUrl : string;
  mImagePriority : F32;
  mWorkPriority : Z;
  mDesiredDiscard : Z;
  mRequestedDiscard : Z;
  mLoadedDiscard : Z;
  mDecodedDiscard : Z;
  mRequestedTimer : Z;
  mFetchTimer : Z;
  mCacheReadTimer : Z;
  mCacheReadHandle : Z;
  mCacheWriteHandle : Z;
  mHttpBuffer : list Byte.byte;
  mRequestedSize : Z;
  mRequestedOffset : Z;
  mDesiredSize : Z;
  mFileSize : Z;
  mCachedSize : Z;
  mSentRequest : e_request_state;
  mDecodeHandle : Z;
  mLoaded : bool;
  mDecoded : bool;
  mWritten : bool;
  mNeedsAux : bool;
  mHaveAllData : bool;
  mInLocalCache : bool;
  mCanUseHTTP : bool;
  mCanUseNET : bool;
  mHTTPFailCount : Z;
  mRetryAttempt : Z;
  mGetStatus : Z;
  mGetReason : string;
  mPackets : list (option PacketData);
  mFirstPacket : Z;
  mLastPacket : Z;
  mTotalPackets : Z;
  mImageCodec : Z;
  mWork : B
}.

(** All the members of a worker at once, to write the assignments to single
    members below. *)
Definition Worker_members {T : Type} (w : Worker)
    (k : e_state → e_write_to_cache_state → (option LLImageFormatted) → (option LLImageRaw)
       → (option LLImageRaw) → LLUUID → LLHost → string → F32 → Z → Z → Z → Z → Z → Z → Z →
       Z → Z → Z → (list Byte.byte) → Z → Z → Z → Z → Z → e_request_state → Z → bool → bool
       → bool → bool → bool → bool → bool → bool → Z → Z → Z → string → (list (option
       PacketData)) → Z → Z → Z → Z → B → T) : T :=
  k (mState w) (mWriteToCacheState w) (mFormattedImage w) (mRawImage w) (mAuxImage w) (mID
    w) (mHost w) (mUrl w) (mImagePriority w) (mWorkPriority w) (mDesiredDiscard w)
    (mRequestedDiscard w) (mLoadedDiscard w) (mDecodedDiscard w) (mRequestedTimer w)
    (mFetchTimer w) (mCacheReadTimer w) (mCacheReadHandle w) (mCacheWriteHandle w)
    (mHttpBuffer w) (mRequestedSize w) (mRequestedOffset w) (mDesiredSize w) (mFileSize w)
    (mCachedSize w) (mSentRequest w) (mDecodeHandle w) (mLoaded w) (mDecoded w) (mWritten w)
    (mNeedsAux w) (mHaveAllData w) (mInLocalCache w) (mCanUseHTTP w) (mCanUseNET w)
    (mHTTPFailCount w) (mRetryAttempt w) (mGetStatus w) (mGetReason w) (mPackets w)
    (mFirstPacket w) (mLastPacket w) (mTotalPackets w) (mImageCodec w) (mWork w).

Definition set_mState (v : e_state) (w : Worker) : Worker :=
  Worker_members w (λ _ x1 x2 x3 x4 x5 x6 x7 x8 x9 x10 x11 x12 x13 x14 x15 x16 x17 x18 x19
    x20 x21 x22 x23 x24 x25 x26 x27 x28 x29 x30 x31 x32 x33 x34 x35 x36 x37 x38 x39 x40 x41
    x42 x43 x44,
    Build_Worker v x1 x2 x3 x4 x5 x6 x7 x8 x9 x10 x11 x12 x13 x14 x15 x16 x17 x18 x19 x20
      x21 x22 x23 x24 x25 x26 x27 x28 x29 x30 x31 x32 x33 x34 x35 x36 x37 x38 x39 x40 x41
      x42 x43 x44).

Definition set_mWriteToCacheState (v : e_write_to_cache_state) (w : Worker) : Worker :=
  Worker_members w (λ x0 _ x2 x3 x4 x5 x6 x7 x8 x9 x10 x11 x12 x13 x14 x15 x16 x17 x18 x19
    x20 x21 x22 x23 x24 x25 x26 x27 x28 x29 x30 x31 x32 x33 x34 x35 x36 x37 x38 x39 x40 x41
    x42 x43 x44,
    Build_Worker x0 v x2 x3 x4 x5 x6 x7 x8 x9 x10 x11 x12 x13 x14 x15 x16 x17 x18 x19 x20
      x21 x22 x23 x24 x25 x26 x27 x28 x29 x30 x31 x32 x33 x34 x35 x36 x37 x38 x39 x40 x41
      x42 x43 x44).

Definition set_mFormattedImage (v : option LLImageFormatted) (w : Worker) : Worker :=
  Worker_members w (λ x0 x1 _ x3 x4 x5 x6 x7 x8 x9 x10 x11 x12 x13 x14 x15 x16 x17 x18 x19
    x20 x21 x22 x23 x24 x25 x26 x27 x28 x29 x30 x31 x32 x33 x34 x35 x36 x37 x38 x39 x40 x41
    x42 x43 x44,
    Build_Worker x0 x1 v x3 x4 x5 x6 x7 x8 x9 x10 x11 x12 x13 x14 x15 x16 x17 x18 x19 x20
      x21 x22 x23 x24 x25 x26 x27 x28 x29 x30 x31 x32 x33 x34 x35 x36 x37 x38 x39 x40 x41
      x42 x43 x44).

Definition set_mRawImage (v : option LLImageRaw) (w : Worker) : Worker :=
  Worker_members w (λ x0 x1 x2 _ x4 x5 x6 x7 x8 x9 x10 x11 x12 x13 x14 x15 x16 x17 x18 x19
    x20 x21 x22 x23 x24 x25 x26 x27 x28 x29 x30 x31 x32 x33 x34 x35 x36 x37 x38 x39 x40 x41
    x42 x43 x44,
    Build_Worker x0 x1 x2 v x4 x5 x6 x7 x8 x9 x10 x11 x12 x13 x14 x15 x16 x17 x18 x19 x20
      x21 x22 x23 x24 x25 x26 x27 x28 x29 x30 x31 x32 x33 x34 x35 x36 x37 x38 x39 x40 x41
      x42 x43 x44).

Definition set_mAuxImage (v : option LLImageRaw) (w : Worker) : Worker :=
  Worker_members w (λ x0 x1 x2 x3 _ x5 x6 x7 x8 x9 x10 x11 x12 x13 x14 x15 x16 x17 x18 x19
    x20 x21 x22 x23 x24 x25 x26 x27 x28 x29 x30 x31 x32 x33 x34 x35 x36 x37 x38 x39 x40 x41
    x42 x43 x44,
    Build_Worker x0 x1 x2 x3 v x5 x6 x7 x8 x9 x10 x11 x12 x13 x14 x15 x16 x17 x18 x19 x20
      x21 x22 x23 x24 x25 x26 x27 x28 x29 x30 x31 x32 x33 x34 x35 x36 x37 x38 x39 x40 x41
      x42 x43 x44).

Definition set_mUrl (v : string) (w : Worker) : Worker :=
  Worker_members w (λ x0 x1 x2 x3 x4 x5 x6 _ x8 x9 x10 x11 x12 x13 x14 x15 x16 x17 x18 x19
    x20 x21 x22 x23 x24 x25 x26 x27 x28 x29 x30 x31 x32 x33 x34 x35 x36 x37 x38 x39 x40 x41
    x42 x43 x44,
    Build_Worker x0 x1 x2 x3 x4 x5 x6 v x8 x9 x10 x11 x12 x13 x14 x15 x16 x17 x18 x19 x20
      x21 x22 x23 x24 x25 x26 x27 x28 x29 x30 x31 x32 x33 x34 x35 x36 x37 x38 x39 x40 x41
      x42 x43 x44).

Definition set_mImagePriority (v : F32) (w : Worker) : Worker :=
  Worker_members w (λ x0 x1 x2 x3 x4 x5 x6 x7 _ x9 x10 x11 x12 x13 x14 x15 x16 x17 x18 x19
    x20 x21 x22 x23 x24 x25 x26 x27 x28 x29 x30 x31 x32 x33 x34 x35 x36 x37 x38 x39 x40 x41
    x42 x43 x44,
    Build_Worker x0 x1 x2 x3 x4 x5 x6 x7 v x9 x10 x11 x12 x13 x14 x15 x16 x17 x18 x19 x20
      x21 x22 x23 x24 x25 x26 x27 x28 x29 x30 x31 x32 x33 x34 x35 x36 x37 x38 x39 x40 x41
      x42 x43 x44).

Definition set_mWorkPriority (v : Z) (w : Worker) : Worker :=
  Worker_members w (λ x0 x1 x2 x3 x4 x5 x6 x7 x8 _ x10 x11 x12 x13 x14 x15 x16 x17 x18 x19
    x20 x21 x22 x23 x24 x25 x26 x27 x28 x29 x30 x31 x32 x33 x34 x35 x36 x37 x38 x39 x40 x41
    x42 x43 x44,
    Build_Worker x0 x1 x2 x3 x4 x5 x6 x7 x8 v x10 x11 x12 x13 x14 x15 x16 x17 x18 x19 x20
      x21 x22 x23 x24 x25 x26 x27 x28 x29 x30 x31 x32 x33 x34 x35 x36 x37 x38 x39 x40 x41
      x42 x43 x44).

Definition set_mDesiredDiscard (v : Z) (w : Worker) : Worker :=
  Worker_members w (λ x0 x1 x2 x3 x4 x5 x6 x7 x8 x9 _ x11 x12 x13 x14 x15 x16 x17 x18 x19
    x20 x21 x22 x23 x24 x25 x26 x27 x28 x29 x30 x31 x32 x33 x34 x35 x36 x37 x38 x39 x40 x41
    x42 x43 x44,
    Build_Worker x0 x1 x2 x3 x4 x5 x6 x7 x8 x9 v x11 x12 x13 x14 x15 x16 x17 x18 x19 x20 x21
      x22 x23 x24 x25 x26 x27 x28 x29 x30 x31 x32 x33 x34 x35 x36 x37 x38 x39 x40 x41 x42
      x43 x44).

Definition set_mRequestedDiscard (v : Z) (w : Worker) : Worker :=
  Worker_members w (λ x0 x1 x2 x3 x4 x5 x6 x7 x8 x9 x10 _ x12 x13 x14 x15 x16 x17 x18 x19
    x20 x21 x22 x23 x24 x25 x26 x27 x28 x29 x30 x31 x32 x33 x34 x35 x36 x37 x38 x39 x40 x41
    x42 x43 x44,
    Build_Worker x0 x1 x2 x3 x4 x5 x6 x7 x8 x9 x10 v x12 x13 x14 x15 x16 x17 x18 x19 x20 x21
      x22 x23 x24 x25 x26 x27 x28 x29 x30 x31 x32 x33 x34 x35 x36 x37 x38 x39 x40 x41 x42
      x43 x44).

Definition set_mLoadedDiscard (v : Z) (w : Worker) : Worker :=
  Worker_members w (λ x0 x1 x2 x3 x4 x5 x6 x7 x8 x9 x10 x11 _ x13 x14 x15 x16 x17 x18 x19
    x20 x21 x22 x23 x24 x25 x26 x27 x28 x29 x30 x31 x32 x33 x34 x35 x36 x37 x38 x39 x40 x41
    x42 x43 x44,
    Build_Worker x0 x1 x2 x3 x4 x5 x6 x7 x8 x9 x10 x11 v x13 x14 x15 x16 x17 x18 x19 x20 x21
      x22 x23 x24 x25 x26 x27 x28 x29 x30 x31 x32 x33 x34 x35 x36 x37 x38 x39 x40 x41 x42
      x43 x44).

Definition set_mDecodedDiscard (v : Z) (w : Worker) : Worker :=
  Worker_members w (λ x0 x1 x2 x3 x4 x5 x6 x7 x8 x9 x10 x11 x12 _ x14 x15 x16 x17 x18 x19
    x20 x21 x22 x23 x24 x25 x26 x27 x28 x29 x30 x31 x32 x33 x34 x35 x36 x37 x38 x39 x40 x41
    x42 x43 x44,
    Build_Worker x0 x1 x2 x3 x4 x5 x6 x7 x8 x9 x10 x11 x12 v x14 x15 x16 x17 x18 x19 x20 x21
      x22 x23 x24 x25 x26 x27 x28 x29 x30 x31 x32 x33 x34 x35 x36 x37 x38 x39 x40 x41 x42
      x43 x44).

Definition set_mRequestedTimer (v : Z) (w : Worker) : Worker :=
  Worker_members w (λ x0 x1 x2 x3 x4 x5 x6 x7 x8 x9 x10 x11 x12 x13 _ x15 x16 x17 x18 x19
    x20 x21 x22 x23 x24 x25 x26 x27 x28 x29 x30 x31 x32 x33 x34 x35 x36 x37 x38 x39 x40 x41
    x42 x43 x44,
    Build_Worker x0 x1 x2 x3 x4 x5 x6 x7 x8 x9 x10 x11 x12 x13 v x15 x16 x17 x18 x19 x20 x21
      x22 x23 x24 x25 x26 x27 x28 x29 x30 x31 x32 x33 x34 x35 x36 x37 x38 x39 x40 x41 x42
      x43 x44).

Definition set_mFetchTimer (v : Z) (w : Worker) : Worker :=
  Worker_members w (λ x0 x1 x2 x3 x4 x5 x6 x7 x8 x9 x10 x11 x12 x13 x14 _ x16 x17 x18 x19
    x20 x21 x22 x23 x24 x25 x26 x27 x28 x29 x30 x31 x32 x33 x34 x35 x36 x37 x38 x39 x40 x41
    x42 x43 x44,
    Build_Worker x0 x1 x2 x3 x4 x5 x6 x7 x8 x9 x10 x11 x12 x13 x14 v x16 x17 x18 x19 x20 x21
      x22 x23 x24 x25 x26 x27 x28 x29 x30 x31 x32 x33 x34 x35 x36 x37 x38 x39 x40 x41 x42
      x43 x44).

Definition set_mCacheReadTimer (v : Z) (w : Worker) : Worker :=
  Worker_members w (λ x0 x1 x2 x3 x4 x5 x6 x7 x8 x9 x10 x11 x12 x13 x14 x15 _ x17 x18 x19
    x20 x21 x22 x23 x24 x25 x26 x27 x28 x29 x30 x31 x32 x33 x34 x35 x36 x37 x38 x39 x40 x41
    x42 x43 x44,
    Build_Worker x0 x1 x2 x3 x4 x5 x6 x7 x8 x9 x10 x11 x12 x13 x14 x15 v x17 x18 x19 x20 x21
      x22 x23 x24 x25 x26 x27 x28 x29 x30 x31 x32 x33 x34 x35 x36 x37 x38 x39 x40 x41 x42
      x43 x44).

Definition set_mCacheReadHandle (v : Z) (w : Worker) : Worker :=
  Worker_members w (λ x0 x1 x2 x3 x4 x5 x6 x7 x8 x9 x10 x11 x12 x13 x14 x15 x16 _ x18 x19
    x20 x21 x22 x23 x24 x25 x26 x27 x28 x29 x30 x31 x32 x33 x34 x35 x36 x37 x38 x39 x40 x41
    x42 x43 x44,
    Build_Worker x0 x1 x2 x3 x4 x5 x6 x7 x8 x9 x10 x11 x12 x13 x14 x15 x16 v x18 x19 x20 x21
      x22 x23 x24 x25 x26 x27 x28 x29 x30 x31 x32 x33 x34 x35 x36 x37 x38 x39 x40 x41 x42
      x43 x44).

Definition set_mCacheWriteHandle (v : Z) (w : Worker) : Worker :=
  Worker_members w (λ x0 x1 x2 x3 x4 x5 x6 x7 x8 x9 x10 x11 x12 x13 x14 x15 x16 x17 _ x19
    x20 x21 x22 x23 x24 x25 x26 x27 x28 x29 x30 x31 x32 x33 x34 x35 x36 x37 x38 x39 x40 x41
    x42 x43 x44,
    Build_Worker x0 x1 x2 x3 x4 x5 x6 x7 x8 x9 x10 x11 x12 x13 x14 x15 x16 x17 v x19 x20 x21
      x22 x23 x24 x25 x26 x27 x28 x29 x30 x31 x32 x33 x34 x35 x36 x37 x38 x39 x40 x41 x42
      x43 x44).

Definition set_mHttpBuffer (v : list Byte.byte) (w : Worker) : Worker :=
  Worker_members w (λ x0 x1 x2 x3 x4 x5 x6 x7 x8 x9 x10 x11 x12 x13 x14 x15 x16 x17 x18 _
    x20 x21 x22 x23 x24 x25 x26 x27 x28 x29 x30 x31 x32 x33 x34 x35 x36 x37 x38 x39 x40 x41
    x42 x43 x44,
    Build_Worker x0 x1 x2 x3 x4 x5 x6 x7 x8 x9 x10 x11 x12 x13 x14 x15 x16 x17 x18 v x20 x21
      x22 x23 x24 x25 x26 x27 x28 x29 x30 x31 x32 x33 x34 x35 x36 x37 x38 x39 x40 x41 x42
      x43 x44).

Definition set_mRequestedSize (v : Z) (w : Worker) : Worker :=
  Worker_members w (λ x0 x1 x2 x3 x4 x5 x6 x7 x8 x9 x10 x11 x12 x13 x14 x15 x16 x17 x18 x19
    _ x21 x22 x23 x24 x25 x26 x27 x28 x29 x30 x31 x32 x33 x34 x35 x36 x37 x38 x39 x40 x41
    x42 x43 x44,
    Build_Worker x0 x1 x2 x3 x4 x5 x6 x7 x8 x9 x10 x11 x12 x13 x14 x15 x16 x17 x18 x19 v x21
      x22 x23 x24 x25 x26 x27 x28 x29 x30 x31 x32 x33 x34 x35 x36 x37 x38 x39 x40 x41 x42
      x43 x44).

Definition set_mRequestedOffset (v : Z) (w : Worker) : Worker :=
  Worker_members w (λ x0 x1 x2 x3 x4 x5 x6 x7 x8 x9 x10 x11 x12 x13 x14 x15 x16 x17 x18 x19
    x20 _ x22 x23 x24 x25 x26 x27 x28 x29 x30 x31 x32 x33 x34 x35 x36 x37 x38 x39 x40 x41
    x42 x43 x44,
    Build_Worker x0 x1 x2 x3 x4 x5 x6 x7 x8 x9 x10 x11 x12 x13 x14 x15 x16 x17 x18 x19 x20 v
      x22 x23 x24 x25 x26 x27 x28 x29 x30 x31 x32 x33 x34 x35 x36 x37 x38 x39 x40 x41 x42
      x43 x44).

Definition set_mDesiredSize (v : Z) (w : Worker) : Worker :=
  Worker_members w (λ x0 x1 x2 x3 x4 x5 x6 x7 x8 x9 x10 x11 x12 x13 x14 x15 x16 x17 x18 x19
    x20 x21 _ x23 x24 x25 x26 x27 x28 x29 x30 x31 x32 x33 x34 x35 x36 x37 x38 x39 x40 x41
    x42 x43 x44,
    Build_Worker x0 x1 x2 x3 x4 x5 x6 x7 x8 x9 x10 x11 x12 x13 x14 x15 x16 x17 x18 x19 x20
      x21 v x23 x24 x25 x26 x27 x28 x29 x30 x31 x32 x33 x34 x35 x36 x37 x38 x39 x40 x41 x42
      x43 x44).

Definition set_mFileSize (v : Z) (w : Worker) : Worker :=
  Worker_members w (λ x0 x1 x2 x3 x4 x5 x6 x7 x8 x9 x10 x11 x12 x13 x14 x15 x16 x17 x18 x19
    x20 x21 x22 _ x24 x25 x26 x27 x28 x29 x30 x31 x32 x33 x34 x35 x36 x37 x38 x39 x40 x41
    x42 x43 x44,
    Build_Worker x0 x1 x2 x3 x4 x5 x6 x7 x8 x9 x10 x11 x12 x13 x14 x15 x16 x17 x18 x19 x20
      x21 x22 v x24 x25 x26 x27 x28 x29 x30 x31 x32 x33 x34 x35 x36 x37 x38 x39 x40 x41 x42
      x43 x44).

Definition set_mCachedSize (v : Z) (w : Worker) : Worker :=
  Worker_members w (λ x0 x1 x2 x3 x4 x5 x6 x7 x8 x9 x10 x11 x12 x13 x14 x15 x16 x17 x18 x19
    x20 x21 x22 x23 _ x25 x26 x27 x28 x29 x30 x31 x32 x33 x34 x35 x36 x37 x38 x39 x40 x41
    x42 x43 x44,
    Build_Worker x0 x1 x2 x3 x4 x5 x6 x7 x8 x9 x10 x11 x12 x13 x14 x15 x16 x17 x18 x19 x20
      x21 x22 x23 v x25 x26 x27 x28 x29 x30 x31 x32 x33 x34 x35 x36 x37 x38 x39 x40 x41 x42
      x43 x44).

Definition set_mSentRequest (v : e_request_state) (w : Worker) : Worker :=
  Worker_members w (λ x0 x1 x2 x3 x4 x5 x6 x7 x8 x9 x10 x11 x12 x13 x14 x15 x16 x17 x18 x19
    x20 x21 x22 x23 x24 _ x26 x27 x28 x29 x30 x31 x32 x33 x34 x35 x36 x37 x38 x39 x40 x41
    x42 x43 x44,
    Build_Worker x0 x1 x2 x3 x4 x5 x6 x7 x8 x9 x10 x11 x12 x13 x14 x15 x16 x17 x18 x19 x20
      x21 x22 x23 x24 v x26 x27 x28 x29 x30 x31 x32 x33 x34 x35 x36 x37 x38 x39 x40 x41 x42
      x43 x44).

Definition set_mDecodeHandle (v : Z) (w : Worker) : Worker :=
  Worker_members w (λ x0 x1 x2 x3 x4 x5 x6 x7 x8 x9 x10 x11 x12 x13 x14 x15 x16 x17 x18 x19
    x20 x21 x22 x23 x24 x25 _ x27 x28 x29 x30 x31 x32 x33 x34 x35 x36 x37 x38 x39 x40 x41
    x42 x43 x44,
    Build_Worker x0 x1 x2 x3 x4 x5 x6 x7 x8 x9 x10 x11 x12 x13 x14 x15 x16 x17 x18 x19 x20
      x21 x22 x23 x24 x25 v x27 x28 x29 x30 x31 x32 x33 x34 x35 x36 x37 x38 x39 x40 x41 x42
      x43 x44).

Definition set_mLoaded (v : bool) (w : Worker) : Worker :=
  Worker_members w (λ x0 x1 x2 x3 x4 x5 x6 x7 x8 x9 x10 x11 x12 x13 x14 x15 x16 x17 x18 x19
    x20 x21 x22 x23 x24 x25 x26 _ x28 x29 x30 x31 x32 x33 x34 x35 x36 x37 x38 x39 x40 x41
    x42 x43 x44,
    Build_Worker x0 x1 x2 x3 x4 x5 x6 x7 x8 x9 x10 x11 x12 x13 x14 x15 x16 x17 x18 x19 x20
      x21 x22 x23 x24 x25 x26 v x28 x29 x30 x31 x32 x33 x34 x35 x36 x37 x38 x39 x40 x41 x42
      x43 x44).

Definition set_mDecoded (v : bool) (w : Worker) : Worker :=
  Worker_members w (λ x0 x1 x2 x3 x4 x5 x6 x7 x8 x9 x10 x11 x12 x13 x14 x15 x16 x17 x18 x19
    x20 x21 x22 x23 x24 x25 x26 x27 _ x29 x30 x31 x32 x33 x34 x35 x36 x37 x38 x39 x40 x41
    x42 x43 x44,
    Build_Worker x0 x1 x2 x3 x4 x5 x6 x7 x8 x9 x10 x11 x12 x13 x14 x15 x16 x17 x18 x19 x20
      x21 x22 x23 x24 x25 x26 x27 v x29 x30 x31 x32 x33 x34 x35 x36 x37 x38 x39 x40 x41 x42
      x43 x44).

Definition set_mWritten (v : bool) (w : Worker) : Worker :=
  Worker_members w (λ x0 x1 x2 x3 x4 x5 x6 x7 x8 x9 x10 x11 x12 x13 x14 x15 x16 x17 x18 x19
    x20 x21 x22 x23 x24 x25 x26 x27 x28 _ x30 x31 x32 x33 x34 x35 x36 x37 x38 x39 x40 x41
    x42 x43 x44,
    Build_Worker x0 x1 x2 x3 x4 x5 x6 x7 x8 x9 x10 x11 x12 x13 x14 x15 x16 x17 x18 x19 x20
      x21 x22 x23 x24 x25 x26 x27 x28 v x30 x31 x32 x33 x34 x35 x36 x37 x38 x39 x40 x41 x42
      x43 x44).

Definition set_mHaveAllData (v : bool) (w : Worker) : Worker :=
  Worker_members w (λ x0 x1 x2 x3 x4 x5 x6 x7 x8 x9 x10 x11 x12 x13 x14 x15 x16 x17 x18 x19
    x20 x21 x22 x23 x24 x25 x26 x27 x28 x29 x30 _ x32 x33 x34 x35 x36 x37 x38 x39 x40 x41
    x42 x43 x44,
    Build_Worker x0 x1 x2 x3 x4 x5 x6 x7 x8 x9 x10 x11 x12 x13 x14 x15 x16 x17 x18 x19 x20
      x21 x22 x23 x24 x25 x26 x27 x28 x29 x30 v x32 x33 x34 x35 x36 x37 x38 x39 x40 x41 x42
      x43 x44).

Definition set_mCanUseHTTP (v : bool) (w : Worker) : Worker :=
  Worker_members w (λ x0 x1 x2 x3 x4 x5 x6 x7 x8 x9 x10 x11 x12 x13 x14 x15 x16 x17 x18 x19
    x20 x21 x22 x23 x24 x25 x26 x27 x28 x29 x30 x31 x32 _ x34 x35 x36 x37 x38 x39 x40 x41
    x42 x43 x44,
    Build_Worker x0 x1 x2 x3 x4 x5 x6 x7 x8 x9 x10 x11 x12 x13 x14 x15 x16 x17 x18 x19 x20
      x21 x22 x23 x24 x25 x26 x27 x28 x29 x30 x31 x32 v x34 x35 x36 x37 x38 x39 x40 x41 x42
      x43 x44).

Definition set_mHTTPFailCount (v : Z) (w : Worker) : Worker :=
  Worker_members w (λ x0 x1 x2 x3 x4 x5 x6 x7 x8 x9 x10 x11 x12 x13 x14 x15 x16 x17 x18 x19
    x20 x21 x22 x23 x24 x25 x26 x27 x28 x29 x30 x31 x32 x33 x34 _ x36 x37 x38 x39 x40 x41
    x42 x43 x44,
    Build_Worker x0 x1 x2 x3 x4 x5 x6 x7 x8 x9 x10 x11 x12 x13 x14 x15 x16 x17 x18 x19 x20
      x21 x22 x23 x24 x25 x26 x27 x28 x29 x30 x31 x32 x33 x34 v x36 x37 x38 x39 x40 x41 x42
      x43 x44).

Definition set_mRetryAttempt (v : Z) (w : Worker) : Worker :=
  Worker_members w (λ x0 x1 x2 x3 x4 x5 x6 x7 x8 x9 x10 x11 x12 x13 x14 x15 x16 x17 x18 x19
    x20 x21 x22 x23 x24 x25 x26 x27 x28 x29 x30 x31 x32 x33 x34 x35 _ x37 x38 x39 x40 x41
    x42 x43 x44,
    Build_Worker x0 x1 x2 x3 x4 x5 x6 x7 x8 x9 x10 x11 x12 x13 x14 x15 x16 x17 x18 x19 x20
      x21 x22 x23 x24 x25 x26 x27 x28 x29 x30 x31 x32 x33 x34 x35 v x37 x38 x39 x40 x41 x42
      x43 x44).

Definition set_mGetStatus (v : Z) (w : Worker) : Worker :=
  Worker_members w (λ x0 x1 x2 x3 x4 x5 x6 x7 x8 x9 x10 x11 x12 x13 x14 x15 x16 x17 x18 x19
    x20 x21 x22 x23 x24 x25 x26 x27 x28 x29 x30 x31 x32 x33 x34 x35 x36 _ x38 x39 x40 x41
    x42 x43 x44,
    Build_Worker x0 x1 x2 x3 x4 x5 x6 x7 x8 x9 x10 x11 x12 x13 x14 x15 x16 x17 x18 x19 x20
      x21 x22 x23 x24 x25 x26 x27 x28 x29 x30 x31 x32 x33 x34 x35 x36 v x38 x39 x40 x41 x42
      x43 x44).

Definition set_mGetReason (v : string) (w : Worker) : Worker :=
  Worker_members w (λ x0 x1 x2 x3 x4 x5 x6 x7 x8 x9 x10 x11 x12 x13 x14 x15 x16 x17 x18 x19
    x20 x21 x22 x23 x24 x25 x26 x27 x28 x29 x30 x31 x32 x33 x34 x35 x36 x37 _ x39 x40 x41
    x42 x43 x44,
    Build_Worker x0 x1 x2 x3 x4 x5 x6 x7 x8 x9 x10 x11 x12 x13 x14 x15 x16 x17 x18 x19 x20
      x21 x22 x23 x24 x25 x26 x27 x28 x29 x30 x31 x32 x33 x34 x35 x36 x37 v x39 x40 x41 x42
      x43 x44).

Definition set_mPackets (v : list (option PacketData)) (w : Worker) : Worker :=
  Worker_members w (λ x0 x1 x2 x3 x4 x5 x6 x7 x8 x9 x10 x11 x12 x13 x14 x15 x16 x17 x18 x19
    x20 x21 x22 x23 x24 x25 x26 x27 x28 x29 x30 x31 x32 x33 x34 x35 x36 x37 x38 _ x40 x41
    x42 x43 x44,
    Build_Worker x0 x1 x2 x3 x4 x5 x6 x7 x8 x9 x10 x11 x12 x13 x14 x15 x16 x17 x18 x19 x20
      x21 x22 x23 x24 x25 x26 x27 x28 x29 x30 x31 x32 x33 x34 x35 x36 x37 x38 v x40 x41 x42
      x43 x44).

Definition set_mFirstPacket (v : Z) (w : Worker) : Worker :=
  Worker_members w (λ x0 x1 x2 x3 x4 x5 x6 x7 x8 x9 x10 x11 x12 x13 x14 x15 x16 x17 x18 x19
    x20 x21 x22 x23 x24 x25 x26 x27 x28 x29 x30 x31 x32 x33 x34 x35 x36 x37 x38 x39 _ x41
    x42 x43 x44,
    Build_Worker x0 x1 x2 x3 x4 x5 x6 x7 x8 x9 x10 x11 x12 x13 x14 x15 x16 x17 x18 x19 x20
      x21 x22 x23 x24 x25 x26 x27 x28 x29 x30 x31 x32 x33 x34 x35 x36 x37 x38 x39 v x41 x42
      x43 x44).

Definition set_mLastPacket (v : Z) (w : Worker) : Worker :=
  Worker_members w (λ x0 x1 x2 x3 x4 x5 x6 x7 x8 x9 x10 x11 x12 x13 x14 x15 x16 x17 x18 x19
    x20 x21 x22 x23 x24 x25 x26 x27 x28 x29 x30 x31 x32 x33 x34 x35 x36 x37 x38 x39 x40 _
    x42 x43 x44,
    Build_Worker x0 x1 x2 x3 x4 x5 x6 x7 x8 x9 x10 x11 x12 x13 x14 x15 x16 x17 x18 x19 x20
      x21 x22 x23 x24 x25 x26 x27 x28 x29 x30 x31 x32 x33 x34 x35 x36 x37 x38 x39 x40 v x42
      x43 x44).

Definition set_mTotalPackets (v : Z) (w : Worker) : Worker :=
  Worker_members w (λ x0 x1 x2 x3 x4 x5 x6 x7 x8 x9 x10 x11 x12 x13 x14 x15 x16 x17 x18 x19
    x20 x21 x22 x23 x24 x25 x26 x27 x28 x29 x30 x31 x32 x33 x34 x35 x36 x37 x38 x39 x40 x41
    _ x43 x44,
    Build_Worker x0 x1 x2 x3 x4 x5 x6 x7 x8 x9 x10 x11 x12 x13 x14 x15 x16 x17 x18 x19 x20
      x21 x22 x23 x24 x25 x26 x27 x28 x29 x30 x31 x32 x33 x34 x35 x36 x37 x38 x39 x40 x41 v
      x43 x44).

Definition set_mWork (v : B) (w : Worker) : Worker :=
  Worker_members w (λ x0 x1 x2 x3 x4 x5 x6 x7 x8 x9 x10 x11 x12 x13 x14 x15 x16 x17 x18 x19
    x20 x21 x22 x23 x24 x25 x26 x27 x28 x29 x30 x31 x32 x33 x34 x35 x36 x37 x38 x39 x40 x41
    x42 x43 _,
    Build_Worker x0 x1 x2 x3 x4 x5 x6 x7 x8 x9 x10 x11 x12 x13 x14 x15 x16 x17 x18 x19 x20
      x21 x22 x23 x24 x25 x26 x27 x28 x29 x30 x31 x32 x33 x34 x35 x36 x37 x38 x39 x40 x41
      x42 x43 v).

Notation "w |> f" := (f w) (at level 45, left associativity, only parsing).

(** [setPriority(priority)] of the base class, on the worker. *)
Definition worker_setPriority (priority : Z) (w : Worker) : Worker :=
  set_mWork (setPriority priority (mWork w)) w.

(** [addWork(param, priority)] of the base class, on the worker. *)
Definition worker_addWork (param priority : Z) (w : Worker) : Worker :=
  set_mWork (addWork param priority (mWork w)) w.

(** [void LLTextureFetchWorker::clearPackets()] *)
Definition clearPackets (w : Worker) : Worker :=
  w |> set_mPackets [] |> set_mTotalPackets 0 |> set_mLastPacket (-1) |> set_mFirstPacket 0.

(** [U32 LLTextureFetchWorker::calcWorkPriority()] *)
Definition calcWorkPriority (w : Worker) : Worker :=
  set_mWorkPriority (Z.min PRIORITY_LOWBITS (scaled_priority (mImagePriority w))) w.

(** [void LLTextureFetchWorker::setDesiredDiscard(S32 discard, S32 size)];
    [mDebugPause] is the fetcher's flag. *)
Definition setDesiredDiscard (mDebugPause : bool) (discard size : Z) (w : Worker) : Worker :=
  let '(prioritize, w1) :=
    if negb (mDesiredDiscard w =? discard) then
      let '(prioritize, w') :=
        if negb (haveWork (mWork w)) then
          let w' := calcWorkPriority w in
          (false,
           if negb mDebugPause
           then worker_addWork 0 (Z.lor (mWorkPriority w') PRIORITY_HIGH) w'
           else w')
        else if mDesiredDiscard w <? discard then (true, w)
        else (false, w) in
      (prioritize, w' |> set_mDesiredDiscard discard |> set_mDesiredSize size)
    else if mDesiredSize w <? size then
      (true, w |> set_mDesiredSize size)
    else (false, w) in
  let w2 := set_mDesiredSize (Z.max (mDesiredSize w1) TEXTURE_CACHE_ENTRY_SIZE) w1 in
  if (prioritize && bool_decide (mState w2 = INIT)) || bool_decide (mState w2 = DONE) then
    w2 |> set_mState INIT |> worker_setPriority (Z.lor (mWorkPriority w2) PRIORITY_HIGH)
  else w2.

(** [void LLTextureFetchWorker::setImagePriority(F32 priority)] *)
Definition setImagePriority (priority : F32) (w : Worker) : Worker :=
  if priority_moved priority (mImagePriority w) || bool_decide (mState w = DONE) then
    let w' := w |> set_mImagePriority priority |> calcWorkPriority in
    worker_setPriority
      (Z.lor (mWorkPriority w') (Z.land (getPriority (mWork w')) PRIORITY_HIGHBITS)) w'
  else w.

(** [void LLTextureFetchWorker::resetFormattedData()] *)
Definition resetFormattedData (w : Worker) : Worker :=
  w |> set_mHttpBuffer []
    |> set_mFormattedImage (deleteData <$> mFormattedImage w)
    |> set_mHaveAllData false.

(** *** The packet assembler *)

(** [mPackets.resize(n, NULL)] *)
Definition resize_packets (n : nat) (packets : list (option PacketData))
  : list (option PacketData) :=
  take n packets ++ replicate (n - length packets) None.

(** [mPackets[i] != NULL], for [i] inside the vector. *)
Definition packet_present (packets : list (option PacketData)) (i : Z) : bool :=
  match packets !! Z.to_nat i with
  | Some (Some _) => true
  | _ => false
  end.

(** [while (mLastPacket+1 < (S32)mPackets.size() && mPackets[mLastPacket+1] != NULL)
      ++mLastPacket;]
    Every iteration moves [mLastPacket] towards the size of the vector,
    which bounds the number of iterations. *)
Fixpoint advance_last_packet (fuel : nat) (packets : list (option PacketData)) (last : Z) : Z :=
  match fuel with
  | O => last
  | S fuel' =>
      if (last + 1 <? Z.of_nat (length packets)) && packet_present packets (last + 1)
      then advance_last_packet fuel' packets (last + 1)
      else last
  end.

(** [bool LLTextureFetchWorker::insertPacket(S32 index, U8* data, S32 size)].
    The callers pass [0] or a [U16] packet number, so [index] is never
    negative; [now] is the frame time that [mRequestedTimer.reset()] reads. *)
Definition insertPacket (now : Z) (index : Z) (data : list Byte.byte) (size : Z) (w : Worker)
  : bool * Worker :=
  let w := set_mRequestedTimer now w in
  if mTotalPackets w <=? index then (false, w)
  else if (0 <? index) && (index <? mTotalPackets w - 1)
          && negb (size =? MAX_IMG_PACKET_SIZE) then (false, w)
  else
    let grown := Z.of_nat (length (mPackets w)) <=? index in
    if negb grown && packet_present (mPackets w) index then (false, w)
    else
      let packets :=
        if grown then resize_packets (Z.to_nat (index + 1)) (mPackets w) else mPackets w in
      let packets' :=
        <[Z.to_nat index := Some {| mData := data; mSize := size |}]> packets in
      (true,
       w |> set_mPackets packets'
         |> set_mLastPacket
              (advance_last_packet (length packets') packets' (mLastPacket w))).


(** [bool LLTextureFetchWorker::processSimulatorPackets()].  [None] is a
    failed [llassert_always] (or a read outside [mPackets]). *)
Fixpoint packets_size (packets : list (option PacketData)) (first : Z) (n : nat) : option Z :=
  match n with
  | O => Some 0
  | S n' =>
      match packets !! Z.to_nat first with
      | Some (Some pkt) =>
          if first <? 0 then None
          else (λ rest, mSize pkt + rest) <$> packets_size packets (first + 1) n'
      | _ => None
      end
  end.

(** [for (i = first; i <= last; i++) { memcpy(buffer + offset, mPackets[i]->mData,
    mPackets[i]->mSize); offset += mPackets[i]->mSize; }] over packets that
    are present. *)
Fixpoint copy_packets (packets : list (option PacketData)) (first : Z) (n : nat)
    (buffer : list Byte.byte) (offset : Z) : list Byte.byte :=
  match n with
  | O => buffer
  | S n' =>
      match packets !! Z.to_nat first with
      | Some (Some pkt) =>
          copy_packets packets (first + 1) n'
            (memcpy buffer offset (mData pkt) (mSize pkt)) (offset + mSize pkt)
      | _ => buffer
      end
  end.

Definition processSimulatorPackets (w : Worker) : option (bool * Worker) :=
  match mFormattedImage w with
  | None =>
      if mDecodeHandle w =? 0 then Some (true, set_mFormattedImage None w) else None
  | Some image =>
      if mRequestedSize w <? 0 then
        if mDecodeHandle w =? 0 then Some (true, set_mFormattedImage None w) else None
      else if mFirstPacket w <=? mLastPacket w then
        let n := Z.to_nat (mLastPacket w - mFirstPacket w + 1) in
        match packets_size (mPackets w) (mFirstPacket w) n with
        | None => None
        | Some received =>
            let buffer_size := getDataSize image + received in
            let have_all_data := mTotalPackets w - 1 <=? mLastPacket w in
            if mRequestedSize w <=? 0 then Some (true, w)
            else if (mRequestedSize w <=? buffer_size) || have_all_data then
              let w1 := if have_all_data then set_mHaveAllData true w else w in
              let cur_size := getDataSize image in
              let w2 :=
                if cur_size <? buffer_size then
                  let buffer := ALLOCATE_MEM buffer_size in
                  let '(buffer1, offset) :=
                    if (0 <? cur_size) && (0 <? mFirstPacket w)
                    then (memcpy buffer 0 (image_data image) cur_size, cur_size)
                    else (buffer, 0) in
                  let buffer2 := copy_packets (mPackets w) (mFirstPacket w) n buffer1 offset in
                  set_mFormattedImage (Some (setData buffer2 buffer_size image)) w1
                else w1 in
              Some (true, set_mLoadedDiscard (mRequestedDiscard w) w2)
            else Some (false, w)
        end
      else Some (false, w)
  end.

(** *** The fetcher *)

(** Calls into the collaborators of the worker: the texture cache, the
    image decode thread and the HTTP client. *)
Inductive Call :=
| readFromCacheFile (filename : string) (id : LLUUID) (priority offset size : Z)
| readFromCache (id : LLUUID) (priority offset size : Z)
| readComplete (handle : Z) (abort : bool)
| writeToCache (id : LLUUID) (priority : Z) (data : list Byte.byte) (datasize filesize : Z)
| writeComplete (handle : Z)
| prioritizeWrite (handle : Z)
| decodeImage (image : LLImageFormatted) (priority discard : Z) (needs_aux : bool)
| abortRequest (handle : Z)
| HTTPGet (url : string) (headers : list (string * string)) (start_time : Z)
          (requested_size requested_offset : Z) (follow_redir : bool).

(** The members of [LLTextureFetch] that the modelled functions use, the
    static [SGHostBlackList::blacklist], and the calls made so far. *)
Record Fetcher := {
  mRequestMap : gmap LLUUID Worker;
  mNetworkQueue : gset LLUUID;
  mCancelQueue : gmap LLHost (gset LLUUID);
  mHTTPTextureQueue : gset LLUUID;
  mTotalHTTPRequests : Z;
  mDebugPause : bool;
  mTextureBandwidth : F32;
  blacklist : SGHostBlackList.blacklist_t;
  calls : list Call
}.

Definition set_mNetworkQueue (q : gset LLUUID) (f : Fetcher) : Fetcher :=
  {| mRequestMap := mRequestMap f; mNetworkQueue := q; mCancelQueue := mCancelQueue f;
     mHTTPTextureQueue := mHTTPTextureQueue f; mTotalHTTPRequests := mTotalHTTPRequests f;
     mDebugPause := mDebugPause f; mTextureBandwidth := mTextureBandwidth f;
     blacklist := blacklist f; calls := calls f |}.

Definition set_mCancelQueue (q : gmap LLHost (gset LLUUID)) (f : Fetcher) : Fetcher :=
  {| mRequestMap := mRequestMap f; mNetworkQueue := mNetworkQueue f; mCancelQueue := q;
     mHTTPTextureQueue := mHTTPTextureQueue f; mTotalHTTPRequests := mTotalHTTPRequests f;
     mDebugPause := mDebugPause f; mTextureBandwidth := mTextureBandwidth f;
     blacklist := blacklist f; calls := calls f |}.

Definition set_mHTTPTextureQueue (q : gset LLUUID) (total : Z) (f : Fetcher) : Fetcher :=
  {| mRequestMap := mRequestMap f; mNetworkQueue := mNetworkQueue f;
     mCancelQueue := mCancelQueue f; mHTTPTextureQueue := q; mTotalHTTPRequests := total;
     mDebugPause := mDebugPause f; mTextureBandwidth := mTextureBandwidth f;
     blacklist := blacklist f; calls := calls f |}.

Definition set_blacklist (b : SGHostBlackList.blacklist_t) (f : Fetcher) : Fetcher :=
  {| mRequestMap := mRequestMap f; mNetworkQueue := mNetworkQueue f;
     mCancelQueue := mCancelQueue f; mHTTPTextureQueue := mHTTPTextureQueue f;
     mTotalHTTPRequests := mTotalHTTPRequests f; mDebugPause := mDebugPause f;
     mTextureBandwidth := mTextureBandwidth f; blacklist := b; calls := calls f |}.

Definition set_mRequestMap (m : gmap LLUUID Worker) (f : Fetcher) : Fetcher :=
  {| mRequestMap := m; mNetworkQueue := mNetworkQueue f;
     mCancelQueue := mCancelQueue f; mHTTPTextureQueue := mHTTPTextureQueue f;
     mTotalHTTPRequests := mTotalHTTPRequests f; mDebugPause := mDebugPause f;
     mTextureBandwidth := mTextureBandwidth f; blacklist := blacklist f; calls := calls f |}.

(** Record a call to a collaborator. *)
Definition call (c : Call) (f : Fetcher) : Fetcher :=
  {| mRequestMap := mRequestMap f; mNetworkQueue := mNetworkQueue f;
     mCancelQueue := mCancelQueue f; mHTTPTextureQueue := mHTTPTextureQueue f;
     mTotalHTTPRequests := mTotalHTTPRequests f; mDebugPause := mDebugPause f;
     mTextureBandwidth := mTextureBandwidth f; blacklist := blacklist f;
     calls := calls f ++ [c] |}.

(** [void LLTextureFetch::addToNetworkQueue(LLTextureFetchWorker* worker)] *)
Definition addToNetworkQueue (w : Worker) (f : Fetcher) : Fetcher :=
  let in_request_map := bool_decide (is_Some (mRequestMap f !! mID w)) in
  let f' := if in_request_map then set_mNetworkQueue ({[mID w]} ∪ mNetworkQueue f) f else f in
  set_mCancelQueue ((λ ids : gset LLUUID, ids ∖ {[mID w]}) <$> mCancelQueue f') f'.

(** [void LLTextureFetch::removeFromNetworkQueue(worker, cancel)] *)
Definition removeFromNetworkQueue (w : Worker) (cancel : bool) (f : Fetcher) : Fetcher :=
  let erased := bool_decide (mID w ∈ mNetworkQueue f) in
  let f' := set_mNetworkQueue (mNetworkQueue f ∖ {[mID w]}) f in
  if cancel && erased then
    set_mCancelQueue
      (<[mHost w := {[mID w]} ∪ default ∅ (mCancelQueue f' !! mHost w)]> (mCancelQueue f')) f'
  else f'.

(** [void LLTextureFetch::addToHTTPQueue(const LLUUID& id)] *)
Definition addToHTTPQueue (id : LLUUID) (f : Fetcher) : Fetcher :=
  set_mHTTPTextureQueue ({[id]} ∪ mHTTPTextureQueue f) (mTotalHTTPRequests f + 1) f.

(** [S32 LLTextureFetch::getNumHTTPRequests()] *)
Definition getNumHTTPRequests (f : Fetcher) : Z := Z.of_nat (size (mHTTPTextureQueue f)).

(** What one call of [doWork] observes of its surroundings: the clock, the
    settings, and the answers of the collaborators. *)
Record Env := {
  now : Z;
  isQuitting : bool;
  asset_blacklisted : LLUUID → bool;
  use_http : bool;
  max_http_requests : Z;
  min_http_requests : Z;
  throttle_bandwidth : F32;
  textures_decode_disabled : bool;
  (** [gAgent.getRegion()] and its [getHttpUrl()]; [None] when there is no
      region. *)
  agent_region_url : option string;
  (** [LLWorld::getRegion(host)] and its [getHttpUrl()]. *)
  world_region_url : LLHost → option string;
  asString : LLUUID → string;
  (** The handles returned by [readFromCache], [writeToCache] and
      [decodeImage]. *)
  new_read_handle : Z;
  new_write_handle : Z;
  new_decode_handle : Z;
  readComplete_result : Z → bool;
  writeComplete_result : Z → bool;
  (** [LLImageFormatted::createFromType(getCodecFromExtension(getExtension(url)))] *)
  image_from_url : string → option LLImageFormatted
}.

(** How a state block of [doWork] ends: with [return b], by falling
    through to the next [if (mState == ...)], or in a failed
    [llassert_always]. *)
Inductive Flow := Returns (b : bool) | FallThrough | Asserts.

(** [new LLImageJ2C] *)
Definition LLImageJ2C_new : LLImageFormatted :=
  {| image_data := []; mDiscardLevel := -1; mCodec := IMG_CODEC_J2C |}.

(** [mUrl.compare(0, 7, "file://") == 0] *)
Definition is_file_url (url : string) : bool := String.prefix "file://" url.

(** [const F32 FETCHING_TIMEOUT = 15.f] seconds, against a clock that
    counts microseconds. *)
Definition FETCHING_TIMEOUT : Z := 15 * 1000000.

(** The checks at the top of [doWork], before the state blocks. *)
Definition doWork_entry (e : Env) (w : Worker) (f : Fetcher) : Flow * Worker * Fetcher :=
  if (isQuitting e || getFlags WCF_DELETE_REQUESTED (mWork w))
     && (state_value (mState w) <? state_value DECODE_IMAGE) then (Returns true, w, f)
  else if almost_zero (mImagePriority w)
          && (bool_decide (mState w = INIT) || bool_decide (mState w = LOAD_FROM_NETWORK)
              || bool_decide (mState w = LOAD_FROM_SIMULATOR)) then (Returns true, w, f)
  else if (state_value CACHE_POST <? state_value (mState w))
          && negb (mCanUseNET w) && negb (mCanUseHTTP w) then (Returns true, w, f)
  else if mDebugPause f then (Returns false, w, f)
  else if negb (bool_decide (mState w = DONE)) then (FallThrough, set_mFetchTimer (now e) w, f)
  else (FallThrough, w, f).

(** [if (mState == INIT) { ... }] *)
Definition doWork_INIT (e : Env) (w : Worker) (f : Fetcher) : Flow * Worker * Fetcher :=
  if asset_blacklisted e (mID w) then (Returns true, set_mState DONE w, f)
  else
    let w' :=
      w |> set_mRawImage None |> set_mRequestedDiscard (-1) |> set_mLoadedDiscard (-1)
        |> set_mDecodedDiscard (-1) |> set_mRequestedSize 0 |> set_mRequestedOffset 0
        |> set_mFileSize 0 |> set_mCachedSize 0 |> set_mLoaded false
        |> set_mSentRequest UNSENT |> set_mDecoded false |> set_mWritten false
        |> set_mHttpBuffer [] |> set_mHaveAllData false |> clearPackets
        |> set_mCacheReadHandle nullHandle |> set_mCacheWriteHandle nullHandle
        |> set_mState LOAD_FROM_TEXTURE_CACHE in
    (FallThrough, set_mDesiredSize (Z.max (mDesiredSize w') TEXTURE_CACHE_ENTRY_SIZE) w', f).

(** [if (mState == LOAD_FROM_TEXTURE_CACHE) { ... }] *)
Definition doWork_LOAD_FROM_TEXTURE_CACHE (e : Env) (w : Worker) (f : Fetcher)
  : Flow * Worker * Fetcher :=
  let issue : option (Worker * Fetcher) :=
    if mCacheReadHandle w =? nullHandle then
      let cache_priority := mWorkPriority w in
      let offset := data_size_of (mFormattedImage w) in
      let size := mDesiredSize w - offset in
      if size <=? 0 then None
      else
        let w1 := w |> set_mFileSize 0 |> set_mLoaded false in
        if is_file_url (mUrl w1) then
          let w2 := worker_setPriority (Z.lor PRIORITY_LOW (mWorkPriority w1)) w1 in
          let filename := String.substring 7 (String.length (mUrl w2) - 7) (mUrl w2) in
          Some (w2 |> set_mCacheReadHandle (new_read_handle e) |> set_mCacheReadTimer (now e),
                call (readFromCacheFile filename (mID w2) cache_priority offset size) f)
        else if bool_decide (mUrl w1 = EmptyString) then
          let w2 := worker_setPriority (Z.lor PRIORITY_LOW (mWorkPriority w1)) w1 in
          Some (w2 |> set_mCacheReadHandle (new_read_handle e) |> set_mCacheReadTimer (now e),
                call (readFromCache (mID w2) cache_priority offset size) f)
        else if negb (bool_decide (mUrl w1 = EmptyString)) && mCanUseHTTP w1 then
          Some (w1 |> worker_setPriority (Z.lor PRIORITY_HIGH (mWorkPriority w1))
                   |> set_mState SEND_HTTP_REQ, f)
        else
          Some (w1 |> worker_setPriority (Z.lor PRIORITY_HIGH (mWorkPriority w1))
                   |> set_mState LOAD_FROM_NETWORK, f)
    else Some (w, f) in
  match issue with
  | None => (Returns false, set_mState CACHE_POST w, f)
  | Some (w', f') =>
      if mLoaded w' then
        let f'' := call (readComplete (mCacheReadHandle w') false) f' in
        if readComplete_result e (mCacheReadHandle w') then
          (FallThrough, w' |> set_mCacheReadHandle nullHandle |> set_mState CACHE_POST, f'')
        else (Returns false, w', f'')
      else (Returns false, w', f')
  end.

(** [if (mState == CACHE_POST) { ... }] *)
Definition doWork_CACHE_POST (e : Env) (w : Worker) (f : Fetcher) : Flow * Worker * Fetcher :=
  let w1 := set_mCachedSize (data_size_of (mFormattedImage w)) w in
  if (mDesiredSize w1 <=? mCachedSize w1) || mHaveAllData w1 then
    if 0 <? data_size_of (mFormattedImage w1) then
      (FallThrough,
       w1 |> set_mLoadedDiscard (mDesiredDiscard w1) |> set_mState DECODE_IMAGE
          |> set_mWriteToCacheState NOT_WRITE, f)
    else (Asserts, w1, f)
  else if is_file_url (mUrl w1) then (Returns true, w1, f)
  else (FallThrough, set_mState LOAD_FROM_NETWORK w1, f).

(** [if (mState == LOAD_FROM_NETWORK) { ... }] *)
Definition doWork_LOAD_FROM_NETWORK (e : Env) (w : Worker) (f : Fetcher)
  : Flow * Worker * Fetcher :=
  let w1 :=
    if use_http e && mCanUseHTTP w && bool_decide (mUrl w = EmptyString) then
      let region :=
        if bool_decide (mHost w = LLHost_invalid) then agent_region_url e
        else world_region_url e (mHost w) in
      match region with
      | Some http_url =>
          if negb (bool_decide (http_url = EmptyString)) then
            w |> set_mUrl (http_url +:+ "/?texture_id=" +:+ asString e (mID w))
              |> set_mWriteToCacheState CAN_WRITE
          else set_mCanUseHTTP false w
      | None => set_mCanUseHTTP false w
      end
    else w in
  let '(w2, f2) :=
    if negb (bool_decide (mUrl w1 = EmptyString)) then
      let '(listed, bl) := SGHostBlackList.isBlacklisted (now e) (mUrl w1) (blacklist f) in
      (if listed then set_mCanUseHTTP false w1 else w1, set_blacklist bl f)
    else (w1, f) in
  if mCanUseHTTP w2 && negb (bool_decide (mUrl w2 = EmptyString)) then
    let w3 := w2 |> set_mState SEND_HTTP_REQ
                 |> worker_setPriority (Z.lor PRIORITY_HIGH (mWorkPriority w2)) in
    (FallThrough,
     if negb (bool_decide (mWriteToCacheState w3 = NOT_WRITE))
     then set_mWriteToCacheState CAN_WRITE w3 else w3, f2)
  else if bool_decide (mSentRequest w2 = UNSENT) && mCanUseNET w2 then
    let w3 := w2 |> set_mWriteToCacheState CAN_WRITE |> set_mRequestedSize (mDesiredSize w2)
                 |> set_mRequestedDiscard (mDesiredDiscard w2) |> set_mSentRequest QUEUED in
    (Returns false, worker_setPriority (Z.lor PRIORITY_LOW (mWorkPriority w3)) w3,
     addToNetworkQueue w3 f2)
  else (Returns false, w2, f2).

(** [if (mState == LOAD_FROM_SIMULATOR) { ... }] *)
Definition doWork_LOAD_FROM_SIMULATOR (e : Env) (w : Worker) (f : Fetcher)
  : Flow * Worker * Fetcher :=
  let w1 := match mFormattedImage w with
            | None => set_mFormattedImage (Some LLImageJ2C_new) w
            | Some _ => w
            end in
  match processSimulatorPackets w1 with
  | None => (Asserts, w1, f)
  | Some (true, w2) =>
      let f2 := removeFromNetworkQueue w2 false f in
      if data_size_of (mFormattedImage w2) =? 0 then (Returns true, w2, f2)
      else
        (Returns false,
         w2 |> worker_setPriority (Z.lor PRIORITY_HIGH (mWorkPriority w2))
            |> set_mState DECODE_IMAGE |> set_mWriteToCacheState SHOULD_WRITE, f2)
  | Some (false, w2) =>
      (Returns false, worker_setPriority (Z.lor PRIORITY_LOW (mWorkPriority w2)) w2,
       addToNetworkQueue w2 f)
  end.


(** [if (mState == SEND_HTTP_REQ) { ... }] *)
Definition doWork_SEND_HTTP_REQ (e : Env) (w : Worker) (f : Fetcher) : Flow * Worker * Fetcher :=
  if mCanUseHTTP w then
    if (max_http_requests e <=? getNumHTTPRequests f)
       || (f32_gtb (mTextureBandwidth f) (throttle_bandwidth e)
           && (min_http_requests e <? getNumHTTPRequests f)) then (Returns false, w, f)
    else
      let f1 := removeFromNetworkQueue w false f in
      let cur_size := data_size_of (mFormattedImage w) in
      let have_all : option (Flow * Worker * Fetcher) :=
        match mFormattedImage w with
        | Some image =>
            if getDiscardLevel image =? 0 then
              if 0 <? cur_size then
                Some (Returns false,
                      w |> set_mLoadedDiscard (getDiscardLevel image)
                        |> set_mState DECODE_IMAGE, f1)
              else Some (Returns true, w, f1)
            else None
        | None => None
        end in
      match have_all with
      | Some r => r
      | None =>
      (let w1 := w |> set_mRequestedSize (mDesiredSize w - cur_size)
                   |> set_mRequestedDiscard (mDesiredDiscard w)
                   |> set_mRequestedOffset cur_size in
       if negb (bool_decide (mUrl w1 = EmptyString)) then
         let w2 := w1 |> set_mRequestedTimer (now e) |> set_mLoaded false |> set_mGetStatus 0
                      |> set_mGetReason EmptyString
                      |> worker_setPriority (Z.lor PRIORITY_LOW (mWorkPriority w1))
                      |> set_mState WAIT_HTTP_REQ in
         let f2 := addToHTTPQueue (mID w2) f1 in
         let w3 :=
           if 0 <? mRequestedOffset w2
           then w2 |> set_mRequestedSize (mRequestedSize w2 + 1)
                   |> set_mRequestedOffset (mRequestedOffset w2 - 1)
           else w2 in
         let accept := [("Accept", "image/x-j2c")] in
         let headers :=
           if (0 <? mRequestedOffset w3) || (0 <? mRequestedSize w3)
           then accept ++
                [("Range",
                  "bytes=" +:+ pretty (mRequestedOffset w3) +:+ "-"
                    +:+ pretty (mRequestedOffset w3 + mRequestedSize w3 - 1))]
           else accept in
         (FallThrough, w3,
          call (HTTPGet (mUrl w3) headers (now e) (mRequestedSize w3) (mRequestedOffset w3)
                        true) f2)
       else
         (Returns true,
          let w2 := resetFormattedData w1 in
          set_mHTTPFailCount (mHTTPFailCount w2 + 1) w2, f1))
      end
  else (Returns true, w, f).

Definition HTTP_MAX_RETRY_COUNT : Z := 3.

(** The branch [if (mRequestedSize < 0) { ... }] of WAIT_HTTP_REQ: the
    request failed.  Every path through it returns. *)
Definition doWork_http_failed (e : Env) (cur_size : Z) (w : Worker) (f : Fetcher)
  : Flow * Worker * Fetcher :=
  if (mGetStatus w =? HTTP_NOT_FOUND) || (mGetStatus w =? 499) then
    let w1 := set_mHTTPFailCount 1 w in
    let f1 :=
      if mGetStatus w1 =? HTTP_NOT_FOUND then f
      else if mGetStatus w1 =? 499 then
        set_blacklist
          (SGHostBlackList.add (now e) (mUrl w1) f32_sixty (mGetStatus w1) (blacklist f)) f
      else f in
    if mCanUseNET w1 then
      (Returns false,
       w1 |> resetFormattedData |> set_mState INIT |> set_mCanUseHTTP false
          |> worker_setPriority (Z.lor PRIORITY_HIGH (mWorkPriority w1)), f1)
    else
      (Returns true, resetFormattedData w1, f1)
  else
    let '(max_attempts, w1) :=
      if mGetStatus w =? HTTP_SERVICE_UNAVAILABLE then
        let w1 := set_mHTTPFailCount (mHTTPFailCount w + 1) w in
        (mHTTPFailCount w1 + 1, w1)
      else
        (HTTP_MAX_RETRY_COUNT + 1, set_mHTTPFailCount (mHTTPFailCount w + 1) w) in
    if max_attempts <=? mHTTPFailCount w1 then
      if (0 <? cur_size) && (mHTTPFailCount w1 <? max_attempts + 1) then
        (Returns false,
         w1 |> set_mLoadedDiscard
                 (from_option getDiscardLevel (mLoadedDiscard w1) (mFormattedImage w1))
            |> set_mState DECODE_IMAGE, f)
      else if mCanUseNET w1 then
        (Returns false,
         w1 |> resetFormattedData |> set_mState INIT |> set_mCanUseHTTP false
            |> worker_setPriority (Z.lor PRIORITY_HIGH (mWorkPriority w1)), f)
      else
        (Returns true, w1 |> resetFormattedData |> set_mState DONE, f)
    else (Returns false, set_mState SEND_HTTP_REQ w1, f).

(** The rest of WAIT_HTTP_REQ once the request has succeeded: the body in
    [mHttpBuffer] is appended to the formatted image. *)
Definition doWork_http_received (e : Env) (cur_size : Z) (w : Worker) (f : Fetcher)
  : Flow * Worker * Fetcher :=
  if bool_decide (mHttpBuffer w = []) then (Returns true, set_mState DONE w, f)
  else
    let total_size := cur_size + mRequestedSize w in
    let misaligned :=
      negb (mRequestedOffset w =? 0) && negb (mRequestedOffset w =? cur_size) in
    if misaligned && (cur_size <? mRequestedOffset w) then
      (Returns true, set_mState DONE w, f)
    else
      let src_offset := if misaligned then cur_size - mRequestedOffset w else 0 in
      let total_size := if misaligned then total_size - src_offset else total_size in
      let w1 :=
        if misaligned
        then w |> set_mRequestedSize (mRequestedSize w - src_offset)
               |> set_mRequestedOffset (mRequestedOffset w + src_offset)
        else w in
      let image :=
        match mFormattedImage w1 with
        | Some image => image
        | None => default LLImageJ2C_new (image_from_url e (mUrl w1))
        end in
      let w2 :=
        if mHaveAllData w1 && (mRequestedDiscard w1 =? 0)
        then set_mFileSize total_size w1
        else set_mFileSize (total_size + 1) w1 in
      let buffer := ALLOCATE_MEM total_size in
      let buffer1 :=
        if 0 <? cur_size then memcpy buffer 0 (image_data image) cur_size else buffer in
      let buffer2 :=
        if 0 <? mRequestedSize w2
        then memcpy buffer1 (mRequestedOffset w2)
                    (drop (Z.to_nat src_offset) (mHttpBuffer w2)) (mRequestedSize w2)
        else buffer1 in
      let w3 := w2 |> set_mFormattedImage (Some (setData buffer2 total_size image))
                   |> set_mHttpBuffer []
                   |> set_mLoadedDiscard (mRequestedDiscard w2)
                   |> set_mState DECODE_IMAGE in
      let w4 :=
        if negb (bool_decide (mWriteToCacheState w3 = NOT_WRITE))
        then set_mWriteToCacheState SHOULD_WRITE w3 else w3 in
      (Returns false, worker_setPriority (Z.lor PRIORITY_HIGH (mWorkPriority w4)) w4, f).

(** [if (mState == WAIT_HTTP_REQ) { ... }] *)
Definition doWork_WAIT_HTTP_REQ (e : Env) (w : Worker) (f : Fetcher) : Flow * Worker * Fetcher :=
  if mLoaded w then
    let cur_size := data_size_of (mFormattedImage w) in
    if mRequestedSize w <? 0 then doWork_http_failed e cur_size w f
    else doWork_http_received e cur_size w f
  else if FETCHING_TIMEOUT <? now e - mRequestedTimer w then
    (Returns true, set_mState DONE w, f)
  else (Returns false, worker_setPriority (Z.lor PRIORITY_LOW (mWorkPriority w)) w, f).

(** [if (mState == DECODE_IMAGE) { ... }] *)
Definition doWork_DECODE_IMAGE (e : Env) (w : Worker) (f : Fetcher) : Flow * Worker * Fetcher :=
  let w1 := worker_setPriority (Z.lor PRIORITY_LOW (mWorkPriority w)) w in
  if textures_decode_disabled e then (Returns true, set_mState DONE w1, f)
  else if mDesiredDiscard w1 <? 0 then (Returns true, set_mState DONE w1, f)
  else
    match mFormattedImage w1 with
    | None => (Asserts, w1, f)
    | Some image =>
        if getDataSize image <=? 0 then (Returns true, set_mState DONE w1, f)
        else if mLoadedDiscard w1 <? 0 then (Returns true, set_mState DONE w1, f)
        else
          let discard := if mHaveAllData w1 then 0 else mLoadedDiscard w1 in
          let image_priority := Z.lor PRIORITY_NORMAL (mWorkPriority w1) in
          (FallThrough,
           w1 |> set_mRawImage None |> set_mAuxImage None |> set_mDecoded false
              |> set_mState DECODE_IMAGE_UPDATE |> set_mDecodeHandle (new_decode_handle e),
           call (decodeImage image image_priority discard (mNeedsAux w1)) f)
    end.

(** [if (mState == DECODE_IMAGE_UPDATE) { ... }] *)
Definition doWork_DECODE_IMAGE_UPDATE (e : Env) (w : Worker) (f : Fetcher)
  : Flow * Worker * Fetcher :=
  if mDecoded w then
    if mDecodedDiscard w <? 0 then
      if (0 <? mCachedSize w) && negb (mInLocalCache w) && (mRetryAttempt w =? 0) then
        if mDecodeHandle w =? 0 then
          (Returns false,
           w |> set_mFormattedImage None |> set_mRetryAttempt (mRetryAttempt w + 1)
             |> worker_setPriority (Z.lor PRIORITY_HIGH (mWorkPriority w))
             |> set_mState INIT, f)
        else (Asserts, w, f)
      else (FallThrough, set_mState DONE w, f)
    else
      match mRawImage w with
      | None => (Asserts, w, f)
      | Some _ =>
          (FallThrough,
           w |> worker_setPriority (Z.lor PRIORITY_HIGH (mWorkPriority w))
             |> set_mState WRITE_TO_CACHE, f)
      end
  else (Returns false, w, f).

(** [if (mState == WRITE_TO_CACHE) { ... }] *)
Definition doWork_WRITE_TO_CACHE (e : Env) (w : Worker) (f : Fetcher) : Flow * Worker * Fetcher :=
  match mFormattedImage w with
  | None => (Returns false, set_mState DONE w, f)
  | Some image =>
      if negb (bool_decide (mWriteToCacheState w = SHOULD_WRITE)) then
        (Returns false, set_mState DONE w, f)
      else
        let datasize := getDataSize image in
        let w1 :=
          if mFileSize w <? datasize then
            if mHaveAllData w then set_mFileSize datasize w
            else set_mFileSize (datasize + 1) w
          else w in
        if datasize =? 0 then (Asserts, w1, f)
        else
          let w2 := worker_setPriority (Z.lor PRIORITY_LOW (mWorkPriority w1)) w1 in
          let cache_priority := mWorkPriority w2 in
          (FallThrough,
           w2 |> set_mWritten false |> set_mState WAIT_ON_WRITE
              |> set_mCacheWriteHandle (new_write_handle e),
           call (writeToCache (mID w2) cache_priority (image_data image) datasize
                              (mFileSize w2)) f)
  end.

(** [bool LLTextureFetchWorker::writeToCacheComplete()] *)
Definition writeToCacheComplete (e : Env) (w : Worker) (f : Fetcher) : bool * Worker * Fetcher :=
  if negb (mCacheWriteHandle w =? nullHandle) then
    if negb (mWritten w) then (false, w, f)
    else
      let f' := call (writeComplete (mCacheWriteHandle w)) f in
      if writeComplete_result e (mCacheWriteHandle w)
      then (true, set_mCacheWriteHandle nullHandle w, f')
      else (false, w, f')
  else (true, w, f).

(** [if (mState == WAIT_ON_WRITE) { ... }] *)
Definition doWork_WAIT_ON_WRITE (e : Env) (w : Worker) (f : Fetcher) : Flow * Worker * Fetcher :=
  let '(complete, w1, f1) := writeToCacheComplete e w f in
  if complete then (FallThrough, set_mState DONE w1, f1)
  else if mDesiredDiscard w1 <? mDecodedDiscard w1 then
    (Returns false, w1, call (prioritizeWrite (mCacheWriteHandle w1)) f1)
  else (Returns false, w1, f1).

(** [if (mState == DONE) { ... }] *)
Definition doWork_DONE (e : Env) (w : Worker) (f : Fetcher) : Flow * Worker * Fetcher :=
  if (0 <=? mDecodedDiscard w) && (mDesiredDiscard w <? mDecodedDiscard w) then
    (Returns false,
     w |> set_mState INIT |> worker_setPriority (Z.lor PRIORITY_HIGH (mWorkPriority w)), f)
  else
    (Returns true, worker_setPriority (Z.lor PRIORITY_LOW (mWorkPriority w)) w, f).

(** One [if (mState == st) { ... }] of [doWork], reached only when no
    earlier block has returned. *)
Definition in_state (st : e_state) (block : Worker → Fetcher → Flow * Worker * Fetcher)
    (r : Flow * Worker * Fetcher) : Flow * Worker * Fetcher :=
  match r with
  | (FallThrough, w, f) => if bool_decide (mState w = st) then block w f else r
  | _ => r
  end.

(** [bool LLTextureFetchWorker::doWork(S32 param)].  The result is [None]
    when an [llassert_always] fails. *)
Definition doWork (e : Env) (w : Worker) (f : Fetcher) : option bool * Worker * Fetcher :=
  let '(flow, w', f') :=
    doWork_entry e w f
      |> in_state INIT (doWork_INIT e)
      |> in_state LOAD_FROM_TEXTURE_CACHE (doWork_LOAD_FROM_TEXTURE_CACHE e)
      |> in_state CACHE_POST (doWork_CACHE_POST e)
      |> in_state LOAD_FROM_NETWORK (doWork_LOAD_FROM_NETWORK e)
      |> in_state LOAD_FROM_SIMULATOR (doWork_LOAD_FROM_SIMULATOR e)
      |> in_state SEND_HTTP_REQ (doWork_SEND_HTTP_REQ e)
      |> in_state WAIT_HTTP_REQ (doWork_WAIT_HTTP_REQ e)
      |> in_state DECODE_IMAGE (doWork_DECODE_IMAGE e)
      |> in_state DECODE_IMAGE_UPDATE (doWork_DECODE_IMAGE_UPDATE e)
      |> in_state WRITE_TO_CACHE (doWork_WRITE_TO_CACHE e)
      |> in_state WAIT_ON_WRITE (doWork_WAIT_ON_WRITE e)
      |> in_state DONE (doWork_DONE e) in
  match flow with
  | Returns b => (Some b, w', f')
  | FallThrough => (Some false, w', f')
  | Asserts => (None, w', f')
  end.

(** [void LLTextureFetchWorker::endWork(S32 param, bool aborted)] *)
Definition endWork (w : Worker) (f : Fetcher) : Worker * Fetcher :=
  let '(w1, f1) :=
    if negb (mDecodeHandle w =? 0)
    then (set_mDecodeHandle 0 w, call (abortRequest (mDecodeHandle w)) f)
    else (w, f) in
  (set_mFormattedImage None w1, f1).

(** [S32 LLTextureFetchWorker::callbackHttpGet(channels, buffer, partial, success)];
    [body] is what the buffer holds after [channels.in()].  [None] is the
    failed [llassert_always(mDecodeHandle == 0)]. *)
Definition callbackHttpGet (body : list Byte.byte) (partial success : bool) (w : Worker)
  : option (Z * Worker) :=
  if negb (bool_decide (mState w = WAIT_HTTP_REQ)) then Some (0, w)
  else if mLoaded w then Some (0, w)
  else
    let finish (data_size : Z) (w' : Worker) :=
      (data_size,
       w' |> set_mLoaded true
          |> worker_setPriority (Z.lor PRIORITY_HIGH (mWorkPriority w'))) in
    if success then
      let data_size := Z.of_nat (length body) in
      if 0 <? data_size then
        let w1 := set_mHttpBuffer body w in
        if (data_size <? mRequestedSize w1) && (mRequestedDiscard w1 =? 0) then
          Some (finish data_size (w1 |> set_mHaveAllData true |> set_mRequestedSize data_size))
        else if mRequestedSize w1 <? data_size then
          if mDecodeHandle w1 =? 0 then
            Some (finish data_size
                    (w1 |> set_mHaveAllData true |> set_mRequestedOffset 0
                        |> set_mFormattedImage None |> set_mRequestedSize data_size))
          else None
        else Some (finish data_size (set_mRequestedSize data_size w1))
      else
        Some (finish data_size (w |> set_mHaveAllData true |> set_mRequestedSize data_size))
    else Some (finish 0 (set_mRequestedSize (-1) w)).

(** [bool LLTextureFetch::getRequestFinished(id, discard_level, raw, aux)].
    The three reference arguments are passed in and handed back. *)
Definition getRequestFinished (id : LLUUID) (discard_level : Z)
    (raw aux : option LLImageRaw) (f : Fetcher)
  : bool * (Z * option LLImageRaw * option LLImageRaw) * Fetcher :=
  match mRequestMap f !! id with
  | Some worker =>
      if wasAborted (mWork worker) then (true, (discard_level, raw, aux), f)
      else if negb (haveWork (mWork worker)) then
        if negb (mDebugPause f) then
          let worker' :=
            worker_addWork 0 (Z.lor PRIORITY_HIGH (mWorkPriority worker)) worker in
          (false, (discard_level, raw, aux),
           set_mRequestMap (<[id := worker']> (mRequestMap f)) f)
        else (false, (discard_level, raw, aux), f)
      else
        let '(complete, work') := checkWork (mWork worker) in
        let worker1 := set_mWork work' worker in
        if complete then
          let '(worker2, f1) := endWork worker1 f in
          (true, (mDecodedDiscard worker2, mRawImage worker2, mAuxImage worker2),
           set_mRequestMap (<[id := worker2]> (mRequestMap f1)) f1)
        else
          let f1 := set_mRequestMap (<[id := worker1]> (mRequestMap f)) f in
          if (0 <=? mDecodedDiscard worker1)
             && ((mDecodedDiscard worker1 <? discard_level) || (discard_level <? 0))
             && (state_value WAIT_ON_WRITE <=? state_value (mState worker1))
          then (false, (mDecodedDiscard worker1, mRawImage worker1, mAuxImage worker1), f1)
          else (false, (discard_level, raw, aux), f1)
  | None => (true, (discard_level, raw, aux), f)
  end.


End Worker.
End TextureFetch.

(** ** Concrete instances of the interfaces

    The values a build of the viewer uses, to run the model on examples. *)

Module Fixtures.
Import TextureFetch.

Definition flags : AIPerService.CapabilityFlags :=
  {| AIPerService.ctf_empty := 1; AIPerService.ctf_full := 2;
     AIPerService.ctf_starvation := 4 |}.

(** A multi handle that takes every request and remembers them in order. *)
Definition recording_handle {Request : Type}
  : AIPerService.MultiHandle (list Request) Request :=
  λ added request _, (true, added ++ [request]).

Definition constants : Constants :=
  {| TEXTURE_CACHE_ENTRY_SIZE := 600;
     FIRST_PACKET_SIZE := 600;
     MAX_IMG_PACKET_SIZE := 1000;
     PRIORITY_HIGH := 0x30000000;
     PRIORITY_NORMAL := 0x20000000;
     PRIORITY_LOW := 0x10000000;
     PRIORITY_LOWBITS := 0x0FFFFFFF;
     PRIORITY_HIGHBITS := 0x70000000;
     WCF_DELETE_REQUESTED := 0x04;
     nullHandle := 0;
     IMG_CODEC_J2C := 2 |}.

(** Priorities and time-outs counted in whole units instead of [F32]. *)
Definition integer_floats : FloatOps Z :=
  {| f32_gtb := Z.gtb;
     almost_zero := λ priority, priority <? 1;
     priority_moved := λ priority old, old <? 20 * Z.abs (priority - old);
     scaled_priority := λ priority, priority;
     time_plus := λ t timeout, t + timeout * 1000;
     f32_sixty := 60 |}.

(** A work request as the worker sees it. *)
Record WorkRequest := {
  queued : bool;
  priority : Z;
  flags_set : Z;
  aborted : bool;
  complete : bool
}.

Definition work_requests : LLWorkerClass WorkRequest :=
  {| haveWork := queued;
     addWork := λ _ prio r,
       {| queued := true; priority := prio; flags_set := flags_set r;
          aborted := aborted r; complete := false |};
     setPriority := λ prio r,
       {| queued := queued r; priority := prio; flags_set := flags_set r;
          aborted := aborted r; complete := complete r |};
     getPriority := priority;
     getFlags := λ flag r, negb (Z.land (flags_set r) flag =? 0);
     wasAborted := aborted;
     checkWork := λ r,
       if queued r && complete r
       then (true, {| queued := false; priority := priority r; flags_set := flags_set r;
                      aborted := aborted r; complete := false |})
       else (false, r) |}.

Definition idle : WorkRequest :=
  {| queued := false; priority := 0; flags_set := 0; aborted := false; complete := false |}.

Definition running : WorkRequest :=
  {| queued := true; priority := 0; flags_set := 0; aborted := false; complete := false |}.

Definition worker := @Worker Z WorkRequest.
Definition fetcher := @Fetcher Z WorkRequest.
Definition env := @Env Z.

(** A worker as its constructor leaves it, before [setDesiredDiscard]. *)
Definition new_worker (url : string) (id : LLUUID) : worker :=
  {| mState := INIT; mWriteToCacheState := NOT_WRITE; mFormattedImage := None;
     mRawImage := None; mAuxImage := None; mID := id; mHost := LLHost_invalid; mUrl := url;
     mImagePriority := 100; mWorkPriority := 0; mDesiredDiscard := -1;
     mRequestedDiscard := -1; mLoadedDiscard := -1; mDecodedDiscard := -1;
     mRequestedTimer := 0; mFetchTimer := 0; mCacheReadTimer := 0;
     mCacheReadHandle := 0; mCacheWriteHandle := 0; mHttpBuffer := [];
     mRequestedSize := 0; mRequestedOffset := 0; mDesiredSize := 600; mFileSize := 0;
     mCachedSize := 0; mSentRequest := UNSENT; mDecodeHandle := 0; mLoaded := false;
     mDecoded := false; mWritten := false; mNeedsAux := false; mHaveAllData := false;
     mInLocalCache := false; mCanUseHTTP := true;
     mCanUseNET := bool_decide (url = EmptyString);
     mHTTPFailCount := 0; mRetryAttempt := 0; mGetStatus := 0; mGetReason := EmptyString;
     mPackets := []; mFirstPacket := 0; mLastPacket := -1; mTotalPackets := 0;
     mImageCodec := 0; mWork := running |}.

Definition empty_fetcher : fetcher :=
  {| mRequestMap := ∅; mNetworkQueue := ∅; mCancelQueue := ∅; mHTTPTextureQueue := ∅;
     mTotalHTTPRequests := 0; mDebugPause := false; mTextureBandwidth := 0;
     blacklist := []; calls := [] |}.

Definition quiet_env (t : Z) : env :=
  {| now := t; isQuitting := false; asset_blacklisted := λ _, false; use_http := true;
     max_http_requests := 8; min_http_requests := 2; throttle_bandwidth := 2000;
     textures_decode_disabled := false; agent_region_url := None;
     world_region_url := λ _, None; asString := λ id, pretty id;
     new_read_handle := 1; new_write_handle := 2; new_decode_handle := 3;
     readComplete_result := λ _, true; writeComplete_result := λ _, true;
     image_from_url := λ _, None |}.

(** [n] bytes of compressed data, all equal to [b]. *)
Definition bytes (n : nat) (b : Byte.byte) : list Byte.byte := replicate n b.

Definition j2c (data : list Byte.byte) (discard : Z) : LLImageFormatted :=
  {| image_data := data; mDiscardLevel := discard; mCodec := 2 |}.

(** A request is identified by the capability type it was queued for and
    a serial number. *)
Definition tagged (class : Z) (serials : list nat) : list (Z * nat) :=
  (λ n, (class, n)) <$> serials.

(** A service with three, three, two and two requests queued. *)
Definition service_3322 : @AIPerService.PerService (Z * nat) :=
  {| AIPerService.mCapabilityType :=
       [AIPerService.set_mQueuedRequests (tagged 0 [1; 2; 3]%nat)
          (AIPerService.CapabilityType_new 8);
        AIPerService.set_mQueuedRequests (tagged 1 [1; 2; 3]%nat)
          (AIPerService.CapabilityType_new 8);
        AIPerService.set_mQueuedRequests (tagged 2 [1; 2]%nat)
          (AIPerService.CapabilityType_new 8);
        AIPerService.set_mQueuedRequests (tagged 3 [1; 2]%nat)
          (AIPerService.CapabilityType_new 8)];
     AIPerService.mConcurrectConnections := 8; AIPerService.mTotalAdded := 0;
     AIPerService.mApprovedFirst := 0; AIPerService.mUnapprovedFirst := 0 |}.

Definition ten_queued : AIPerService.TotalQueued :=
  {| AIPerService.count := 10; AIPerService.empty := false; AIPerService.full := false;
     AIPerService.starvation := false |}.

Definition registry_3322 : @AIPerService.Registry (Z * nat) (list (Z * nat)) :=
  {| AIPerService.sInstanceMap := [("sim.example:12046", service_3322)];
     AIPerService.shared :=
       {| AIPerService.sTotalQueued := ten_queued; AIPerService.multi_handle := [] |} |}.

(** A service with the requests 1, 2, 3, 4 queued for capability type 0. *)
Definition service_1234 : @AIPerService.PerService nat :=
  AIPerService.set_capability 0
    (AIPerService.set_mQueuedRequests [1; 2; 3; 4]%nat (AIPerService.CapabilityType_new 8))
    (AIPerService.PerService_new 8).

(** A worker that has received the header of a three-packet image. *)
Definition assembling_worker : worker :=
  set_mLastPacket 0
    (set_mTotalPackets 3
       (set_mPackets [Some {| mData := bytes 600 Byte.x01; mSize := 600 |}]
          (set_mState LOAD_FROM_SIMULATOR (new_worker "" 1)))).

(** An entry of the blacklist for the key http://sim.example/cap with 21
    errors that expires at time [expires]. *)
Definition listed_entry (expires : Z) : SGHostBlackList.BlackListEntry :=
  {| SGHostBlackList.host := "http://sim.example/cap";
     SGHostBlackList.timeUntil := expires;
     SGHostBlackList.reason := 499;
     SGHostBlackList.errorCount := 21 |}.

(** A worker in WAIT_HTTP_REQ that holds [held] bytes and whose request at
    [offset] has been answered with a body of [body] bytes. *)
Definition answered_worker (held : nat) (offset : Z) (body : nat) : worker :=
  set_mLoaded true
    (set_mHttpBuffer (bytes body Byte.x02)
       (set_mRequestedSize (Z.of_nat body)
          (set_mRequestedOffset offset
             (set_mRequestedDiscard 2
                (set_mDesiredDiscard 2
                   (set_mFormattedImage (Some (j2c (bytes held Byte.x01) 2))
                      (set_mState WAIT_HTTP_REQ
                         (new_worker "http://sim.example/cap/?texture_id=1" 1)))))))).

(** A worker in WAIT_HTTP_REQ whose request has failed with [status]. *)
Definition refused_worker (status : Z) : worker :=
  set_mLoaded true
    (set_mGetStatus status
       (set_mRequestedSize (-1)
          (set_mDesiredDiscard 2
             (set_mState WAIT_HTTP_REQ
                (new_worker "http://sim.example/cap/?texture_id=1" 1))))).

(** The same for a worker that was created without a URL and got one from
    its region, so that the simulator can still be used. *)
Definition refused_worker_with_udp (status : Z) : worker :=
  set_mUrl "http://sim.example/cap/?texture_id=1"
    (set_mLoaded true
       (set_mGetStatus status
          (set_mRequestedSize (-1)
             (set_mDesiredDiscard 2
                (set_mState WAIT_HTTP_REQ (new_worker "" 1)))))).

(** A worker that has finished: decoded at [decoded], asked for [desired]. *)
Definition done_worker (desired decoded : Z) : worker :=
  set_mState DONE
    (set_mDecodedDiscard decoded
       (set_mDesiredDiscard desired (new_worker "" 1))).

(** A worker in SEND_HTTP_REQ that holds [held] bytes and wants [desired]. *)
Definition sending_worker (held : nat) (desired : Z) : worker :=
  set_mDesiredSize desired
    (set_mDesiredDiscard 2
       (set_mFormattedImage
          (if bool_decide (held = 0%nat) then None else Some (j2c (bytes held Byte.x01) 2))
          (set_mState SEND_HTTP_REQ
             (new_worker "http://sim.example/cap/?texture_id=1" 1)))).

End Fixtures.

(** * Properties

    ** Cancelling a queued request *)

Module DequeFacts.
Import Deque.

Section Facts.
Context {A : Type} `{EqDecision A}.
Implicit Types (q front back : list A) (x y : A).

Lemma find_index_first front back x :
  x ∉ front → find_index (front ++ x :: back) x = length front.
Proof.
  intros Hfresh. induction front as [| y front IH]; simpl.
  - rewrite decide_True by reflexivity. reflexivity.
  - apply not_elem_of_cons in Hfresh as [Hne Hfresh].
    rewrite decide_False by (intros ->; contradiction).
    rewrite IH by exact Hfresh. reflexivity.
Qed.

Lemma find_index_absent q x : x ∉ q → find_index q x = length q.
Proof.
  intros Hfresh. induction q as [| y q IH]; simpl; [reflexivity |].
  apply not_elem_of_cons in Hfresh as [Hne Hfresh].
  rewrite decide_False by (intros ->; contradiction).
  rewrite IH by exact Hfresh. reflexivity.
Qed.

Lemma swap_at_adjacent front back x y :
  swap_at (front ++ x :: y :: back) (length front) (S (length front)) = front ++ y :: x :: back.
Proof.
  unfold swap_at.
  rewrite list_lookup_middle by reflexivity.
  replace (front ++ x :: y :: back) with ((front ++ [x]) ++ y :: back) at 1
    by (rewrite <- app_assoc; reflexivity).
  rewrite list_lookup_middle by (rewrite length_app; simpl; lia).
  rewrite insert_app_r_alt by lia. rewrite Nat.sub_diag. simpl.
  rewrite insert_app_r_alt by lia.
  replace (S (length front) - length front)%nat with 1%nat by lia. reflexivity.
Qed.

Lemma swap_to_back_moves (fuel : nat) front back x :
  (length back < fuel)%nat →
  swap_to_back fuel (front ++ x :: back) (length front) (length front) = front ++ back ++ [x].
Proof.
  revert fuel front. induction back as [| y back IH]; intros fuel front Hfuel.
  - destruct fuel as [| fuel]; [simpl in Hfuel; lia |]. simpl.
    rewrite bool_decide_eq_true_2 by (rewrite length_app; simpl; lia). reflexivity.
  - destruct fuel as [| fuel]; [simpl in Hfuel; lia |]. simpl.
    rewrite bool_decide_eq_false_2 by (rewrite length_app; simpl; lia).
    rewrite swap_at_adjacent.
    replace (front ++ y :: x :: back) with ((front ++ [y]) ++ x :: back)
      by (rewrite <- app_assoc; reflexivity).
    replace (S (length front)) with (length (front ++ [y])) by (rewrite length_app; simpl; lia).
    rewrite IH by (simpl in Hfuel; lia).
    rewrite <- app_assoc. reflexivity.
Qed.

Lemma pop_back_snoc q x : pop_back (q ++ [x]) = q.
Proof.
  unfold pop_back. rewrite length_app. simpl.
  replace (length q + 1 - 1)%nat with (length q) by lia.
  apply take_app_length.
Qed.

(** The swap loop followed by [pop_back] removes the first occurrence and
    nothing else. *)
Lemma cancel_deque_first front back x :
  x ∉ front → cancel_deque (front ++ x :: back) x = Some (front ++ back).
Proof.
  intros Hfresh. unfold cancel_deque.
  rewrite find_index_first by exact Hfresh.
  rewrite bool_decide_eq_false_2 by (rewrite length_app; simpl; lia).
  rewrite swap_to_back_moves by (rewrite length_app; simpl; lia).
  rewrite app_assoc, pop_back_snoc. reflexivity.
Qed.

Lemma cancel_deque_absent q x : x ∉ q → cancel_deque q x = None.
Proof.
  intros Hfresh. unfold cancel_deque.
  rewrite find_index_absent by exact Hfresh.
  rewrite bool_decide_eq_true_2 by reflexivity. reflexivity.
Qed.

Lemma cancel_deque_present q x :
  x ∈ q →
  ∃ front back, q = front ++ x :: back ∧ (x ∉ front) ∧ cancel_deque q x = Some (front ++ back).
Proof.
  intros Hin. apply list_elem_of_split_l in Hin as (front & back & -> & Hfresh).
  exists front, back. split; [reflexivity |]. split; [exact Hfresh |].
  apply cancel_deque_first. exact Hfresh.
Qed.

End Facts.
End DequeFacts.

(** ** The canonical service name *)

Module ServiceNameFacts.
Import Chars AIPerService.

Implicit Types (url seg : list ascii) (s : scan) (c : ascii).

Lemma char_at_app_r (before after : list ascii) (i : nat) :
  char_at (before ++ after) (length before + i) = char_at after i.
Proof.
  unfold char_at. rewrite lookup_app_r by lia.
  replace (length before + i - length before)%nat with i by lia. reflexivity.
Qed.

Lemma char_at_app_l (seg after : list ascii) (i : nat) :
  (i < length seg)%nat → char_at (seg ++ after) i = char_at seg i.
Proof. intros Hi. unfold char_at. rewrite lookup_app_l by exact Hi. reflexivity. Qed.

Lemma char_at_Forall (P : ascii → Prop) seg (i : nat) :
  Forall P seg → (i < length seg)%nat → P (char_at seg i).
Proof.
  intros Hall Hi. unfold char_at.
  destruct (seg !! i) as [c |] eqn:Hc.
  - simpl. eapply Forall_lookup_1; eauto.
  - apply lookup_ge_None in Hc. lia.
Qed.

Lemma take_drop_char url (q n : nat) :
  (q < length url)%nat →
  take (S n) (drop q url) = char_at url q :: take n (drop (S q) url).
Proof.
  intros Hq. unfold char_at.
  destruct (url !! q) as [c |] eqn:Hc; [| apply lookup_ge_None in Hc; lia].
  rewrite (drop_S _ _ _ Hc). reflexivity.
Qed.

Lemma scan_at_self s : scan_at s (p s) (servicename s) = s.
Proof. destruct s. reflexivity. Qed.

(** *** Single iterations *)

Lemma scan_loop_iteration (fuel : nat) url s s' :
  (p s < length url)%nat →
  scan_char url s = Some s' →
  scan_loop (S fuel) url s = scan_loop fuel url (scan_append (char_at url (p s)) s').
Proof.
  intros Hp Hchar. simpl.
  rewrite bool_decide_eq_true_2 by exact Hp. rewrite Hchar. reflexivity.
Qed.

Lemma scan_loop_break (fuel : nat) url s :
  scan_char url s = None → scan_loop fuel url s = s.
Proof.
  intros Hchar. destruct fuel; simpl; [reflexivity |].
  destruct (bool_decide (p s < length url)%nat); [| reflexivity].
  rewrite Hchar. reflexivity.
Qed.

Lemma scan_loop_end (fuel : nat) url s :
  (length url ≤ p s)%nat → scan_loop fuel url s = s.
Proof.
  intros Hp. destruct fuel; simpl; [reflexivity |].
  rewrite bool_decide_eq_false_2 by lia. reflexivity.
Qed.

Lemma scan_char_plain url s :
  plain (char_at url (p s)) → scan_char url s = Some s.
Proof.
  intros (Hcolon & Hslash & Hat). unfold scan_char, is_char.
  rewrite !bool_decide_eq_false_2 by assumption. reflexivity.
Qed.

(** A colon inside the userinfo: not followed by a digit, and the scheme
    has been seen. *)
Lemma scan_char_inert_colon url s :
  char_at url (p s) = ":"%char →
  isDigit (char_at url (S (p s))) = false →
  sheme_slash s ≠ None →
  scan_char url s = Some s.
Proof.
  intros Hcolon Hnext Hslash. unfold scan_char, is_char.
  rewrite Hcolon, bool_decide_eq_true_2 by reflexivity.
  rewrite Hnext, andb_false_r.
  unfold is_null at 2. rewrite (bool_decide_eq_false_2 _ Hslash).
  rewrite andb_false_r. reflexivity.
Qed.

(** *** Runs of characters that leave the pointers alone *)

Lemma scan_loop_inert (n : nat) : ∀ (fuel : nat) url s,
  (∀ i name, (i < n)%nat →
     scan_char url (scan_at s (p s + i) name) = Some (scan_at s (p s + i) name)) →
  (hostname s ≤ p s)%nat →
  (p s + n ≤ length url)%nat →
  (n ≤ fuel)%nat →
  scan_loop fuel url s =
    scan_loop (fuel - n) url
      (scan_at s (p s + n) (servicename s ++ (lowercase <$> take n (drop (p s) url)))).
Proof.
  induction n as [| n IH]; intros fuel url s Hinert Hhost Hlen Hfuel.
  - rewrite Nat.sub_0_r, Nat.add_0_r. simpl. rewrite app_nil_r, scan_at_self. reflexivity.
  - destruct fuel as [| fuel]; [lia |].
    assert (Hhere : scan_char url s = Some s).
    { specialize (Hinert 0%nat (servicename s)).
      rewrite Nat.add_0_r, scan_at_self in Hinert. apply Hinert. lia. }
    rewrite (scan_loop_iteration fuel url s s) by (auto; lia).
    rewrite (IH fuel url (scan_append (char_at url (p s)) s)).
    + simpl. rewrite bool_decide_eq_true_2 by exact Hhost.
      rewrite (take_drop_char url (p s) n) by lia.
      rewrite fmap_cons. rewrite <- app_assoc. simpl.
      unfold scan_at. simpl. do 2 f_equal. lia.
    + intros i name Hi. simpl.
      specialize (Hinert (S i) name).
      replace (p s + S i)%nat with (S (p s + i)) in Hinert by lia.
      unfold scan_at in *. simpl in *. apply Hinert. lia.
    + simpl. lia.
    + simpl. lia.
    + lia.
Qed.

Lemma is_digit_not_special c : isDigit c = true → plain c.
Proof.
  unfold isDigit, plain, code. intros Hdigit.
  apply andb_true_iff in Hdigit as [Hlow Hhigh].
  apply Z.leb_le in Hlow, Hhigh.
  repeat split; intros ->; vm_compute in Hlow, Hhigh; congruence.
Qed.

Lemma lowercase_digit c : isDigit c = true → lowercase c = c.
Proof.
  unfold isDigit, lowercase, code. intros Hdigit.
  apply andb_true_iff in Hdigit as [Hlow Hhigh].
  apply Z.leb_le in Hlow, Hhigh.
  destruct ((Z.of_N (N_of_ascii "A") <=? Z.of_N (N_of_ascii c))
            && (Z.of_N (N_of_ascii c) <=? Z.of_N (N_of_ascii "Z"))) eqn:Hupper;
    [| reflexivity].
  apply andb_true_iff in Hupper as [HA _]. apply Z.leb_le in HA.
  change (Z.of_N (N_of_ascii "A")) with 65 in HA.
  change (Z.of_N (N_of_ascii "9")) with 57 in Hhigh. lia.
Qed.

Lemma lowercase_digits seg : Forall (λ c, isDigit c = true) seg → lowercase <$> seg = seg.
Proof.
  induction 1 as [| c seg Hc _ IH]; [reflexivity |].
  rewrite fmap_cons, IH, lowercase_digit by exact Hc. reflexivity.
Qed.

Lemma scan_loop_plain_run (fuel : nat) (before seg after : list ascii) s :
  Forall plain seg →
  p s = length before →
  (hostname s ≤ p s)%nat →
  (length seg ≤ fuel)%nat →
  scan_loop fuel (before ++ seg ++ after) s =
    scan_loop (fuel - length seg) (before ++ seg ++ after)
      (scan_at s (length before + length seg) (servicename s ++ (lowercase <$> seg))).
Proof.
  intros Hplain Hp Hhost Hfuel.
  rewrite (scan_loop_inert (length seg)); [| | exact Hhost | | exact Hfuel].
  - rewrite Hp, drop_app_length, take_app_length. reflexivity.
  - intros i name Hi. apply scan_char_plain. simpl.
    rewrite Hp, char_at_app_r, char_at_app_l by exact Hi.
    apply char_at_Forall; assumption.
  - rewrite Hp, !length_app. lia.
Qed.

Lemma scan_loop_userinfo_run (fuel : nat) (before seg after : list ascii) s :
  userinfo_chars seg →
  p s = length before →
  (hostname s ≤ p s)%nat →
  sheme_slash s ≠ None →
  (length seg ≤ fuel)%nat →
  scan_loop fuel (before ++ seg ++ "@"%char :: after) s =
    scan_loop (fuel - length seg) (before ++ seg ++ "@"%char :: after)
      (scan_at s (length before + length seg) (servicename s ++ (lowercase <$> seg))).
Proof.
  intros [Hchars Hcolons] Hp Hhost Hslash Hfuel.
  rewrite (scan_loop_inert (length seg)); [| | exact Hhost | | exact Hfuel].
  - rewrite Hp, drop_app_length, take_app_length. reflexivity.
  - intros i name Hi.
    assert (Hhere : char_at (before ++ seg ++ "@"%char :: after) (length before + i) =
                    char_at seg i)
      by (rewrite char_at_app_r, char_at_app_l by exact Hi; reflexivity).
    destruct (decide (char_at seg i = ":"%char)) as [Hcolon | Hother].
    + apply scan_char_inert_colon; simpl; rewrite ?Hp; [congruence | | exact Hslash].
      replace (S (length before + i)) with (length before + S i)%nat by lia.
      rewrite char_at_app_r.
      destruct (decide (S i < length seg)%nat) as [Hin | Hlast].
      * rewrite char_at_app_l by exact Hin. apply Hcolons.
        unfold char_at in Hcolon. destruct (seg !! i) eqn:Hc; simpl in Hcolon; [congruence |].
        apply lookup_ge_None in Hc. lia.
      * assert (S i = length seg) as -> by lia.
        replace (length seg) with (length seg + 0)%nat by lia.
        rewrite char_at_app_r. reflexivity.
    + apply scan_char_plain. simpl. rewrite Hp, Hhere.
      pose proof (char_at_Forall _ seg i Hchars Hi) as [Hslash' Hat].
      repeat split; assumption.
  - rewrite Hp, !length_app. simpl. lia.
Qed.

(** *** The authority: host, port colon, port, end of the authority *)

Lemma scan_loop_host_port (fuel : nat) (before host port path : list ascii) s :
  Forall plain host →
  port ≠ [] →
  Forall (λ c, isDigit c = true) port →
  path = [] ∨ (∃ path', path = "/"%char :: path') →
  p s = length before →
  hostname s = p s →
  servicename s = [] →
  port_colon s = None →
  sheme_slash s ≠ None →
  (length host + 1 + length port + length path ≤ fuel)%nat →
  scan_loop fuel (before ++ host ++ ":"%char :: port ++ path) s =
    {| p := length before + length host + 1 + length port;
       sheme_colon := sheme_colon s; sheme_slash := sheme_slash s;
       first_ampersand := first_ampersand s;
       port_colon := Some (length before + length host)%nat;
       servicename := (lowercase <$> host) ++ ":"%char :: port;
       hostname := hostname s |}.
Proof.
  intros Hhost Hport Hdigits Hpath Hp Hname Hempty Hnoport Hslash Hfuel.
  set (url := before ++ host ++ ":"%char :: port ++ path).
  (* the host *)
  unfold url at 1.
  rewrite (scan_loop_plain_run fuel before host (":"%char :: port ++ path) s)
    by (auto; lia).
  fold url. rewrite Hempty. simpl app.
  (* the colon in front of the port *)
  destruct port as [| d port]; [contradiction |].
  apply Forall_cons in Hdigits as [Hd Hdigits].
  assert (Hcolon_at : char_at url (length before + length host) = ":"%char).
  { unfold url. rewrite app_assoc.
    replace (length before + length host)%nat with (length (before ++ host) + 0)%nat
      by (rewrite length_app; lia).
    rewrite char_at_app_r. reflexivity. }
  assert (Hdigit_at : char_at url (S (length before + length host)) = d).
  { unfold url. rewrite app_assoc.
    replace (S (length before + length host)) with (length (before ++ host) + 1)%nat
      by (rewrite length_app; lia).
    rewrite char_at_app_r. reflexivity. }
  assert (Hlen : length url = (length before + length host + 1 + S (length port)
                               + length path)%nat).
  { unfold url. rewrite !length_app. simpl. rewrite length_app. lia. }
  simpl length in Hfuel.
  destruct (fuel - length host)%nat as [| fuel1] eqn:Hfuel1; [lia |].
  erewrite scan_loop_iteration; cycle 1.
  { simpl. lia. }
  { unfold scan_char. simpl. rewrite Hcolon_at. unfold is_char.
    rewrite bool_decide_eq_true_2 by reflexivity.
    rewrite Hnoport, Hdigit_at, Hd. simpl. reflexivity. }
  simpl p. rewrite Hcolon_at.
  (* the port *)
  set (s1 := scan_append ":"%char _).
  replace url with ((before ++ host ++ [":"%char]) ++ (d :: port) ++ path)
    by (unfold url; rewrite <- !app_assoc; reflexivity).
  rewrite (scan_loop_plain_run fuel1 (before ++ host ++ [":"%char]) (d :: port) path s1).
  2:{ apply Forall_cons. split; [apply is_digit_not_special; exact Hd |].
      eapply Forall_impl; [exact Hdigits | apply is_digit_not_special]. }
  2:{ unfold s1. simpl. rewrite !length_app. simpl. lia. }
  2:{ unfold s1. simpl. lia. }
  2:{ simpl. lia. }
  replace ((before ++ host ++ [":"%char]) ++ (d :: port) ++ path) with url
    by (unfold url; rewrite <- !app_assoc; reflexivity).
  rewrite (lowercase_digits (d :: port)) by (apply Forall_cons; auto).
  unfold s1. simpl servicename.
  rewrite bool_decide_eq_true_2 by (simpl; lia).
  (* the end of the authority *)
  set (s2 := scan_at _ _ _).
  assert (Hp2 : p s2 = (length before + length host + 1 + S (length port))%nat).
  { unfold s2. simpl. rewrite !length_app. simpl. lia. }
  assert (Hdone : scan_loop (fuel1 - length (d :: port)) url s2 = s2).
  { destruct Hpath as [-> | [path' ->]].
    - apply scan_loop_end. rewrite Hlen, Hp2. simpl. lia.
    - apply scan_loop_break. unfold scan_char.
      assert (Hslash_at : char_at url (p s2) = "/"%char).
      { rewrite Hp2. unfold url.
        replace (before ++ host ++ ":"%char :: (d :: port) ++ "/"%char :: path')
          with ((before ++ host ++ ":"%char :: d :: port) ++ "/"%char :: path')
          by (rewrite <- !app_assoc; reflexivity).
        replace (length before + length host + 1 + S (length port))%nat
          with (length (before ++ host ++ ":"%char :: d :: port) + 0)%nat
          by (rewrite !length_app; simpl; lia).
        rewrite char_at_app_r. reflexivity. }
      rewrite Hslash_at. unfold is_char. simpl.
      unfold is_null at 1. rewrite (bool_decide_eq_false_2 _ Hslash). reflexivity. }
  rewrite Hdone. unfold s2, scan_at. simpl.
  f_equal.
  - rewrite !length_app. simpl. lia.
  - rewrite <- app_assoc. reflexivity.
Qed.

(** *** The scheme and the userinfo *)

Lemma scan_loop_scheme (fuel : nat) (scheme rest : list ascii) :
  Forall plain scheme →
  (length scheme + 2 ≤ fuel)%nat →
  scan_loop fuel (scheme ++ ":"%char :: "/"%char :: "/"%char :: rest) scan_init =
    scan_loop (fuel - (length scheme + 2)) (scheme ++ ":"%char :: "/"%char :: "/"%char :: rest)
      {| p := length scheme + 3; sheme_colon := Some (length scheme);
         sheme_slash := Some (length scheme + 1)%nat; first_ampersand := None;
         port_colon := None; servicename := []; hostname := length scheme + 3 |}.
Proof.
  intros Hplain Hfuel.
  set (url := scheme ++ ":"%char :: "/"%char :: "/"%char :: rest).
  assert (Hlen : length url = (length scheme + 3 + length rest)%nat)
    by (unfold url; rewrite length_app; simpl; lia).
  assert (Hchar : ∀ i, char_at url (length scheme + i) =
                       char_at (":"%char :: "/"%char :: "/"%char :: rest) i)
    by (intros i; unfold url; apply char_at_app_r).
  assert (Hc0 : char_at url (length scheme) = ":"%char)
    by (rewrite <- (Nat.add_0_r (length scheme)), Hchar; reflexivity).
  assert (Hc1 : char_at url (S (length scheme)) = "/"%char)
    by (rewrite <- (Nat.add_1_r (length scheme)), Hchar; reflexivity).
  assert (Hc2 : char_at url (S (S (length scheme))) = "/"%char)
    by (replace (S (S (length scheme))) with (length scheme + 2)%nat by lia;
        rewrite Hchar; reflexivity).
  pose proof (scan_loop_plain_run fuel [] scheme (":"%char :: "/"%char :: "/"%char :: rest)
                scan_init Hplain eq_refl) as Hrun.
  simpl in Hrun. fold url in Hrun. rewrite Hrun by lia. clear Hrun.
  destruct (fuel - length scheme)%nat as [| fuel1] eqn:Hfuel1; [lia |].
  (* the colon that ends the scheme *)
  erewrite scan_loop_iteration; cycle 1.
  { simpl. lia. }
  { unfold scan_char. simpl p. rewrite Hc0, Hc1. reflexivity. }
  simpl p. rewrite Hc0.
  destruct fuel1 as [| fuel2]; [lia |].
  (* the two slashes *)
  erewrite scan_loop_iteration; cycle 1.
  { simpl. lia. }
  { unfold scan_char. simpl p. rewrite Hc1, Hc2. unfold is_char, is_null. simpl.
    rewrite bool_decide_eq_true_2 by (split; [discriminate | split; [reflexivity | lia]]).
    reflexivity. }
  replace (fuel - (length scheme + 2))%nat with fuel2 by lia.
  f_equal. unfold scan_append. simpl.
  rewrite bool_decide_eq_false_2 by lia.
  f_equal; try reflexivity; try lia; f_equal; lia.
Qed.

Lemma scan_loop_userinfo (fuel : nat) (before userinfo after : list ascii) s :
  userinfo_chars userinfo →
  p s = length before →
  (hostname s ≤ p s)%nat →
  sheme_slash s ≠ None →
  first_ampersand s = None →
  (length userinfo + 1 ≤ fuel)%nat →
  scan_loop fuel (before ++ userinfo ++ "@"%char :: after) s =
    scan_loop (fuel - (length userinfo + 1)) (before ++ userinfo ++ "@"%char :: after)
      {| p := length before + length userinfo + 1;
         sheme_colon := sheme_colon s; sheme_slash := sheme_slash s;
         first_ampersand := Some (length before + length userinfo)%nat;
         port_colon := port_colon s; servicename := [];
         hostname := length before + length userinfo + 1 |}.
Proof.
  intros Hchars Hp Hhost Hslash Hfirst Hfuel.
  rewrite scan_loop_userinfo_run by (auto; lia).
  set (url := before ++ userinfo ++ "@"%char :: after).
  assert (Hat : char_at url (length before + length userinfo) = "@"%char).
  { unfold url. rewrite app_assoc.
    replace (length before + length userinfo)%nat
      with (length (before ++ userinfo) + 0)%nat by (rewrite length_app; lia).
    rewrite char_at_app_r. reflexivity. }
  destruct (fuel - length userinfo)%nat as [| fuel1] eqn:Hfuel1; [lia |].
  erewrite scan_loop_iteration; cycle 1.
  { simpl. unfold url. rewrite !length_app. simpl. lia. }
  { unfold scan_char. simpl p. rewrite Hat. unfold is_char.
    rewrite !bool_decide_eq_false_2 by discriminate.
    rewrite bool_decide_eq_true_2 by reflexivity.
    simpl. rewrite Hfirst. simpl. reflexivity. }
  replace (fuel - (length userinfo + 1))%nat with fuel1 by lia.
  f_equal. unfold scan_append. simpl.
  rewrite bool_decide_eq_false_2 by lia.
  f_equal; try reflexivity; try lia; f_equal; lia.
Qed.

(** *** Stripping the port *)

Lemma strip_port80_result (url before host port path : list ascii) s :
  url = before ++ host ++ ":"%char :: port ++ path →
  p s = (length before + length host + 1 + length port)%nat →
  port_colon s = Some (length before + length host)%nat →
  hostname s = length before →
  servicename s = (lowercase <$> host) ++ ":"%char :: port →
  strip_port80 url s =
    (lowercase <$> host)
      ++ (if bool_decide (port = ["8"%char; "0"%char]) then [] else ":"%char :: port).
Proof.
  intros -> Hp Hcolon Hname Hservice. unfold strip_port80.
  rewrite Hp, Hcolon, Hname, Hservice.
  assert (Hport_at : ∀ i, (i < length port)%nat →
            char_at (before ++ host ++ ":"%char :: port ++ path)
                    (length before + length host + 1 + i) = char_at port i).
  { intros i Hi.
    replace (before ++ host ++ ":"%char :: port ++ path)
      with ((before ++ host ++ [":"%char]) ++ port ++ path)
      by (rewrite <- !app_assoc; reflexivity).
    replace (length before + length host + 1 + i)%nat
      with (length (before ++ host ++ [":"%char]) + i)%nat
      by (rewrite !length_app; simpl; lia).
    rewrite char_at_app_r, char_at_app_l by exact Hi. reflexivity. }
  destruct (decide (length port = 2%nat)) as [Htwo | Hlong].
  - destruct port as [| d1 [| d2 [|]]]; try discriminate. simpl length.
    rewrite bool_decide_eq_true_2 by (split; [f_equal; lia | lia]).
    replace (length before + length host + 1 + 2 - 1)%nat
      with (length before + length host + 1 + 1)%nat by lia.
    replace (length before + length host + 1 + 2 - 2)%nat
      with (length before + length host + 1 + 0)%nat by lia.
    rewrite !Hport_at by (simpl; lia). simpl char_at. unfold is_char.
    destruct (decide (d2 = "0"%char)) as [-> | Hd2];
      [destruct (decide (d1 = "8"%char)) as [-> | Hd1] |].
    + rewrite !bool_decide_eq_true_2 by reflexivity. simpl.
      unfold substr0.
      replace (Z.of_nat (length before + length host + 1 + 2) - Z.of_nat (length before) - 3)
        with (Z.of_nat (length (lowercase <$> host))) by (rewrite length_fmap; lia).
      replace (Z.of_nat (length (lowercase <$> host)) <? 0) with false
        by (symmetry; apply Z.ltb_ge; lia).
      rewrite Nat2Z.id, take_app_length, app_nil_r. reflexivity.
    + rewrite (bool_decide_eq_false_2 (d1 = "8"%char)) by exact Hd1.
      rewrite andb_false_r.
      rewrite bool_decide_eq_false_2 by congruence. reflexivity.
    + rewrite (bool_decide_eq_false_2 (d2 = "0"%char)) by exact Hd2.
      rewrite andb_false_r. simpl.
      rewrite bool_decide_eq_false_2 by congruence. reflexivity.
  - rewrite bool_decide_eq_false_2 by (intros [Heq Hge]; injection Heq as Heq; lia).
    simpl. rewrite bool_decide_eq_false_2; [reflexivity |].
    intros ->. apply Hlong. reflexivity.
Qed.

(** The canonical service name of scheme://[userinfo@]host:port[path]. *)
Lemma canonical_servicename_of_url (scheme : list ascii) (userinfo : option (list ascii))
    (host port path : list ascii) :
  Forall plain scheme →
  (∀ u, userinfo = Some u → userinfo_chars u) →
  Forall plain host →
  port ≠ [] →
  Forall (λ c, isDigit c = true) port →
  path = [] ∨ (∃ path', path = "/"%char :: path') →
  extract_canonical_servicename_chars (url_of_parts scheme userinfo host port path) =
    (lowercase <$> host)
      ++ (if bool_decide (port = ["8"%char; "0"%char]) then [] else ":"%char :: port).
Proof.
  intros Hscheme Huser Hhost Hport Hdigits Hpath. unfold url_of_parts.
  unfold extract_canonical_servicename_chars.
  rewrite scan_loop_scheme by (auto; rewrite length_app; simpl; lia).
  set (authority := host ++ ":"%char :: port ++ path).
  set (url := scheme ++ _).
  assert (Hlen : length url =
                 (length scheme + 3 + length (from_option (λ u, u ++ ["@"%char]) [] userinfo)
                  + length authority)%nat).
  { unfold url. rewrite length_app. simpl. rewrite length_app. lia. }
  assert (Hauthority : length authority = (length host + 1 + length port + length path)%nat).
  { unfold authority. rewrite length_app. simpl. rewrite length_app. lia. }
  destruct userinfo as [u |]; simpl from_option in *.
  - set (before := scheme ++ [":"%char; "/"%char; "/"%char]).
    assert (Hurl : url = before ++ u ++ "@"%char :: authority)
      by (unfold url, before; rewrite <- !app_assoc; reflexivity).
    assert (Hbefore : length before = (length scheme + 3)%nat)
      by (unfold before; rewrite length_app; reflexivity).
    rewrite Hurl at 3.
    rewrite scan_loop_userinfo; simpl; auto; try lia; try discriminate.
    2:{ rewrite Hlen, length_app. simpl. lia. }
    set (before' := before ++ u ++ ["@"%char]).
    assert (Hurl' : before ++ u ++ "@"%char :: authority =
                    before' ++ host ++ ":"%char :: port ++ path)
      by (unfold before', authority; rewrite <- !app_assoc; reflexivity).
    assert (Hbefore' : length before' = (length before + length u + 1)%nat)
      by (unfold before'; rewrite !length_app; simpl; lia).
    rewrite Hurl'.
    rewrite scan_loop_host_port; simpl; auto; try lia; try discriminate.
    2:{ rewrite Hlen, length_app. simpl. lia. }
    rewrite Hurl, Hurl'.
    apply (strip_port80_result _ before' host port path); simpl; auto; lia.
  - set (before := scheme ++ [":"%char; "/"%char; "/"%char]).
    assert (Hurl : url = before ++ host ++ ":"%char :: port ++ path)
      by (unfold url, before, authority; rewrite <- !app_assoc; reflexivity).
    assert (Hbefore : length before = (length scheme + 3)%nat)
      by (unfold before; rewrite length_app; reflexivity).
    rewrite Hurl at 3.
    rewrite scan_loop_host_port; simpl; auto; try lia; try discriminate.
    rewrite Hurl.
    apply (strip_port80_result _ before host port path); simpl; auto; lia.
Qed.


End ServiceNameFacts.

(** ** The request queues of a service *)

Module AIPerServiceFacts.
Import Deque AIPerService.

Section Facts.
Context {Request : Type} `{EqDecision Request} `{CapabilityFlags}.
Abbreviation PerService := (@PerService Request).
Abbreviation CapabilityType := (@CapabilityType Request).

Lemma capability_set_same (svc : PerService) (c : Z) (ct : CapabilityType) :
  (Z.to_nat c < length (mCapabilityType svc))%nat →
  capability (set_capability c ct svc) c = ct.
Proof.
  intros Hin. unfold capability, set_capability. simpl.
  rewrite list_lookup_insert_eq by exact Hin. reflexivity.
Qed.

Lemma capability_set_other (svc : PerService) (c c' : Z) (ct : CapabilityType) :
  0 ≤ c → 0 ≤ c' → c' ≠ c →
  capability (set_capability c ct svc) c' = capability svc c'.
Proof.
  intros Hc Hc' Hne. unfold capability, set_capability. simpl.
  rewrite list_lookup_insert_ne by lia. reflexivity.
Qed.

Lemma capability_first (ct : CapabilityType) (cts : list CapabilityType) (limit added : Z)
    (approved unapproved : Z) :
  capability {| mCapabilityType := ct :: cts; mConcurrectConnections := limit;
                mTotalAdded := added; mApprovedFirst := approved;
                mUnapprovedFirst := unapproved |} 0 = ct.
Proof. reflexivity. Qed.

(** A queue that holds a request belongs to a capability type of the
    service. *)
Lemma queued_capability_exists (svc : PerService) (c : Z) (r : Request) :
  r ∈ mQueuedRequests (capability svc c) →
  (Z.to_nat c < length (mCapabilityType svc))%nat.
Proof.
  unfold capability. intros Hin.
  destruct (mCapabilityType svc !! Z.to_nat c) eqn:Hct.
  - apply lookup_lt_Some in Hct. exact Hct.
  - simpl in Hin. apply elem_of_nil in Hin. contradiction.
Qed.

Lemma cancel_removes_first (svc : PerService) (tq : TotalQueued) (r : Request) (c : Z) :
  0 ≤ c →
  r ∈ mQueuedRequests (capability svc c) →
  ∃ front back,
    mQueuedRequests (capability svc c) = front ++ r :: back
    ∧ (r ∉ front)
    ∧ ∃ svc' tq',
        cancel r c svc tq = (true, svc', tq')
        ∧ mQueuedRequests (capability svc' c) = front ++ back
        ∧ (∀ c', 0 ≤ c' → c' ≠ c → capability svc' c' = capability svc c')
        ∧ count tq' = count tq - 1.
Proof.
  intros Hc Hin.
  pose proof (queued_capability_exists svc c r Hin) as Hrange.
  destruct (DequeFacts.cancel_deque_present _ _ Hin) as (front & back & Hq & Hfresh & Hcancel).
  exists front, back. split; [exact Hq |]. split; [exact Hfresh |].
  unfold cancel. rewrite Hcancel.
  eexists _, _. split; [reflexivity |].
  split; [rewrite capability_set_same by exact Hrange; reflexivity |].
  split; [| reflexivity].
  intros c' Hc' Hne. apply capability_set_other; assumption.
Qed.

Section Dispatch.
Context {M : Type} `{MultiHandle M Request}.
Abbreviation Registry := (@Registry Request M).

(** The first capability type in [order] has a request queued and the
    multi handle takes it. *)
Lemma walk_order_head (o : Z) (order : list Z) (i : Z) (svc : PerService) (sh : Shared M)
    (front : Request) (rest : list Request) :
  mQueuedRequests (capability svc o) = front :: rest →
  (add_easy_request (multi_handle sh) front true).1 = true →
  walk_order (o :: order) i svc sh =
    (Return,
     set_capability o
       (or_mFlags (match rest with [] => ctf_empty | _ :: _ => ctf_full end)
          (set_mQueuedRequests rest (capability svc o))) svc,
     {| sTotalQueued :=
          {| count := count (sTotalQueued sh) - 1;
             empty := if count (sTotalQueued sh) - 1 =? 0 then true
                      else empty (sTotalQueued sh);
             full := if count (sTotalQueued sh) - 1 =? 0 then full (sTotalQueued sh)
                     else true;
             starvation := starvation (sTotalQueued sh) |};
        multi_handle := (add_easy_request (multi_handle sh) front true).2 |}).
Proof.
  intros Hq Haccept. simpl. rewrite Hq.
  destruct (add_easy_request (multi_handle sh) front true) as [added multi'] eqn:Hadd.
  simpl in Haccept. subst added. simpl.
  destruct rest; destruct (count (sTotalQueued sh) - 1 =? 0); reflexivity.
Qed.

Lemma add_queued_to_head (this : nat) (recursive : bool) (reg : Registry) (name : string)
    (svc svc1 : PerService) (o : Z) (order : list Z) (front : Request) (rest : list Request) :
  sInstanceMap reg !! this = Some (name, svc) →
  build_order svc = (o :: order, svc1) →
  mQueuedRequests (capability svc1 o) = front :: rest →
  (add_easy_request (multi_handle (shared reg)) front true).1 = true →
  add_queued_to this recursive reg =
    {| sInstanceMap :=
         <[this := (name,
                    set_capability o
                      (or_mFlags (match rest with [] => ctf_empty | _ :: _ => ctf_full end)
                         (set_mQueuedRequests rest (capability svc1 o))) svc1)]>
           (sInstanceMap reg);
       shared :=
         {| sTotalQueued :=
              {| count := count (sTotalQueued (shared reg)) - 1;
                 empty := if count (sTotalQueued (shared reg)) - 1 =? 0 then true
                          else empty (sTotalQueued (shared reg));
                 full := if count (sTotalQueued (shared reg)) - 1 =? 0
                         then full (sTotalQueued (shared reg)) else true;
                 starvation := starvation (sTotalQueued (shared reg)) |};
            multi_handle :=
              (add_easy_request (multi_handle (shared reg)) front true).2 |} |}.
Proof.
  intros Hthis Horder Hq Haccept. unfold add_queued_to. rewrite Hthis.
  unfold add_queued_to_this. rewrite Horder.
  rewrite (walk_order_head o order 0 svc1 (shared reg) front rest Hq Haccept).
  reflexivity.
Qed.

(** One call of [add_queued_to] on a registry that is written out, where
    the head of the order has a request queued. *)
Ltac dispatch_head Haccept :=
  match goal with
  | |- context [add_queued_to ?this ?rec (Build_Registry ?services ?sh)] =>
      erewrite (add_queued_to_head this rec (Build_Registry services sh));
      [ | reflexivity | vm_compute; reflexivity | vm_compute; reflexivity | apply Haccept ];
      cbn -[add_queued_to hand_over]
  end.

Lemma approved_order_cases (svc : PerService) :
  let s0 := length (mQueuedRequests (capability svc 0)) in
  let s1 := length (mQueuedRequests (capability svc 1)) in
  (s0 = s1 →
     approved_order svc =
       ([mApprovedFirst svc; 1 - mApprovedFirst svc], 1 - mApprovedFirst svc))
  ∧ ((s1 < s0)%nat → approved_order svc = ([0; 1], mApprovedFirst svc))
  ∧ ((s0 < s1)%nat → approved_order svc = ([1; 0], mApprovedFirst svc)).
Proof.
  intros s0 s1. unfold approved_order. fold s0 s1.
  split; [| split]; intros Hcmp.
  - rewrite bool_decide_eq_true_2 by exact Hcmp. reflexivity.
  - rewrite bool_decide_eq_false_2 by lia.
    rewrite bool_decide_eq_true_2 by exact Hcmp. reflexivity.
  - rewrite bool_decide_eq_false_2 by lia.
    rewrite bool_decide_eq_false_2 by lia. reflexivity.
Qed.

(** C1.  Of the two approved capability types the one with the longer queue
    is tried first, and when the queues are equally long [mApprovedFirst]
    is tried first and flipped.  So with queues of sizes (3, 3, 2, 2), a
    fresh cursor and a multi handle that takes every request, five calls
    of [add_queued_to] dispatch from the types 0, 1, 1, 0, 0: the cursor
    flips at the first, third and fifth call, where the sizes are tied, and
    the unapproved types are not reached. *)
Theorem approved_queues_3322_dispatch_order
    (svc : PerService) (a1 a2 a3 b1 b2 b3 c1 c2 d1 d2 : Request)
    (name : string) (tq : TotalQueued) (multi : M) :
  (∀ handle request, (add_easy_request handle request true).1 = true) →
  mQueuedRequests <$> mCapabilityType svc = [[a1; a2; a3]; [b1; b2; b3]; [c1; c2]; [d1; d2]] →
  mApprovedFirst svc = 0 →
  let reg := {| sInstanceMap := [(name, svc)];
                shared := {| sTotalQueued := tq; multi_handle := multi |} |} in
  let after n := add_queued_to_times n 0 reg in
  (∀ other : PerService,
     let s0 := length (mQueuedRequests (capability other 0)) in
     let s1 := length (mQueuedRequests (capability other 1)) in
     (s0 = s1 →
        approved_order other =
          ([mApprovedFirst other; 1 - mApprovedFirst other], 1 - mApprovedFirst other))
     ∧ ((s1 < s0)%nat → approved_order other = ([0; 1], mApprovedFirst other))
     ∧ ((s0 < s1)%nat → approved_order other = ([1; 0], mApprovedFirst other)))
  ∧ (λ n, multi_handle (shared (after n))) <$> [1; 2; 3; 4; 5]%nat =
      hand_over multi
        <$> [[a1]; [a1; b1]; [a1; b1; b2]; [a1; b1; b2; a2]; [a1; b1; b2; a2; a3]]
  ∧ (λ n, approved_first_at 0 (after n)) <$> [0; 1; 2; 3; 4; 5]%nat =
      Some <$> [0; 1; 1; 0; 0; 1]
  ∧ (λ n, queues_at 0 (after n)) <$> [0; 1; 2; 3; 4; 5]%nat =
      [ [[a1; a2; a3]; [b1; b2; b3]; [c1; c2]; [d1; d2]];
        [[a2; a3]; [b1; b2; b3]; [c1; c2]; [d1; d2]];
        [[a2; a3]; [b2; b3]; [c1; c2]; [d1; d2]];
        [[a2; a3]; [b3]; [c1; c2]; [d1; d2]];
        [[a3]; [b3]; [c1; c2]; [d1; d2]];
        [[]; [b3]; [c1; c2]; [d1; d2]] ].
Proof.
  intros Haccept Hqueues Hfirst reg after.
  split; [intros other; apply approved_order_cases |].
  destruct svc as [cts limit added first unapproved]. simpl in Hqueues, Hfirst. subst first.
  destruct cts as [| [q0 ?] [| [q1 ?] [| [q2 ?] [| [q3 ?] [|]]]]]; try discriminate.
  simpl in Hqueues. injection Hqueues as -> -> -> ->.
  unfold after, add_queued_to_times, reg. cbn -[add_queued_to hand_over].
  do 5 dispatch_head Haccept.
  repeat split.
Qed.

(** C2.  [cancel] removes the first occurrence of the request from the
    queue of its capability type and keeps the order of the requests that
    remain (in [AIPerService] and in the older [PerHostRequestQueue]); the
    other queues are untouched and the total is decremented.  After queueing
    W1, W2, W3, W4 for type 0 and cancelling W2, three calls of
    [add_queued_to] hand over W1, then W3, then W4. *)
Theorem cancel_keeps_queue_order
    (svc : PerService) (tq : TotalQueued) (r : Request) (c : Z)
    (w1 w2 w3 w4 : Request) (limit : Z) (name : string) (multi : M)
    (host : @PerHostRequestQueue.PerHost Request) :
  (0 ≤ c →
   r ∈ mQueuedRequests (capability svc c) →
   ∃ front back,
     mQueuedRequests (capability svc c) = front ++ r :: back
     ∧ (r ∉ front)
     ∧ ∃ svc' tq',
         cancel r c svc tq = (true, svc', tq')
         ∧ mQueuedRequests (capability svc' c) = front ++ back
         ∧ (∀ c', 0 ≤ c' → c' ≠ c → capability svc' c' = capability svc c')
         ∧ count tq' = count tq - 1)
  ∧ (r ∈ PerHostRequestQueue.mQueuedRequests host →
     ∃ front back,
       PerHostRequestQueue.mQueuedRequests host = front ++ r :: back
       ∧ (r ∉ front)
       ∧ PerHostRequestQueue.cancel r host =
           (true, {| PerHostRequestQueue.mQueuedRequests := front ++ back;
                     PerHostRequestQueue.mAdded := PerHostRequestQueue.mAdded host |}))
  ∧ (let queued :=
       foldl (λ st request, queue request 0 st.1 st.2) (PerService_new limit, tq)
             [w1; w2; w3; w4] in
     let cancelled := cancel w2 0 queued.1 queued.2 in
     cancelled.1.1 = true
     ∧ ((∀ handle request, (add_easy_request handle request true).1 = true) →
        let reg := {| sInstanceMap := [(name, cancelled.1.2)];
                      shared := {| sTotalQueued := cancelled.2; multi_handle := multi |} |} in
        (λ n, multi_handle (shared (add_queued_to_times n 0 reg))) <$> [1; 2; 3]%nat =
          hand_over multi <$> [[w1]; [w1; w3]; [w1; w3; w4]]
        ∧ queues_at 0 (add_queued_to_times 3 0 reg) = [[]; []; []; []])).
Proof.
  split; [| split].
  - apply cancel_removes_first.
  - intros Hin.
    destruct (DequeFacts.cancel_deque_present _ _ Hin) as (front & back & Hq & Hfresh & Hcancel).
    exists front, back. split; [exact Hq |]. split; [exact Hfresh |].
    unfold PerHostRequestQueue.cancel. rewrite Hcancel. reflexivity.
  - remember (foldl (λ st request, queue request 0 st.1 st.2) (PerService_new limit, tq)
                [w1; w2; w3; w4]) as queued eqn:Hqueued.
    vm_compute in Hqueued. subst queued.
    assert (Hcancel : cancel_deque [w1; w2; w3; w4] w2 = Some [w1; w3; w4]).
    { destruct (decide (w1 = w2)) as [-> | Hne].
      - apply (DequeFacts.cancel_deque_first [] [w2; w3; w4] w2). apply not_elem_of_nil.
      - apply (DequeFacts.cancel_deque_first [w1] [w3; w4] w2).
        intros Hin. apply list_elem_of_singleton in Hin. congruence. }
    cbn [fst snd]. unfold cancel. rewrite capability_first. cbn -[add_queued_to hand_over cancel_deque].
    rewrite Hcancel. unfold set_capability. simpl insert. cbn -[add_queued_to hand_over].
    split; [reflexivity |]. intros Haccept.
    unfold add_queued_to_times. cbn -[add_queued_to hand_over].
    do 3 dispatch_head Haccept.
    split; reflexivity.
Qed.

End Dispatch.
End Facts.
End AIPerServiceFacts.

(** ** The host blacklist *)

Module SGHostBlackListFacts.
Import TextureFetch SGHostBlackList.

(** [cleanup] moves entries but erases none. *)
Lemma std_remove_if_length {A : Type} (pred : A → bool) (v : list A) :
  length (std_remove_if pred v) = length v.
Proof.
  unfold std_remove_if. rewrite length_app, length_drop.
  pose proof (List.filter_length_le (λ x, negb (pred x)) v). lia.
Qed.

Lemma cleanup_length (now : Z) (blacklist : blacklist_t) :
  length (cleanup now blacklist) = length blacklist.
Proof. apply std_remove_if_length. Qed.

(** A blacklist of one entry comes out of [cleanup] as it went in, expired
    or not. *)
Lemma cleanup_single (now : Z) (entry : BlackListEntry) : cleanup now [entry] = [entry].
Proof.
  unfold cleanup, std_remove_if. simpl.
  destruct (is_obsolete now entry); reflexivity.
Qed.

Lemma prefix_refl (s : string) : String.prefix s s = true.
Proof.
  induction s as [| c s IH]; [reflexivity |].
  simpl. destruct (ascii_dec c c) as [_ | Hne]; [exact IH | contradiction Hne; reflexivity].
Qed.

(** C6.  A lookup sweeps nothing: the blacklist keeps its length, and an
    entry that is alone in the list stays in it and keeps its key
    blacklisted whenever its error count is above [MAX_ERRORCOUNT], at
    every time [now], also after [timeUntil].  So the key of an entry with
    21 errors that expired at time 10 is still blacklisted at time 100. *)
Theorem blacklist_entry_outlives_expiry (now : Z) (url : string) (entry : BlackListEntry)
    (blacklist : blacklist_t) :
  length (isBlacklisted now url blacklist).2 = length blacklist
  ∧ isBlacklisted now (host entry) [entry] = (MAX_ERRORCOUNT <? errorCount entry, [entry])
  ∧ is_obsolete 100 (Fixtures.listed_entry 10) = true
  ∧ isBlacklisted 100 "http://sim.example/cap" [Fixtures.listed_entry 10]
      = (true, [Fixtures.listed_entry 10]).
Proof.
  split; [| split; [| split; reflexivity]].
  - unfold isBlacklisted, find. simpl. apply cleanup_length.
  - unfold isBlacklisted, find. rewrite cleanup_single. simpl.
    unfold host_matches. rewrite prefix_refl. reflexivity.
Qed.

End SGHostBlackListFacts.

(** ** The texture fetch worker *)

Module TextureFetchFacts.
Import TextureFetch.

Section Facts.
Context {F32 B : Type} `{FloatOps F32} `{LLWorkerClass B} `{Constants}.
Abbreviation Worker := (@Worker F32 B).
Abbreviation Fetcher := (@Fetcher F32 B).
Abbreviation Env := (@Env F32).

(** C10.  For an id without a worker in the request map,
    [getRequestFinished] answers [true], reporting the request as finished,
    and leaves the discard level, the raw image and the aux image of the
    caller as they were. *)
Theorem getRequestFinished_no_worker (id : LLUUID) (discard_level : Z)
    (raw aux : option LLImageRaw) (f : Fetcher) :
  mRequestMap f !! id = None →
  getRequestFinished id discard_level raw aux f = (true, (discard_level, raw, aux), f).
Proof.
  intros Hnone. unfold getRequestFinished. rewrite Hnone. reflexivity.
Qed.

(** Whatever is asked, [setDesiredDiscard] sends a worker that is DONE back
    to INIT. *)
Lemma setDesiredDiscard_from_DONE (pause : bool) (discard size : Z) (w : Worker) :
  mState w = DONE → mState (setDesiredDiscard pause discard size w) = INIT.
Proof.
  intros Hdone. unfold setDesiredDiscard.
  repeat match goal with
         | |- context [if ?c then _ else _] =>
             match c with
             | context [bool_decide] => fail 1
             | _ => destruct c
             end
         end; simpl; rewrite Hdone; simpl; rewrite ?orb_true_r; reflexivity.
Qed.

Lemma setImagePriority_state (priority : F32) (w : Worker) :
  mState (setImagePriority priority w) = mState w.
Proof.
  unfold setImagePriority.
  destruct (priority_moved priority (mImagePriority w) || bool_decide (mState w = DONE)); reflexivity.
Qed.

(** *** Entering [doWork] in a given state *)

Lemma in_state_other (st : e_state) blk (w : Worker) (f : Fetcher) :
  mState w ≠ st → in_state st blk (FallThrough, w, f) = (FallThrough, w, f).
Proof. intros Hne. unfold in_state. rewrite bool_decide_eq_false_2; auto. Qed.

Lemma in_state_here (st : e_state) blk (w : Worker) (f : Fetcher) :
  mState w = st → in_state st blk (FallThrough, w, f) = blk w f.
Proof. intros Heq. unfold in_state. rewrite bool_decide_eq_true_2; auto. Qed.

Lemma in_state_returned (st : e_state) blk b (w : Worker) (f : Fetcher) :
  in_state st blk (Returns b, w, f) = (Returns b, w, f).
Proof. reflexivity. Qed.

(** The checks at the top let a worker through when nobody is quitting or
    deleting it, a transport is left, and the fetcher is not paused. *)
Lemma doWork_entry_passes (e : Env) (w : Worker) (f : Fetcher) :
  isQuitting e = false →
  getFlags WCF_DELETE_REQUESTED (mWork w) = false →
  mCanUseNET w = true ∨ mCanUseHTTP w = true →
  mDebugPause f = false →
  state_value LOAD_FROM_SIMULATOR < state_value (mState w) →
  doWork_entry e w f =
    (FallThrough, if bool_decide (mState w = DONE) then w else set_mFetchTimer (now e) w, f).
Proof.
  intros Hq Hdel Huse Hpause Hlate. unfold doWork_entry.
  rewrite Hq, Hdel, Hpause.
  assert (Huse' : negb (mCanUseNET w) && negb (mCanUseHTTP w) = false).
  { destruct Huse as [-> | ->]; simpl; rewrite ?andb_false_r; reflexivity. }
  rewrite <- andb_assoc, Huse', andb_false_r.
  destruct (mState w); simpl in Hlate; try lia; simpl;
    rewrite ?andb_false_r; reflexivity.
Qed.

(** A worker that enters [doWork] in WAIT_HTTP_REQ leaves it from the
    WAIT_HTTP_REQ block. *)
Lemma doWork_WAIT_HTTP_REQ_returns (e : Env) (w : Worker) (f : Fetcher) :
  ∃ b w' f', doWork_WAIT_HTTP_REQ e w f = (Returns b, w', f').
Proof.
  unfold doWork_WAIT_HTTP_REQ, doWork_http_failed, doWork_http_received.
  repeat match goal with
         | |- context [if ?c then _ else _] => destruct c
         | |- context [let '(_, _) := ?c in _] => destruct c
         end; eauto.
Qed.

Lemma doWork_in_WAIT_HTTP_REQ (e : Env) (w : Worker) (f : Fetcher) b w' f' :
  isQuitting e = false →
  getFlags WCF_DELETE_REQUESTED (mWork w) = false →
  mCanUseNET w = true ∨ mCanUseHTTP w = true →
  mDebugPause f = false →
  mState w = WAIT_HTTP_REQ →
  doWork_WAIT_HTTP_REQ e (set_mFetchTimer (now e) w) f = (Returns b, w', f') →
  doWork e w f = (Some b, w', f').
Proof.
  intros Hq Hdel Huse Hpause Hst Hblock. unfold doWork.
  rewrite doWork_entry_passes by (auto; rewrite Hst; simpl; lia).
  rewrite Hst. simpl bool_decide. cbv iota.
  rewrite !in_state_other by (simpl; rewrite Hst; discriminate).
  rewrite in_state_here by (simpl; exact Hst).
  rewrite Hblock. reflexivity.
Qed.

Lemma doWork_in_DONE (e : Env) (w : Worker) (f : Fetcher) :
  isQuitting e = false →
  getFlags WCF_DELETE_REQUESTED (mWork w) = false →
  mCanUseNET w = true ∨ mCanUseHTTP w = true →
  mDebugPause f = false →
  mState w = DONE →
  doWork e w f =
    (if (0 <=? mDecodedDiscard w) && (mDesiredDiscard w <? mDecodedDiscard w)
     then (Some false,
           worker_setPriority (Z.lor PRIORITY_HIGH (mWorkPriority w)) (set_mState INIT w), f)
     else (Some true, worker_setPriority (Z.lor PRIORITY_LOW (mWorkPriority w)) w, f)).
Proof.
  intros Hq Hdel Huse Hpause Hst. unfold doWork.
  rewrite doWork_entry_passes by (auto; rewrite Hst; simpl; lia).
  rewrite Hst. simpl bool_decide. cbv iota.
  rewrite !in_state_other by (rewrite Hst; discriminate).
  rewrite in_state_here by exact Hst.
  unfold doWork_DONE.
  destruct ((0 <=? mDecodedDiscard w) && (mDesiredDiscard w <? mDecodedDiscard w)); reflexivity.
Qed.

Lemma doWork_in_SEND_HTTP_REQ (e : Env) (w : Worker) (f : Fetcher) w' f' :
  isQuitting e = false →
  getFlags WCF_DELETE_REQUESTED (mWork w) = false →
  mDebugPause f = false →
  mState w = SEND_HTTP_REQ →
  mCanUseHTTP w = true →
  doWork_SEND_HTTP_REQ e (set_mFetchTimer (now e) w) f = (FallThrough, w', f') →
  mState w' = WAIT_HTTP_REQ →
  mLoaded w' = false →
  mRequestedTimer w' = now e →
  doWork e w f =
    (Some false, worker_setPriority (Z.lor PRIORITY_LOW (mWorkPriority w')) w', f').
Proof.
  intros Hq Hdel Hpause Hst Hhttp Hblock Hst' Hloaded Htimer. unfold doWork.
  rewrite doWork_entry_passes by (auto; rewrite Hst; simpl; lia).
  rewrite Hst. simpl bool_decide. cbv iota.
  rewrite !in_state_other by (simpl; rewrite Hst; discriminate).
  rewrite in_state_here by (simpl; exact Hst).
  rewrite Hblock.
  rewrite in_state_here by exact Hst'.
  unfold doWork_WAIT_HTTP_REQ. rewrite Hloaded, Htimer, Z.sub_diag. simpl.
  reflexivity.
Qed.

(** C7.  In SEND_HTTP_REQ, once the request is admitted and the data held
    is not complete, the worker asks for the bytes behind the [cur_size] it
    holds; when [cur_size > 0] the offset is decremented and the size
    incremented by one.  The GET carries the header
    Range: bytes=<offset>-<offset+size-1> whenever the offset or the size is
    positive, and the worker waits in WAIT_HTTP_REQ. *)
Theorem send_http_request_range (e : Env) (w : Worker) (f : Fetcher) :
  isQuitting e = false →
  getFlags WCF_DELETE_REQUESTED (mWork w) = false →
  mDebugPause f = false →
  mState w = SEND_HTTP_REQ →
  mCanUseHTTP w = true →
  getNumHTTPRequests f < max_http_requests e →
  f32_gtb (mTextureBandwidth f) (throttle_bandwidth e) = false
    ∨ getNumHTTPRequests f ≤ min_http_requests e →
  mUrl w ≠ EmptyString →
  (∀ image, mFormattedImage w = Some image → getDiscardLevel image ≠ 0) →
  let cur_size := data_size_of (mFormattedImage w) in
  let offset := if 0 <? cur_size then cur_size - 1 else cur_size in
  let size :=
    if 0 <? cur_size then mDesiredSize w - cur_size + 1 else mDesiredSize w - cur_size in
  let range :=
    if (0 <? offset) || (0 <? size)
    then [("Range",
           "bytes=" +:+ pretty offset +:+ "-" +:+ pretty (offset + size - 1))]
    else [] in
  ∃ w' f',
    doWork e w f = (Some false, w', f')
    ∧ mState w' = WAIT_HTTP_REQ
    ∧ mRequestedOffset w' = offset
    ∧ mRequestedSize w' = size
    ∧ calls f' =
        calls f ++ [HTTPGet (mUrl w) ([("Accept", "image/x-j2c")] ++ range) (now e)
                            size offset true].
Proof.
  intros Hq Hdel Hpause Hst Hhttp Hmax Hband Hurl Hpartial cur_size offset size range.
  assert (Hadmit :
    (max_http_requests e <=? getNumHTTPRequests f)
    || (f32_gtb (mTextureBandwidth f) (throttle_bandwidth e)
        && (min_http_requests e <? getNumHTTPRequests f)) = false).
  { apply orb_false_iff. split; [apply Z.leb_gt; lia |].
    destruct Hband as [-> | Hmin]; [reflexivity |].
    apply andb_false_iff. right. apply Z.ltb_ge. lia. }
  assert (Hblock : ∃ w3 f3,
    doWork_SEND_HTTP_REQ e (set_mFetchTimer (now e) w) f = (FallThrough, w3, f3)
    ∧ mState w3 = WAIT_HTTP_REQ ∧ mLoaded w3 = false ∧ mRequestedTimer w3 = now e
    ∧ mRequestedOffset w3 = offset ∧ mRequestedSize w3 = size
    ∧ calls f3 =
        calls f ++ [HTTPGet (mUrl w) ([("Accept", "image/x-j2c")] ++ range) (now e)
                            size offset true]).
  { unfold doWork_SEND_HTTP_REQ. simpl mCanUseHTTP. rewrite Hhttp. rewrite Hadmit.
    simpl mFormattedImage. fold cur_size.
    assert (Hno : match mFormattedImage w with
                  | Some image =>
                      if getDiscardLevel image =? 0
                      then if 0 <? cur_size
                           then Some (Returns false,
                                  set_mState DECODE_IMAGE
                                    (set_mLoadedDiscard (getDiscardLevel image)
                                       (set_mFetchTimer (now e) w)),
                                  removeFromNetworkQueue (set_mFetchTimer (now e) w) false f)
                           else Some (Returns true, set_mFetchTimer (now e) w,
                                  removeFromNetworkQueue (set_mFetchTimer (now e) w) false f)
                      else None
                  | None => None
                  end = None).
    { destruct (mFormattedImage w) as [image |] eqn:Himg; [| reflexivity].
      specialize (Hpartial image eq_refl).
      destruct (getDiscardLevel image =? 0) eqn:Hz; [apply Z.eqb_eq in Hz; contradiction |].
      reflexivity. }
    rewrite Hno. simpl mUrl.
    rewrite bool_decide_eq_false_2 by exact Hurl. simpl negb. cbv iota.
    simpl. fold cur_size. unfold range, offset, size.
    destruct (0 <? cur_size) eqn:Hcur.
    - eexists _, _. split; [reflexivity |]. simpl.
      destruct ((0 <? cur_size - 1) || (0 <? mDesiredSize w - cur_size + 1));
        repeat split; reflexivity.
    - eexists _, _. split; [reflexivity |]. simpl. fold cur_size.
      destruct ((0 <? cur_size) || (0 <? mDesiredSize w - cur_size));
        repeat split; reflexivity. }
  destruct Hblock as (w3 & f3 & Hblock & Hst3 & Hl3 & Ht3 & Hoff & Hsize & Hcalls).
  eexists _, _. split.
  { eapply doWork_in_SEND_HTTP_REQ; eauto. }
  simpl. auto.
Qed.

(** *** Copying into a fresh buffer *)

Lemma memcpy_front (old : list Byte.byte) (total : Z) :
  Z.of_nat (length old) ≤ total →
  memcpy (ALLOCATE_MEM total) 0 old (Z.of_nat (length old)) =
    old ++ replicate (Z.to_nat total - length old) Byte.x00.
Proof.
  intros Hle. unfold memcpy, ALLOCATE_MEM. simpl.
  rewrite Nat2Z.id, firstn_all, drop_replicate. reflexivity.
Qed.

Lemma memcpy_behind (old src : list Byte.byte) (pad : nat) :
  pad = length src →
  memcpy (old ++ replicate pad Byte.x00) (Z.of_nat (length old)) src (Z.of_nat (length src)) =
    old ++ src.
Proof.
  intros ->. unfold memcpy.
  rewrite !Nat2Z.id, take_app_length, firstn_all.
  rewrite drop_ge by (rewrite length_app, length_replicate; lia).
  rewrite app_nil_r. reflexivity.
Qed.

Lemma doWork_http_received_gap (e : Env) (w : Worker) (f : Fetcher) image :
  mFormattedImage w = Some image →
  mHttpBuffer w ≠ [] →
  mRequestedOffset w ≠ 0 →
  getDataSize image < mRequestedOffset w →
  doWork_http_received e (getDataSize image) w f = (Returns true, set_mState DONE w, f).
Proof.
  intros Himg Hbody Hoff Hgap. unfold doWork_http_received.
  rewrite bool_decide_eq_false_2 by exact Hbody.
  replace (mRequestedOffset w =? 0) with false by (symmetry; apply Z.eqb_neq; exact Hoff).
  replace (mRequestedOffset w =? getDataSize image) with false
    by (symmetry; apply Z.eqb_neq; lia).
  replace (getDataSize image <? mRequestedOffset w) with true
    by (symmetry; apply Z.ltb_lt; exact Hgap).
  reflexivity.
Qed.

Lemma doWork_http_received_overlap (e : Env) (w : Worker) (f : Fetcher) image :
  mFormattedImage w = Some image →
  mHttpBuffer w ≠ [] →
  mRequestedSize w = Z.of_nat (length (mHttpBuffer w)) →
  0 < mRequestedOffset w ≤ getDataSize image →
  getDataSize image - mRequestedOffset w ≤ mRequestedSize w →
  ∃ w', doWork_http_received e (getDataSize image) w f = (Returns false, w', f)
        ∧ mState w' = DECODE_IMAGE
        ∧ image_data <$> mFormattedImage w' =
            Some (image_data image
                    ++ drop (Z.to_nat (getDataSize image - mRequestedOffset w)) (mHttpBuffer w)).
Proof.
  intros Himg Hbody Hsize Hoff Hfit. unfold doWork_http_received.
  rewrite bool_decide_eq_false_2 by exact Hbody.
  replace (mRequestedOffset w =? 0) with false by (symmetry; apply Z.eqb_neq; lia).
  replace (getDataSize image <? mRequestedOffset w) with false
    by (symmetry; apply Z.ltb_ge; lia).
  rewrite andb_false_r.
  set (held := getDataSize image) in *.
  set (skip := held - mRequestedOffset w).
  set (body := drop (Z.to_nat skip) (mHttpBuffer w)).
  assert (Hheld : held = Z.of_nat (length (image_data image))) by reflexivity.
  assert (Hbodylen : Z.of_nat (length body) = mRequestedSize w - skip).
  { unfold body. rewrite length_drop. lia. }
  assert (Hresult : ∀ buffer total,
    total = held + (mRequestedSize w - skip) →
    buffer =
      (if 0 <? mRequestedSize w - skip
       then memcpy (if 0 <? held then memcpy (ALLOCATE_MEM total) 0 (image_data image) held
                    else ALLOCATE_MEM total)
                   held body (mRequestedSize w - skip)
       else if 0 <? held then memcpy (ALLOCATE_MEM total) 0 (image_data image) held
            else ALLOCATE_MEM total) →
    image_data (setData buffer total image) = image_data image ++ body).
  { intros buffer total -> ->.
    replace (0 <? held) with true by (symmetry; apply Z.ltb_lt; lia).
    assert (Hpad : 0 ≤ mRequestedSize w - skip) by (unfold skip; lia).
    revert Hpad Hbodylen. generalize (mRequestedSize w - skip). intros n Hpad Hbodylen.
    clearbody held. subst held.
    rewrite memcpy_front by lia.
    unfold setData. simpl.
    destruct (0 <? n) eqn:Hpos.
    - rewrite <- Hbodylen.
      rewrite memcpy_behind by lia.
      rewrite firstn_all2; [reflexivity |]. rewrite length_app. lia.
    - apply Z.ltb_ge in Hpos.
      assert (length body = 0%nat) as Hnil by lia.
      destruct body; [| discriminate]. rewrite app_nil_r.
      rewrite take_app_length'; [reflexivity | lia]. }
  destruct (negb (mRequestedOffset w =? held)) eqn:Hmis; simpl.
  - rewrite Himg. simpl.
    destruct (mHaveAllData w && (mRequestedDiscard w =? 0)); simpl;
      destruct (bool_decide (mWriteToCacheState w = NOT_WRITE)); simpl;
      (eexists; split; [reflexivity |]; simpl; split; [reflexivity |]; f_equal;
       apply Hresult; [fold skip; lia |]; fold skip;
       replace (mRequestedOffset w + skip) with held by (unfold skip; lia); reflexivity).
  - apply negb_false_iff, Z.eqb_eq in Hmis.
    assert (Hskip : skip = 0) by (unfold skip; lia).
    rewrite Himg. simpl.
    destruct (mHaveAllData w && (mRequestedDiscard w =? 0)); simpl;
      destruct (bool_decide (mWriteToCacheState w = NOT_WRITE)); simpl;
      (eexists; split; [reflexivity |]; simpl; split; [reflexivity |]; f_equal;
       rewrite <- (Hresult _ (held + (mRequestedSize w - skip)) eq_refl eq_refl);
       unfold body; rewrite Hskip, Z.sub_0_r, Hmis; reflexivity).
Qed.

(** *** The packet assembler *)

Lemma packet_present_outside (packets : list (option PacketData)) (i : Z) :
  Z.of_nat (length packets) ≤ i → packet_present packets i = false.
Proof.
  intros Hout. unfold packet_present.
  rewrite lookup_ge_None_2 by lia. reflexivity.
Qed.

Lemma advance_last_packet_spec (fuel : nat) (packets : list (option PacketData)) (last : Z) :
  -1 ≤ last →
  Z.of_nat (length packets) - (last + 1) ≤ Z.of_nat fuel →
  let last' := advance_last_packet fuel packets last in
  last ≤ last'
  ∧ (∀ i, last < i ≤ last' → packet_present packets i = true)
  ∧ packet_present packets (last' + 1) = false.
Proof.
  revert last. induction fuel as [| fuel IH]; intros last Hlow Hfuel; simpl.
  - split; [lia |]. split; [intros i Hi; lia |].
    apply packet_present_outside. lia.
  - destruct ((last + 1 <? Z.of_nat (length packets)) && packet_present packets (last + 1))
      eqn:Hnext.
    + apply andb_true_iff in Hnext as [Hin Hpresent].
      destruct (IH (last + 1)) as (Hle & Hrun & Hstop); [lia | lia |].
      split; [lia |]. split; [| exact Hstop].
      intros i Hi. destruct (decide (i = last + 1)) as [-> | Hne]; [exact Hpresent |].
      apply Hrun. lia.
    + split; [lia |]. split; [intros i Hi; lia |].
      apply andb_false_iff in Hnext as [Hout | Habsent]; [| exact Habsent].
      apply packet_present_outside. apply Z.ltb_ge in Hout. lia.
Qed.

Lemma resize_packets_lookup (n : nat) (packets : list (option PacketData)) (i : nat) :
  (length packets ≤ n)%nat →
  mjoin (resize_packets n packets !! i) = mjoin (packets !! i).
Proof.
  intros Hgrow. unfold resize_packets.
  rewrite firstn_all2 by lia.
  destruct (decide (i < length packets)%nat) as [Hin | Hout].
  - rewrite lookup_app_l by lia. reflexivity.
  - rewrite lookup_app_r by lia.
    rewrite (lookup_ge_None_2 packets) by lia.
    destruct (replicate (n - length packets) None !! (i - length packets)%nat) eqn:Hr;
      [| reflexivity].
    apply lookup_replicate in Hr as [-> _]. reflexivity.
Qed.

Lemma resize_packets_length (n : nat) (packets : list (option PacketData)) :
  (length packets ≤ n)%nat → length (resize_packets n packets) = n.
Proof.
  intros Hgrow. unfold resize_packets.
  rewrite firstn_all2 by lia. rewrite length_app, length_replicate. lia.
Qed.

(** C5.  [insertPacket] rejects the packet exactly when its index is not
    below [mTotalPackets], or it is a middle packet whose size is not
    [MAX_IMG_PACKET_SIZE], or a packet is already stored at the index; the
    packets and [mLastPacket] are then unchanged.  Otherwise the packet is
    stored and [mLastPacket] advances over the packets that are present,
    stopping in front of the first one that is missing. *)
Theorem insertPacket_rejects_or_stores (t index size : Z) (data : list Byte.byte)
    (w : Worker) :
  0 ≤ index →
  -1 ≤ mLastPacket w →
  let r := insertPacket t index data size w in
  (r.1 = false ↔
     mTotalPackets w ≤ index
     ∨ (0 < index < mTotalPackets w - 1 ∧ size ≠ MAX_IMG_PACKET_SIZE)
     ∨ packet_present (mPackets w) index = true)
  ∧ (r.1 = false → mPackets r.2 = mPackets w ∧ mLastPacket r.2 = mLastPacket w)
  ∧ (r.1 = true →
       mPackets r.2 !! Z.to_nat index = Some (Some {| mData := data; mSize := size |})
       ∧ (∀ i, i ≠ Z.to_nat index → mjoin (mPackets r.2 !! i) = mjoin (mPackets w !! i))
       ∧ mLastPacket w ≤ mLastPacket r.2
       ∧ (∀ i, mLastPacket w < i ≤ mLastPacket r.2 → packet_present (mPackets r.2) i = true)
       ∧ packet_present (mPackets r.2) (mLastPacket r.2 + 1) = false).
Proof.
  intros Hindex Hlast. unfold insertPacket. simpl.
  destruct (mTotalPackets w <=? index) eqn:Htotal.
  { apply Z.leb_le in Htotal. simpl.
    split; [split; [intros _; left; exact Htotal | reflexivity] |].
    split; [intros _; split; reflexivity | discriminate]. }
  apply Z.leb_gt in Htotal.
  destruct ((0 <? index) && (index <? mTotalPackets w - 1)
            && negb (size =? MAX_IMG_PACKET_SIZE)) eqn:Hmiddle.
  { apply andb_true_iff in Hmiddle as [Hmid Hsize].
    apply andb_true_iff in Hmid as [Hpos Hbelow].
    apply Z.ltb_lt in Hpos, Hbelow. apply negb_true_iff, Z.eqb_neq in Hsize. simpl.
    split; [split; [intros _; right; left; auto | reflexivity] |].
    split; [intros _; split; reflexivity | discriminate]. }
  assert (Hnot_middle : ¬ (0 < index < mTotalPackets w - 1 ∧ size ≠ MAX_IMG_PACKET_SIZE)).
  { intros [[Hpos Hbelow] Hsize].
    apply Z.ltb_lt in Hpos, Hbelow. apply Z.eqb_neq in Hsize.
    rewrite Hpos, Hbelow, Hsize in Hmiddle. discriminate. }
  destruct (Z.of_nat (length (mPackets w)) <=? index) eqn:Hgrown; simpl.
  - apply Z.leb_le in Hgrown.
    assert (Habsent : packet_present (mPackets w) index = false)
      by (apply packet_present_outside; exact Hgrown).
    set (packets := resize_packets (Z.to_nat (index + 1)) (mPackets w)).
    assert (Hlen : length packets = Z.to_nat (index + 1))
      by (apply resize_packets_length; lia).
    set (packets' := <[Z.to_nat index := Some {| mData := data; mSize := size |}]> packets).
    assert (Hlen' : length packets' = Z.to_nat (index + 1))
      by (unfold packets'; rewrite length_insert; exact Hlen).
    split.
    { split; [discriminate |]. intros [Hout | [Hmid | Hdup]]; [lia | tauto | congruence]. }
    split; [discriminate |]. intros _.
    split; [apply list_lookup_insert_eq; lia |].
    split.
    { intros i Hi. unfold packets'. rewrite list_lookup_insert_ne by auto.
      apply resize_packets_lookup. lia. }
    apply advance_last_packet_spec; [exact Hlast | lia].
  - apply Z.leb_gt in Hgrown.
    destruct (packet_present (mPackets w) index) eqn:Hdup; simpl.
    { split; [split; [intros _; right; right; reflexivity | reflexivity] |].
      split; [intros _; split; reflexivity | discriminate]. }
    set (packets' := <[Z.to_nat index := Some {| mData := data; mSize := size |}]> (mPackets w)).
    assert (Hlen' : length packets' = length (mPackets w))
      by (unfold packets'; apply length_insert).
    split.
    { split; [discriminate |]. intros [Hout | [Hmid | Hd]]; [lia | tauto | congruence]. }
    split; [discriminate |]. intros _.
    split; [apply list_lookup_insert_eq; lia |].
    split.
    { intros i Hi. unfold packets'. rewrite list_lookup_insert_ne by auto. reflexivity. }
    apply advance_last_packet_spec; [exact Hlast | lia].
Qed.

(** C3.  A body arrives in WAIT_HTTP_REQ for a worker that holds [held]
    bytes.  When the requested offset lies beyond the data held there is a
    gap: the worker gives up in DONE and keeps its data.  When the offset is
    positive and at most [held] the worker skips the [held - offset]
    overlapping leading bytes of the body, appends the rest, and goes to
    DECODE_IMAGE with [held + length - (held - offset)] bytes. *)
Theorem http_body_gap_or_overlap (e : Env) (w : Worker) (f : Fetcher)
    (image : LLImageFormatted) :
  isQuitting e = false →
  getFlags WCF_DELETE_REQUESTED (mWork w) = false →
  mCanUseNET w = true ∨ mCanUseHTTP w = true →
  mDebugPause f = false →
  mState w = WAIT_HTTP_REQ →
  mLoaded w = true →
  mFormattedImage w = Some image →
  mHttpBuffer w ≠ [] →
  mRequestedSize w = Z.of_nat (length (mHttpBuffer w)) →
  let held := getDataSize image in
  let skip := held - mRequestedOffset w in
  (held < mRequestedOffset w →
     ∃ w', doWork e w f = (Some true, w', f)
           ∧ mState w' = DONE
           ∧ mFormattedImage w' = Some image)
  ∧ (0 < mRequestedOffset w ≤ held →
     skip ≤ mRequestedSize w →
     ∃ w', doWork e w f = (Some false, w', f)
           ∧ mState w' = DECODE_IMAGE
           ∧ image_data <$> mFormattedImage w' =
               Some (image_data image ++ drop (Z.to_nat skip) (mHttpBuffer w))
           ∧ data_size_of (mFormattedImage w') = held + mRequestedSize w - skip).
Proof.
  intros Hq Hdel Huse Hpause Hst Hloaded Himg Hbody Hsize held skip.
  assert (Hblock : doWork_WAIT_HTTP_REQ e (set_mFetchTimer (now e) w) f =
                   doWork_http_received e held (set_mFetchTimer (now e) w) f).
  { unfold doWork_WAIT_HTTP_REQ. simpl. rewrite Hloaded, Himg. simpl.
    replace (mRequestedSize w <? 0) with false by (symmetry; apply Z.ltb_ge; lia).
    reflexivity. }
  split.
  - intros Hgap.
    assert (Hheld : 0 ≤ held) by (unfold held, getDataSize; lia).
    eexists. split.
    + eapply doWork_in_WAIT_HTTP_REQ; eauto.
      rewrite Hblock. apply doWork_http_received_gap; simpl; auto. lia.
    + split; [reflexivity | exact Himg].
  - intros Hoff Hfit.
    destruct (doWork_http_received_overlap e (set_mFetchTimer (now e) w) f image)
      as (w' & Hrun & Hst' & Hdata); simpl; auto.
    exists w'. split; [eapply doWork_in_WAIT_HTTP_REQ; eauto; rewrite Hblock; exact Hrun |].
    split; [exact Hst' |]. simpl in Hdata. split; [exact Hdata |].
    destruct (mFormattedImage w') as [image' |]; [| discriminate].
    simpl in *. injection Hdata as Hdata. unfold getDataSize. rewrite Hdata.
    rewrite length_app, length_drop. fold held. unfold held, getDataSize in *. lia.
Qed.

(** C8.  On a 404 or a 499 in WAIT_HTTP_REQ the URL is added to the
    blacklist for 60 seconds when the status is 499, and the formatted data
    is reset.  With the simulator available the worker clears its HTTP
    permission and returns to INIT.  Without it [doWork] returns [true] but
    the worker is left in WAIT_HTTP_REQ: the state DONE is not entered. *)
Theorem http_404_499_fallback (e : Env) (w : Worker) (f : Fetcher) :
  isQuitting e = false →
  getFlags WCF_DELETE_REQUESTED (mWork w) = false →
  mCanUseNET w = true ∨ mCanUseHTTP w = true →
  mDebugPause f = false →
  mState w = WAIT_HTTP_REQ →
  mLoaded w = true →
  mRequestedSize w < 0 →
  mGetStatus w = HTTP_NOT_FOUND ∨ mGetStatus w = 499 →
  ∃ b w' f',
    doWork e w f = (Some b, w', f')
    ∧ blacklist f' =
        (if mGetStatus w =? 499
         then SGHostBlackList.add (now e) (mUrl w) f32_sixty 499 (blacklist f)
         else blacklist f)
    ∧ mHttpBuffer w' = []
    ∧ mFormattedImage w' = deleteData <$> mFormattedImage w
    ∧ mHaveAllData w' = false
    ∧ (if mCanUseNET w
       then b = false ∧ mState w' = INIT ∧ mCanUseHTTP w' = false
       else b = true ∧ mState w' = WAIT_HTTP_REQ).
Proof.
  intros Hq Hdel Huse Hpause Hst Hloaded Hfailed Hstatus.
  assert (Hblock : doWork_WAIT_HTTP_REQ e (set_mFetchTimer (now e) w) f =
                   doWork_http_failed e (data_size_of (mFormattedImage w))
                     (set_mFetchTimer (now e) w) f).
  { unfold doWork_WAIT_HTTP_REQ. simpl. rewrite Hloaded.
    replace (mRequestedSize w <? 0) with true by (symmetry; apply Z.ltb_lt; lia).
    reflexivity. }
  unfold doWork_http_failed in Hblock. simpl in Hblock.
  destruct Hstatus as [Hs | Hs]; rewrite Hs in *; simpl in Hblock;
    destruct (mCanUseNET w) eqn:Hnet; simpl in Hblock;
    (eexists _, _, _; split;
     [eapply doWork_in_WAIT_HTTP_REQ; eauto; rewrite Hnet; auto
     | simpl; rewrite ?Hst; repeat split; reflexivity]).
Qed.

Lemma doWork_from_DONE (e : Env) (w : Worker) (f : Fetcher) :
  mState w = DONE →
  (mState (doWork e w f).1.2 = INIT
   ∧ 0 ≤ mDecodedDiscard w ∧ mDesiredDiscard w < mDecodedDiscard w)
  ∨ mState (doWork e w f).1.2 = DONE.
Proof.
  intros Hst.
  assert (Hentry :
    doWork_entry e w f = (Returns true, w, f) ∨ doWork_entry e w f = (Returns false, w, f)
    ∨ doWork_entry e w f = (FallThrough, w, f)).
  { unfold doWork_entry. rewrite Hst. simpl. rewrite !andb_false_r.
    destruct (negb (mCanUseNET w) && negb (mCanUseHTTP w)); [auto |].
    destruct (mDebugPause f); auto. }
  unfold doWork.
  destruct Hentry as [-> | [-> | ->]]; [right; exact Hst | right; exact Hst |].
  rewrite !in_state_other by (rewrite Hst; discriminate).
  rewrite in_state_here by exact Hst.
  unfold doWork_DONE.
  destruct ((0 <=? mDecodedDiscard w) && (mDesiredDiscard w <? mDecodedDiscard w)) eqn:Hfiner;
    simpl.
  - left. apply andb_true_iff in Hfiner as [Hdec Hlow].
    apply Z.leb_le in Hdec. apply Z.ltb_lt in Hlow. auto.
  - right. exact Hst.
Qed.

(** C4.  A worker that is DONE is sent back to INIT by every call of
    [setDesiredDiscard], whatever the discard and the size; by [doWork] only
    when a decoded discard exists and the desired discard is strictly lower;
    and never by [setImagePriority]. *)
Theorem done_worker_reentry (e : Env) (w : Worker) (f : Fetcher) :
  mState w = DONE →
  (∀ pause discard size, mState (setDesiredDiscard pause discard size w) = INIT)
  ∧ (∀ priority, mState (setImagePriority priority w) = DONE)
  ∧ ((mState (doWork e w f).1.2 = INIT
      ∧ 0 ≤ mDecodedDiscard w ∧ mDesiredDiscard w < mDecodedDiscard w)
     ∨ mState (doWork e w f).1.2 = DONE).
Proof.
  intros Hst. split; [| split].
  - intros pause discard size. apply setDesiredDiscard_from_DONE. exact Hst.
  - intros priority. rewrite setImagePriority_state. exact Hst.
  - apply doWork_from_DONE. exact Hst.
Qed.

End Facts.
End TextureFetchFacts.

(** ** The properties on concrete requests and workers *)

Module AIPerServiceExamples.
Import AIPerService Fixtures.
#[local] Existing Instances flags recording_handle.

(** With queues of sizes (3, 3, 2, 2) the five dispatches are not from the
    types 0, 1, 0, 1, 2. *)
Lemma dispatch_3322_is_not_0_1_0_1_2 :
  fst <$> multi_handle (shared (add_queued_to_times 5 0 registry_3322)) ≠ [0; 1; 0; 1; 2].
Proof. vm_compute. discriminate. Qed.

Lemma approved_queues_3322_dispatch_order_witness :
  multi_handle (shared (add_queued_to_times 5 0 registry_3322)) =
    [(0, 1%nat); (1, 1%nat); (1, 2%nat); (0, 2%nat); (0, 3%nat)].
Proof.
  destruct (AIPerServiceFacts.approved_queues_3322_dispatch_order service_3322
              (0, 1%nat) (0, 2%nat) (0, 3%nat) (1, 1%nat) (1, 2%nat) (1, 3%nat)
              (2, 1%nat) (2, 2%nat) (3, 1%nat) (3, 2%nat)
              "sim.example:12046" ten_queued [])
    as (_ & Hhanded & _ & _); [reflexivity | reflexivity | reflexivity |].
  exact (f_equal (λ l, default [] (l !! 4%nat)) Hhanded).
Defined.

Lemma cancel_keeps_queue_order_witness :
  (2 : nat) ∈ [1; 2; 3; 4]%nat
  ∧ ∃ svc' tq',
      cancel 2%nat 0 service_1234 ten_queued = (true, svc', tq')
      ∧ mQueuedRequests (capability svc' 0) = [1; 3; 4]%nat.
Proof.
  assert (Hin : (2 : nat) ∈ [1; 2; 3; 4]%nat) by (apply list_elem_of_In; simpl; auto).
  split; [exact Hin |].
  destruct (AIPerServiceFacts.cancel_keeps_queue_order (M := list nat)
              service_1234 ten_queued 2%nat 0 1%nat 2%nat 3%nat 4%nat 8
              "sim.example:12046" []
              {| PerHostRequestQueue.mQueuedRequests := [1; 2; 3; 4]%nat;
                 PerHostRequestQueue.mAdded := 0 |}) as (Hcancel & _ & _).
  destruct Hcancel as (front & back & Hsplit & Hfresh & svc' & tq' & Hrun & Hqueue & _);
    [lia | exact Hin |].
  exists svc', tq'. split; [exact Hrun |]. rewrite Hqueue.
  change (mQueuedRequests (capability service_1234 0)) with [1; 2; 3; 4]%nat in Hsplit.
  destruct front as [| x [| y front]].
  - simpl in Hsplit. discriminate.
  - simpl in Hsplit. injection Hsplit as <- <-. reflexivity.
  - simpl in Hsplit. injection Hsplit as <- <- _.
    exfalso. apply Hfresh. apply list_elem_of_In. simpl. auto.
Defined.

End AIPerServiceExamples.

Module ServiceNameExamples.
Import Chars AIPerService.


End ServiceNameExamples.

Module TextureFetchExamples.
Import TextureFetch Fixtures.
#[local] Existing Instances integer_floats work_requests constants.

(** A request URL below a listed, unexpired key is not denied: [find]
    looks for the URL at the start of the key, not for the key at the start
    of the URL. *)
Lemma url_below_listed_key_not_blacklisted :
  SGHostBlackList.host_of_url "http://sim.example/cap/?texture_id=1"
    = "http://sim.example/cap"
  ∧ SGHostBlackList.isBlacklisted 100 "http://sim.example/cap/?texture_id=1"
      [listed_entry 1000]
      = (false, [listed_entry 1000]).
Proof. split; reflexivity. Qed.

(** The two outcomes of a refused request: without the simulator a 404
    ends the work in WAIT_HTTP_REQ; with it a 499 is recorded in the
    blacklist and the worker restarts in INIT without HTTP. *)
Lemma refused_worker_outcomes :
  (let '(result, w', f') := doWork (quiet_env 0) (refused_worker 404) empty_fetcher in
   result = Some true
   ∧ mState w' = WAIT_HTTP_REQ
   ∧ mFormattedImage w' = None
   ∧ blacklist f' = [])
  ∧ (let '(result, w', f') :=
       doWork (quiet_env 0) (refused_worker_with_udp 499) empty_fetcher in
     result = Some false
     ∧ mState w' = INIT
     ∧ mCanUseHTTP w' = false
     ∧ blacklist f' =
         [{| SGHostBlackList.host := "http://sim.example/cap";
             SGHostBlackList.timeUntil := 60000;
             SGHostBlackList.reason := 499;
             SGHostBlackList.errorCount := 0 |}]).
Proof. vm_compute. repeat split. Qed.

Lemma http_404_499_fallback_witness :
  ∃ w' f',
    doWork (quiet_env 0) (refused_worker 404) empty_fetcher = (Some true, w', f')
    ∧ mState w' = WAIT_HTTP_REQ
    ∧ mState w' ≠ DONE.
Proof.
  destruct (TextureFetchFacts.http_404_499_fallback (quiet_env 0) (refused_worker 404)
              empty_fetcher) as (b & w' & f' & Hrun & _ & _ & _ & _ & Hcase);
    try reflexivity.
  - right. reflexivity.
  - left. reflexivity.
  - change (mCanUseNET (refused_worker 404)) with false in Hcase.
    destruct Hcase as [-> Hstate].
    exists w', f'. rewrite Hstate. repeat split; [exact Hrun | discriminate].
Defined.

Lemma getRequestFinished_no_worker_witness :
  getRequestFinished 7 3 None None empty_fetcher = (true, (3, None, None), empty_fetcher).
Proof.
  apply (TextureFetchFacts.getRequestFinished_no_worker 7 3 None None empty_fetcher).
  reflexivity.
Defined.

Lemma done_worker_reentry_witness :
  mState (done_worker 2 2) = DONE
  ∧ mState (setDesiredDiscard false 3 600 (done_worker 2 2)) = INIT.
Proof.
  split; [reflexivity |].
  apply (TextureFetchFacts.done_worker_reentry (quiet_env 0) (done_worker 2 2) empty_fetcher).
  reflexivity.
Defined.

(** A worker that is DONE with discard 2 decoded goes back to INIT when the
    coarser discard 3 is asked for. *)
Lemma done_worker_restarts_on_coarser_discard :
  ¬ (∀ (w : worker) (discard size : Z),
       mState w = DONE →
       mState (setDesiredDiscard false discard size w) = INIT →
       discard < mDecodedDiscard w).
Proof.
  intros Hall.
  specialize (Hall (done_worker 2 2) 3 600 eq_refl eq_refl).
  vm_compute in Hall. discriminate.
Qed.

(** With 90 bytes held, a body of 200 bytes for offset 100 does not give a
    buffer of 280 bytes in DECODE_IMAGE. *)
Lemma http_body_beyond_held_data_aborts :
  ¬ (let '(_, w', _) := doWork (quiet_env 0) (answered_worker 90 100 200) empty_fetcher in
     mState w' = DECODE_IMAGE ∧ data_size_of (mFormattedImage w') = 280).
Proof.
  vm_compute. intros [Hstate _]. discriminate.
Qed.

Lemma http_body_gap_or_overlap_witness :
  (∃ w', doWork (quiet_env 0) (answered_worker 90 100 200) empty_fetcher
           = (Some true, w', empty_fetcher)
         ∧ mState w' = DONE
         ∧ data_size_of (mFormattedImage w') = 90)
  ∧ (∃ w', doWork (quiet_env 0) (answered_worker 110 100 200) empty_fetcher
           = (Some false, w', empty_fetcher)
         ∧ mState w' = DECODE_IMAGE
         ∧ data_size_of (mFormattedImage w') = 110 + 200 - 10).
Proof.
  split.
  - destruct (TextureFetchFacts.http_body_gap_or_overlap (quiet_env 0)
                (answered_worker 90 100 200) empty_fetcher
                (j2c (bytes 90 Byte.x01) 2)) as [Hgap _];
      try reflexivity; [right; reflexivity | discriminate |].
    destruct Hgap as (w' & Hrun & Hst & Himg); [vm_compute; reflexivity |].
    exists w'. rewrite Himg. auto.
  - destruct (TextureFetchFacts.http_body_gap_or_overlap (quiet_env 0)
                (answered_worker 110 100 200) empty_fetcher
                (j2c (bytes 110 Byte.x01) 2)) as [_ Hoverlap];
      try reflexivity; [right; reflexivity | discriminate |].
    destruct Hoverlap as (w' & Hrun & Hst & _ & Hsize);
      [vm_compute; split; [reflexivity | discriminate] | vm_compute; discriminate |].
    exists w'. rewrite Hsize. auto.
Defined.

Lemma insertPacket_rejects_or_stores_witness :
  (insertPacket 0 2 (bytes 400 Byte.x01) 400 assembling_worker).1 = true
  ∧ (let stored := (insertPacket 0 2 (bytes 400 Byte.x01) 400 assembling_worker).2 in
     packet_present (mPackets stored) (mLastPacket stored + 1) = false)
  ∧ (let rejected := (insertPacket 0 3 (bytes 400 Byte.x01) 400 assembling_worker).2 in
     mPackets rejected = mPackets assembling_worker
     ∧ mLastPacket rejected = mLastPacket assembling_worker).
Proof.
  pose proof (TextureFetchFacts.insertPacket_rejects_or_stores 0 2 400 (bytes 400 Byte.x01)
                assembling_worker) as Hlast.
  pose proof (TextureFetchFacts.insertPacket_rejects_or_stores 0 3 400 (bytes 400 Byte.x01)
                assembling_worker) as Hbeyond.
  cbv zeta in Hlast, Hbeyond.
  destruct Hlast as (Hrejected & _ & Hstored); [lia | vm_compute; discriminate |].
  destruct Hbeyond as (Hexactly & Hunchanged & _); [lia | vm_compute; discriminate |].
  assert (Hok : (insertPacket 0 2 (bytes 400 Byte.x01) 400 assembling_worker).1 = true).
  { destruct (insertPacket 0 2 (bytes 400 Byte.x01) 400 assembling_worker).1; [reflexivity |].
    destruct Hrejected as [Hcases _].
    destruct (Hcases eq_refl) as [Hout | [[[_ Hbelow] _] | Hdup]].
    - vm_compute in Hout. exfalso. apply Hout. reflexivity.
    - vm_compute in Hbelow. discriminate Hbelow.
    - vm_compute in Hdup. discriminate Hdup. }
  split; [exact Hok |]. split.
  - apply Hstored. exact Hok.
  - apply Hunchanged. apply Hexactly. left. vm_compute. discriminate.
Defined.

Lemma send_http_request_range_witness :
  ∃ w' f',
    doWork (quiet_env 0) (sending_worker 1000 3980) empty_fetcher = (Some false, w', f')
    ∧ mRequestedOffset w' = 999
    ∧ mRequestedSize w' = 2981
    ∧ calls f' =
        [HTTPGet "http://sim.example/cap/?texture_id=1"
                 [("Accept", "image/x-j2c"); ("Range", "bytes=999-3979")] 0 2981 999 true].
Proof.
  destruct (TextureFetchFacts.send_http_request_range (quiet_env 0)
              (sending_worker 1000 3980) empty_fetcher)
    as (w' & f' & Hrun & _ & Hoffset & Hsize & Hcalls);
    try reflexivity.
  - left. reflexivity.
  - discriminate.
  - intros image Himage. injection Himage as <-. discriminate.
  - exists w', f'. repeat split; assumption.
Defined.

End TextureFetchExamples.

